(** * sentry-mcp-server: the call-tool dispatcher, its tool registry and the
    retrying HTTP client of [src/index.ts], as a shallow embedding.

    The TypeScript program is untyped at run time: tool arguments and upstream
    payloads are arbitrary JSON.  The embedding therefore works on a type of
    JavaScript values and writes out the coercions the source relies on
    (truthiness, [String(..)], [Number(..)], template literals, property
    reads), each with the exception it can raise.  Asynchronous code is
    written in a state-and-exception monad over the history of network
    events.

    Left out: the writes to the diagnostic stream ([console.error], and
    [logDebug] once its argument is evaluated) and the transport.  The base
    URL and the headers of [axiosInstance] are fixed for all requests and not
    part of a request here; its 10 s timeout shows as a failed attempt. *)

From Stdlib Require Import ZArith NArith List String Ascii Bool Lia Arith.
From Stdlib Require Import Sorting.Sorted Sorting.Permutation.
From Stdlib Require Import DecimalString.
From Equations Require Import Equations.
Import ListNotations.

Set Warnings "-register-all".

Local Open Scope string_scope.
Local Open Scope list_scope.
Local Open Scope Z_scope.

(** String concatenation, as the source's template literals and [+]. *)
Local Infix "^^" := String.append (at level 60, right associativity).

(* ===================================================================== *)
(** ** JavaScript values *)
(* ===================================================================== *)

(** A JavaScript number.  [Num z] is the double whose value is the integer
    [z]; doubles with a fractional part are outside the model (no claim
    reads one). *)
Inductive number : Type :=
| NaN
| Num (z : Z)
| Infinity (positive : bool).

(** The values that flow through the program: JSON plus [undefined].  An
    object keeps its properties in the order JavaScript enumerates them; as
    it comes from [JSON.parse], none of its properties is a function.

    A string is held as the bytes of its UTF-8 form.  A surrogate without
    its partner, which a JavaScript string may hold and UTF-8 cannot write,
    is held as the three bytes [ED A0..BF 80..BF] of its code unit. *)
Inductive value : Type :=
| JUndefined
| JNull
| JBool (b : bool)
| JNumber (n : number)
| JString (s : string)
| JArray (elems : list value)
| JObject (props : list (string * value)).

(** The double quote character, for JSON text and the release query. *)
Definition dquote : string := String (ascii_of_nat 34) EmptyString.

(** [ToBoolean]: what [!v], [v || w] and [v ? a : b] test. *)
Definition truthy (v : value) : bool :=
  match v with
  | JUndefined | JNull => false
  | JBool b => b
  | JNumber NaN => false
  | JNumber (Num z) => negb (z =? 0)
  | JNumber (Infinity _) => true
  | JString s => negb (String.eqb s "")
  | JArray _ | JObject _ => true
  end.

(** [a || b] on values. *)
Definition js_or (a b : value) : value := if truthy a then a else b.

(** Own-property lookup in an object literal or a parsed JSON object. *)
Fixpoint lookup (k : string) (props : list (string * value)) : option value :=
  match props with
  | [] => None
  | (k', v) :: rest => if String.eqb k k' then Some v else lookup k rest
  end.

(** [k in obj] for a key that [Object.prototype] does not define. *)
Definition has_key (k : string) (props : list (string * value)) : bool :=
  match lookup k props with Some _ => true | None => false end.

(** [Object.keys]. *)
Definition Object_keys {A : Type} (o : list (string * A)) : list string :=
  map fst o.

(** [s.includes(needle)] on strings. *)
Fixpoint String_includes (needle s : string) : bool :=
  String.prefix needle s ||
  match s with
  | EmptyString => false
  | String _ rest => String_includes needle rest
  end.

(** The code unit of the lone surrogate held in the bytes [c d e], if they
    hold one. *)
Definition surrogate_unit (c d e : ascii) : option N :=
  let x := N_of_ascii c in
  let y := N_of_ascii d in
  let z := N_of_ascii e in
  if ((x =? 237) && (160 <=? y) && (y <=? 191) && (128 <=? z) && (z <=? 191))%N
  then Some (55296 + (y - 160) * 64 + (z - 128))%N
  else None.

(** A string without a lone surrogate: one that has a UTF-8 form. *)
Fixpoint well_formed (s : string) : bool :=
  match s with
  | EmptyString => true
  | String c rest =>
      match rest with
      | String d (String e _) =>
          match surrogate_unit c d e with
          | Some _ => false
          | None => well_formed rest
          end
      | _ => well_formed rest
      end
  end.

(* ===================================================================== *)
(** ** Exceptions *)
(* ===================================================================== *)

(** What the program throws.  All four are instances of [Error]; the
    dispatcher reads only [message]. *)
Inductive Error : Type :=
| Error_ (message : string)
| TypeError (message : string)
| URIError (message : string)
| AxiosError (message : string).

Definition message (e : Error) : string :=
  match e with
  | Error_ m | TypeError m | URIError m | AxiosError m => m
  end.

Inductive result (A : Type) : Type :=
| Return (a : A)
| Throw (e : Error).
Arguments Return {A} a.
Arguments Throw {A} e.

Definition result_bind {A B : Type} (r : result A) (k : A -> result B)
  : result B :=
  match r with
  | Return a => k a
  | Throw e => Throw e
  end.

Notation "'let+' x ':=' r 'in' k" := (result_bind r (fun x => k))
  (at level 10, x name, r at level 100, k at level 200).

(* ===================================================================== *)
(** ** Conversions to text *)
(* ===================================================================== *)

(** Decimal text of an integer. *)
Definition Z_to_string (z : Z) : string :=
  NilZero.string_of_int (Z.to_int z).

(** For a double [z] above 2^53: half the distance to the next double below
    and above it, and whether its significand is even (ties go to it). *)
Definition neighbours (z : Z) : Z * Z * bool :=
  let q := Z.log2 z - 52 in
  let m := Z.shiftr z q in
  (if m =? 2 ^ 52 then 2 ^ (q - 2) else 2 ^ (q - 1), 2 ^ (q - 1), Z.even m).

(** The decimal [c] reads back as the double [z]. *)
Definition reads_back (z c : Z) : bool :=
  let '(below, above, closed) := neighbours z in
  if closed then (z - below <=? c) && (c <=? z + above)
  else (z - below <? c) && (c <? z + above).

(** The shortest digits [s] and the number [p] of zeros after them such that
    [s * 10^p] reads back as [z], the nearest to [z] if there are two: what
    [Number::toString] prints.  The search starts at [p] zeros. *)
Fixpoint shortest_digits (p : nat) (z : Z) : Z * Z :=
  match p with
  | O => (z, 0)
  | S p' =>
      let unit := 10 ^ Z.of_nat p in
      let lo := z / unit in
      let hi := lo + 1 in
      match reads_back z (lo * unit), reads_back z (hi * unit) with
      | true, true =>
          let below := z - lo * unit in
          let above := hi * unit - z in
          if (below <? above) || ((below =? above) && Z.even lo)
          then (lo, Z.of_nat p) else (hi, Z.of_nat p)
      | true, false => (lo, Z.of_nat p)
      | false, true => (hi, Z.of_nat p)
      | false, false => shortest_digits p' z
      end
  end.

Fixpoint zeros (n : nat) : string :=
  match n with
  | O => ""
  | S n' => String "0" (zeros n')
  end.

(** [Number::toString] of a positive integer-valued double: every digit up
    to 2^53, above it the shortest digits that read back, followed by zeros
    below 10^21 and in exponent form from there. *)
Definition double_to_string (z : Z) : string :=
  if z <=? 2 ^ 53 then Z_to_string z
  else
    let '(s, p) := shortest_digits (String.length (Z_to_string z)) z in
    let digits := Z_to_string s in
    let n := Z.of_nat (String.length digits) + p in
    if n <=? 21 then digits ^^ zeros (Z.to_nat p)
    else
      match digits with
      | EmptyString => ""
      | String d EmptyString => String d "e+" ^^ Z_to_string (n - 1)
      | String d rest => String d ("." ^^ rest) ^^ "e+" ^^ Z_to_string (n - 1)
      end.

Definition number_to_string (n : number) : string :=
  match n with
  | NaN => "NaN"
  | Num z => if z <? 0 then "-" ^^ double_to_string (- z) else double_to_string z
  | Infinity true => "Infinity"
  | Infinity false => "-Infinity"
  end.

(** [Array.prototype.join] on already converted elements. *)
Fixpoint join (sep : string) (parts : list string) : string :=
  match parts with
  | [] => ""
  | [p] => p
  | p :: rest => p ^^ sep ^^ join sep rest
  end.

(** What [ToPrimitive] throws on an object that has neither a callable
    [toString] nor a [valueOf] returning a primitive (the message is V8's). *)
Definition cannot_convert : Error :=
  TypeError "Cannot convert object to primitive value".

(** [String(v)], and [ToString] as a template literal and
    [encodeURIComponent] apply it.  An array prints its elements joined by
    commas, [null] and [undefined] elements as the empty string.  A plain
    object prints as [[object Object]] through the inherited [toString]; an
    own property [toString] hides that method, and as it is no function and
    [valueOf] returns the object itself the conversion throws. *)
Fixpoint String_ (v : value) : result string :=
  match v with
  | JUndefined => Return "undefined"
  | JNull => Return "null"
  | JBool true => Return "true"
  | JBool false => Return "false"
  | JNumber n => Return (number_to_string n)
  | JString s => Return s
  | JArray elems =>
      let+ parts :=
        (fix each (l : list value) : result (list string) :=
           match l with
           | [] => Return []
           | x :: l' =>
               let+ p := match x with
                         | JUndefined | JNull => Return ""
                         | _ => String_ x
                         end in
               let+ ps := each l' in
               Return (p :: ps)
           end) elems in
      Return (join "," parts)
  | JObject props =>
      if has_key "toString" props then Throw cannot_convert
      else Return "[object Object]"
  end.

(** Hexadecimal digit of a value below 16, upper case when [upper]. *)
Definition hex_digit (upper : bool) (n : nat) : ascii :=
  if (n <? 10)%nat then ascii_of_nat (48 + n)
  else ascii_of_nat ((if upper then 55 else 87) + n).

(** The characters [encodeURIComponent] leaves as they are:
    [A-Z a-z 0-9 - _ . ! ~ * ' ( )]. *)
Definition uri_unreserved (c : ascii) : bool :=
  let n := nat_of_ascii c in
  ((65 <=? n) && (n <=? 90) || (97 <=? n) && (n <=? 122) ||
   (48 <=? n) && (n <=? 57) ||
   existsb (Nat.eqb n) [45; 95; 46; 33; 126; 42; 39; 40; 41])%nat.

(** Every byte of the UTF-8 form outside the unreserved set becomes [%XX]. *)
Fixpoint percent_encode (s : string) : string :=
  match s with
  | EmptyString => EmptyString
  | String c rest =>
      if uri_unreserved c then String c (percent_encode rest)
      else
        let n := nat_of_ascii c in
        String "%" (String (hex_digit true (n / 16))
          (String (hex_digit true (n mod 16)) (percent_encode rest)))
  end.

(** [encodeURIComponent(s)] on a string: a lone surrogate has no UTF-8 form
    to encode and makes it throw (the message is V8's). *)
Definition encodeURIComponent (s : string) : result string :=
  if well_formed s then Return (percent_encode s)
  else Throw (URIError "URI malformed").

(** [\uXXXX] for a code unit, in lower-case digits. *)
Definition unicode_escape (u : N) : string :=
  "\u" ^^ String (hex_digit false (N.to_nat (u / 4096)))
            (String (hex_digit false (N.to_nat (u / 256 mod 16)))
               (String (hex_digit false (N.to_nat (u / 16 mod 16)))
                  (String (hex_digit false (N.to_nat (u mod 16)))
                     EmptyString))).

(** The escape [QuoteJSONString] writes for one byte below 128, or the byte
    itself. *)
Definition escape_char (c : ascii) : string :=
  let n := nat_of_ascii c in
  if (n =? 34)%nat then "\" ^^ dquote
  else if (n =? 92)%nat then "\\"
  else if (n =? 8)%nat then "\b"
  else if (n =? 12)%nat then "\f"
  else if (n =? 10)%nat then "\n"
  else if (n =? 13)%nat then "\r"
  else if (n =? 9)%nat then "\t"
  else if (n <? 32)%nat then unicode_escape (N.of_nat n)
  else String c EmptyString.

(** [QuoteJSONString] without the quotes: the short escapes, [\u00XX] for
    the other control characters, [\udXXX] for a lone surrogate, and every
    other character as it is. *)
Fixpoint json_escape (s : string) : string :=
  match s with
  | EmptyString => EmptyString
  | String c rest =>
      match rest with
      | String d (String e rest') =>
          match surrogate_unit c d e with
          | Some u => unicode_escape u ^^ json_escape rest'
          | None => escape_char c ^^ json_escape rest
          end
      | _ => escape_char c ^^ json_escape rest
      end
  end.

Definition json_quote (s : string) : string :=
  dquote ^^ json_escape s ^^ dquote.

(** [JSON.stringify(v)]: [None] is JavaScript's [undefined] (the value has no
    JSON text).  An [undefined] property is left out of its object, an
    [undefined] element is written as [null], and so is a number that is not
    finite. *)
Fixpoint JSON_stringify (v : value) : option string :=
  match v with
  | JUndefined => None
  | JNull => Some "null"
  | JBool true => Some "true"
  | JBool false => Some "false"
  | JNumber (Num z) => Some (number_to_string (Num z))
  | JNumber _ => Some "null"
  | JString s => Some (json_quote s)
  | JArray elems =>
      Some ("[" ^^ join ","
        ((fix each (l : list value) : list string :=
            match l with
            | [] => []
            | x :: l' =>
                match JSON_stringify x with
                | Some t => t
                | None => "null"
                end :: each l'
            end) elems) ^^ "]")
  | JObject props =>
      Some ("{" ^^ join ","
        ((fix each (l : list (string * value)) : list string :=
            match l with
            | [] => []
            | (k, x) :: l' =>
                match JSON_stringify x with
                | Some t => (json_quote k ^^ ":" ^^ t) :: each l'
                | None => each l'
                end
            end) props) ^^ "}")
  end.

(** [ToIntegerOrInfinity] of a number, for [slice]: [NaN] counts as 0. *)
Definition to_integer (n : number) : number :=
  match n with NaN => Num 0 | _ => n end.

(** [arr.slice(0, end)] for an [end] that is a number: a negative [end]
    counts from the back, and both bounds are clamped to the array. *)
Definition Array_slice0 {A : Type} (l : list A) (end_ : number) : list A :=
  match to_integer end_ with
  | Num z =>
      if z <? 0 then firstn (Z.to_nat (Z.max (Z.of_nat (List.length l) + z) 0)) l
      else firstn (Z.to_nat z) l
  | Infinity true => l
  | _ => []
  end.

(* ===================================================================== *)
(** ** The host: what Node and the environment provide *)
(* ===================================================================== *)

(** The parts of the run-time system the repository does not define and whose
    results are not fixed by the model: date parsing, [Number] on a string,
    what the engine's sort does where ECMAScript leaves it open, the three
    environment variables checked at start-up, and [process]. *)
Class Host : Type := {
  (** [new Date(s).getTime()] for a string [s]; [None] is [NaN]. *)
  Date_parse : string -> option Z;
  (** [Number(s)] for a string [s]. *)
  StringToNumber : string -> number;
  (** [sort] on a comparator that is not consistent on the elements: the
      calls the engine makes to it, as pairs of positions in the array, in
      the order it makes them. *)
  engine_calls :
    (value -> value -> result (option Z)) -> list value -> list (nat * nat);
  (** The order the engine then leaves the elements in: the positions to
      take them from one after another, each counted in what is left. *)
  engine_order :
    (value -> value -> result (option Z)) -> list value -> list nat;
  SENTRY_AUTH_TOKEN : string;
  SENTRY_BASE_URL : string;
  SENTRY_ORG_SLUG : string;
  process_version : string;
  process_platform : string;
  process_memoryUsage : value
}.

Section Coercions.
Context {host : Host}.

(** [Number(v)], and [ToNumber] as [slice] applies it.  An array or object
    is first converted to a primitive, which is its string. *)
Definition Number_ (v : value) : result number :=
  match v with
  | JUndefined => Return NaN
  | JNull => Return (Num 0)
  | JBool true => Return (Num 1)
  | JBool false => Return (Num 0)
  | JNumber n => Return n
  | JString s => Return (StringToNumber s)
  | JArray _ => let+ s := String_ v in Return (StringToNumber s)
  | JObject _ => let+ _ := String_ v in Return NaN
  end.

(** [TimeClip]: a time value beyond 8.64e15 ms is [NaN]. *)
Definition TimeClip (t : Z) : option Z :=
  if Z.abs t <=? 8640000000000000 then Some t else None.

(** [new Date(v).getTime()]; [None] is [NaN].  A string is parsed, an array
    or object is first converted to a primitive, which is its string, and
    anything else is taken as a number of milliseconds. *)
Definition Date_getTime (v : value) : result (option Z) :=
  match v with
  | JString s => Return (Date_parse s)
  | JArray _ | JObject _ => let+ s := String_ v in Return (Date_parse s)
  | _ =>
      let+ n := Number_ v in
      Return (match n with
              | Num t => TimeClip t
              | _ => None
              end)
  end.

End Coercions.

(* ===================================================================== *)
(** ** The asynchronous monad *)
(* ===================================================================== *)

(** One outbound GET: the URL as passed to [axiosInstance.get] and the query
    parameters of its second argument. *)
Record Request : Type := mkRequest {
  req_url : string;
  req_params : list (string * value)
}.

Record AxiosResponse : Type := mkResponse {
  status : Z;
  data : value
}.

(** What the server observably does on the network, in order: it sends a
    request, or it waits (the retry back-off). *)
Inductive Event : Type :=
| EvRequest (r : Request)
| EvDelay (ms : Z).

Definition History : Type := list Event.

(** How one attempt ends: a 2xx reply, or a failure (network error, timeout
    or other status) with the message of the error axios raises. *)
Inductive Outcome : Type :=
| Resolved (r : AxiosResponse)
| Rejected (message : string).

(** The upstream API, seen from the server: the outcome of an attempt may
    depend on everything sent and waited before it. *)
Definition Upstream : Type := History -> Request -> Outcome.

(** An [async] computation: it runs from a history, extends it, and either
    returns or throws (a rejected promise). *)
Definition Async (A : Type) : Type := History -> result A * History.

Definition ret {A : Type} (a : A) : Async A := fun h => (Return a, h).

Definition throw {A : Type} (e : Error) : Async A := fun h => (Throw e, h).

Definition bind {A B : Type} (m : Async A) (k : A -> Async B) : Async B :=
  fun h =>
    match m h with
    | (Return a, h') => k a h'
    | (Throw e, h') => (Throw e, h')
    end.

(** [try { body } catch (error) { handler }]. *)
Definition try_catch {A : Type} (body : Async A) (handler : Error -> Async A)
  : Async A :=
  fun h =>
    match body h with
    | (Return a, h') => (Return a, h')
    | (Throw e, h') => handler e h'
    end.

(** A synchronous step that may throw. *)
Definition lift {A : Type} (r : result A) : Async A := fun h => (r, h).

Notation "'let*' x ':=' m 'in' k" := (bind m (fun x => k))
  (at level 10, x name, m at level 100, k at level 200).

(** [logDebug(message)].  The line goes to the diagnostic stream, which is not
    modelled; the argument is evaluated before the call, and a template
    literal in it converts its parts, which may throw. *)
Definition logDebug (message : result string) : Async unit :=
  let* _ := lift message in ret tt.

(** [v.k] and [v[k]] for the property names this program reads.  Reading a
    property of [null] or [undefined] throws (the message is V8's); a
    primitive or an array has no own property of these names. *)
Definition cannot_read (what k : string) : Error :=
  TypeError ("Cannot read properties of " ^^ what ^^ " (reading '" ^^ k ^^ "')").

Definition get (v : value) (k : string) : result value :=
  match v with
  | JUndefined => Throw (cannot_read "undefined" k)
  | JNull => Throw (cannot_read "null" k)
  | JObject props =>
      Return (match lookup k props with Some x => x | None => JUndefined end)
  | _ => Return JUndefined
  end.

(** [v[0]]: the first element of an array, the start of a string (some
    string; the program reads no more of it than its [version], which it
    has not), the property ["0"] of an object. *)
Definition get0 (v : value) : result value :=
  match v with
  | JArray (x :: _) => Return x
  | JString (String c _) => Return (JString (String c EmptyString))
  | JUndefined | JNull | JObject _ => get v "0"
  | _ => Return JUndefined
  end.

Definition nullish (v : value) : bool :=
  match v with JUndefined | JNull => true | _ => false end.

(* ===================================================================== *)
(** ** The HTTP client: [axiosInstance] and its retry interceptor *)
(* ===================================================================== *)

(** The request configuration, with the fields the declaration merged into
    [AxiosRequestConfig]: [retry] comes from the instance defaults, and
    [__retryCount] is [undefined] ([None]) until the interceptor sets it. *)
Record AxiosRequestConfig : Type := mkConfig {
  url : string;
  params : list (string * value);
  retry : nat;
  __retryCount : option nat
}.

(** [axios.create({..., retry: 3, retryDelay: n => n * 1000})]. *)
Definition default_retry : nat := 3.

Definition retryDelay (retryCount : nat) : Z := Z.of_nat retryCount * 1000.

Definition request_of (config : AxiosRequestConfig) : Request :=
  mkRequest (url config) (params config).

(** [config.__retryCount || 0]. *)
Definition retry_count (config : AxiosRequestConfig) : nat :=
  match __retryCount config with Some n => n | None => 0%nat end.

Definition bump (config : AxiosRequestConfig) : AxiosRequestConfig :=
  mkConfig (url config) (params config) (retry config)
    (Some (S (retry_count config))).

Section Client.
Variable upstream : Upstream.

(** One call of [axiosInstance(config)], response interceptor included.  The
    attempt is sent; a failure goes to the interceptor, which rejects with
    that error when [config.retry] is 0 or [__retryCount >= retry], and
    otherwise increments the count, waits [retryDelay(__retryCount)] and
    calls [axiosInstance(config)] again. *)
Equations? axiosInstance (config : AxiosRequestConfig) (h : History)
  : result AxiosResponse * History
  by wf (retry config - retry_count config)%nat lt :=
axiosInstance config h
  with upstream h (request_of config) => {
  | Resolved r => (Return r, h ++ [EvRequest (request_of config)]);
  | Rejected msg
      with Nat.eqb (retry config) 0, le_lt_dec (retry config) (retry_count config) => {
      | true, _ => (Throw (AxiosError msg), h ++ [EvRequest (request_of config)]);
      | false, left _ => (Throw (AxiosError msg), h ++ [EvRequest (request_of config)]);
      | false, right _ =>
          axiosInstance (bump config)
            (h ++ [EvRequest (request_of config);
                   EvDelay (retryDelay (S (retry_count config)))]) } }.
Proof.
  unfold retry_count at 1; simpl. lia.
Qed.

(** [axiosInstance.get(url, { params })]. *)
Definition axios_get (u : string) (ps : list (string * value))
  : Async AxiosResponse :=
  axiosInstance (mkConfig u ps default_retry None).

End Client.

(* ===================================================================== *)
(** ** Synchronous helpers: arrays with callbacks that may throw *)
(* ===================================================================== *)

Definition is_undefined (v : value) : bool :=
  match v with JUndefined => true | _ => false end.

(** The element at a position together with the others, in their order. *)
Fixpoint take_out {A : Type} (i : nat) (l : list A) : option (A * list A) :=
  match l, i with
  | [], _ => None
  | x :: rest, O => Some (x, rest)
  | x :: rest, S i' =>
      match take_out i' rest with
      | Some (y, others) => Some (y, x :: others)
      | None => None
      end
  end.

(** The elements taken from the given positions one after another, each
    position counted in what is left; what is never taken stays at the end
    in its order. *)
Fixpoint reorder {A : Type} (order : list nat) (l : list A) : list A :=
  match order with
  | [] => l
  | i :: order' =>
      match take_out i l with
      | Some (x, others) => x :: reorder order' others
      | None => reorder order' l
      end
  end.

Section ArraySort.
Context {host : Host}.
(** The comparator; [None] is a [NaN] result. *)
Variable comparefn : value -> value -> result (option Z).

(** [SortCompare] on two defined elements: a [NaN] from the comparator
    counts as [+0]. *)
Definition SortCompare (x y : value) : result Z :=
  let+ v := comparefn x y in
  Return (match v with Some z => z | None => 0 end).

(** How [comparefn] orders [a] and [b], when it returns a number that is not
    [NaN]. *)
Definition compares (a b : value) : option comparison :=
  match comparefn a b with
  | Return (Some z) => Some (z ?= 0)
  | _ => None
  end.

Definition same_order (x y : comparison) : bool :=
  match x, y with
  | Eq, Eq | Lt, Lt | Gt, Gt => true
  | _, _ => false
  end.

(** [comparefn] is a consistent comparator for the elements of [l], in the
    words of ECMAScript: every call returns a number that is not [NaN], an
    element equals itself, equality is symmetric, and equality, less-than
    and greater-than are transitive. *)
Definition consistent_comparator (l : list value) : bool :=
  forallb (fun a => forallb (fun b => forallb (fun c =>
    match compares a a, compares a b, compares b a,
          compares b c, compares a c with
    | Some aa, Some ab, Some ba, Some bc, Some ac =>
        same_order aa Eq
        && implb (same_order ab Eq) (same_order ba Eq)
        && implb (same_order ab Eq && same_order bc Eq) (same_order ac Eq)
        && implb (same_order ab Lt && same_order bc Lt) (same_order ac Lt)
        && implb (same_order ab Gt && same_order bc Gt) (same_order ac Gt)
    | _, _, _, _, _ => false
    end) l) l) l.

(** Stable insertion: [x] goes before the first element it does not have to
    follow. *)
Fixpoint insert_sorted (x : value) (l : list value) : result (list value) :=
  match l with
  | [] => Return [x]
  | y :: l' =>
      let+ c := SortCompare x y in
      if c <=? 0 then Return (x :: y :: l')
      else let+ r := insert_sorted x l' in Return (y :: r)
  end.

Fixpoint sort_defined (l : list value) : result (list value) :=
  match l with
  | [] => Return []
  | x :: l' => let+ s := sort_defined l' in insert_sorted x s
  end.

(** The calls of an engine to the comparator, until one throws. *)
Fixpoint engine_run (l : list value) (calls : list (nat * nat)) : result unit :=
  match calls with
  | [] => Return tt
  | (i, j) :: rest =>
      match nth_error l i, nth_error l j with
      | Some a, Some b => let+ _ := SortCompare a b in engine_run l rest
      | _, _ => engine_run l rest
      end
  end.

(** [arr.sort(comparefn)] on the elements of an array; [undefined] elements
    go last and are never passed to the comparator.  With fewer than two
    other elements there is nothing to compare.  For a consistent comparator
    ECMAScript fixes the result, the stable sort, whatever calls the engine
    makes.  For any other it leaves the calls and the resulting order to the
    engine: the first call that throws ends the sort, and otherwise the
    elements come back in an order of the engine's choice. *)
Definition Array_sort (l : list value) : result (list value) :=
  let defined := filter (fun v => negb (is_undefined v)) l in
  let+ sorted :=
    if (List.length defined <? 2)%nat || consistent_comparator defined
    then sort_defined defined
    else
      let+ _ := engine_run defined (engine_calls comparefn defined) in
      Return (reorder (engine_order comparefn defined) defined) in
  Return (sorted ++ filter is_undefined l).

End ArraySort.

(** [arr.map(f)] on the elements of an array. *)
Fixpoint Array_map (f : value -> result value) (l : list value)
  : result (list value) :=
  match l with
  | [] => Return []
  | x :: l' =>
      let+ y := f x in
      let+ ys := Array_map f l' in
      Return (y :: ys)
  end.

(** Calling the array method [method] on [v], written [expr.method(..)] in
    the source: only an array has it. *)
Definition as_array (expr method : string) (v : value) : result (list value) :=
  match v with
  | JArray l => Return l
  | JUndefined => Throw (cannot_read "undefined" method)
  | JNull => Throw (cannot_read "null" method)
  | _ => Throw (TypeError (expr ^^ "." ^^ method ^^ " is not a function"))
  end.

(* ===================================================================== *)
(** ** Upstream query helpers and the tool registry *)
(* ===================================================================== *)

(** [o.k] on an object literal built by the program: [undefined] when the
    property is absent. *)
Definition prop (o : list (string * value)) (k : string) : value :=
  match lookup k o with Some v => v | None => JUndefined end.

(** [names.filter(k => k !== excluded)]. *)
Definition filter_out (excluded : string) (names : list string) : list string :=
  filter (fun k => negb (String.eqb k excluded)) names.

(** The names every object inherits from [Object.prototype]: [tools[name]] is
    a truthy value for each of them although none is a tool. *)
Definition Object_prototype_keys : list string :=
  ["constructor"; "__defineGetter__"; "__defineSetter__"; "hasOwnProperty";
   "__lookupGetter__"; "__lookupSetter__"; "isPrototypeOf";
   "propertyIsEnumerable"; "toString"; "valueOf"; "__proto__";
   "toLocaleString"].

Section Server.
Context {host : Host}.
Variable upstream : Upstream.

(** [getLatestReleaseVersion]: the first element of the raw release list. *)
Definition getLatestReleaseVersion (orgSlug projectSlug : value) : Async value :=
  let* releasesUrl :=
    lift (let+ org := String_ orgSlug in
          let+ project := String_ projectSlug in
          Return (SENTRY_BASE_URL ^^ "projects/" ^^ org ^^ "/"
                    ^^ project ^^ "/releases/")) in
  let* response := axios_get upstream releasesUrl [] in
  (* response.data?.[0]?.version *)
  let* version :=
    lift (if nullish (data response) then Return JUndefined
          else let+ first := get0 (data response) in
               if nullish first then Return JUndefined
               else get first "version") in
  if negb (truthy version) then throw (Error_ "No releases found")
  else lift (let+ first := get0 (data response) in get first "version").

(** The comparator of [getSortedReleases]:
    [new Date(b.dateCreated).getTime() - new Date(a.dateCreated).getTime()],
    the left operand first.  Time values are integers of magnitude at most
    8.64e15, so the sign of the double difference is the sign of the exact
    one. *)
Definition compare_dateCreated (a b : value) : result (option Z) :=
  let+ db := get b "dateCreated" in
  let+ tb := Date_getTime db in
  let+ da := get a "dateCreated" in
  let+ ta := Date_getTime da in
  Return (match tb, ta with
          | Some tb, Some ta => Some (tb - ta)
          | _, _ => None
          end).

Definition project_release (release : value) : result value :=
  let+ version := get release "version" in
  let+ dateCreated := get release "dateCreated" in
  let+ newGroups := get release "newGroups" in
  Return (JObject [("version", version); ("dateCreated", dateCreated);
                   ("newGroups", newGroups)]).

(** [getSortedReleases]: re-sorted by [dateCreated], newest first, each entry
    projected to three properties. *)
Definition getSortedReleases (orgSlug projectSlug : value)
  : Async (list value) :=
  let* u :=
    lift (let+ org := String_ orgSlug in
          let+ project := String_ projectSlug in
          Return ("projects/" ^^ org ^^ "/" ^^ project ^^ "/releases/")) in
  let* response := axios_get upstream u [] in
  lift (let+ elems := as_array "response.data" "sort" (data response) in
        let+ sorted := Array_sort compare_dateCreated elems in
        Array_map project_release sorted).

(** [release.version.includes('mobile')]: strings and arrays have the
    method. *)
Definition includes_mobile (version : value) : result bool :=
  match version with
  | JString s => Return (String_includes "mobile" s)
  | JArray l =>
      Return (existsb (fun x => match x with
                                | JString s => String.eqb s "mobile"
                                | _ => false
                                end) l)
  | JUndefined => Throw (cannot_read "undefined" "includes")
  | JNull => Throw (cannot_read "null" "includes")
  | _ => Throw (TypeError "release.version.includes is not a function")
  end.

Definition recent_entry (release : value) : result value :=
  let+ version := get release "version" in
  let+ date := get release "dateCreated" in
  let+ new_issues := get release "newGroups" in
  let+ mobile := includes_mobile version in
  Return (JObject [("version", version); ("date", date);
                   ("new_issues", new_issues);
                   ("type", JString (if mobile then "mobile" else "desktop"))]).

(** An execution function of the registry: it takes the parameter object the
    dispatcher builds. *)
Definition Exec : Type := list (string * value) -> Async value.

Definition org_or_default (params : list (string * value)) : value :=
  js_or (prop params "org_slug") (JString SENTRY_ORG_SLUG).

(** [tools.inspect_sentry.exec]; [registry_keys] is [Object.keys(tools)],
    which the closure reads when it runs. *)
Definition inspect_sentry_exec (registry_keys : list string) : Exec :=
  fun _ =>
    ret (JObject
      [("configuration", JObject
          [("baseUrl", JString SENTRY_BASE_URL);
           ("authTokenConfigured", JBool (truthy (JString SENTRY_AUTH_TOKEN)));
           ("defaultOrg", JString SENTRY_ORG_SLUG)]);
       ("capabilities",
          JArray (map JString (filter_out "inspect_sentry" registry_keys)));
       ("environment", JObject
          [("nodeVersion", JString process_version);
           ("platform", JString process_platform);
           ("memoryUsage", process_memoryUsage)])]).

Definition list_recent_releases_exec : Exec :=
  fun params =>
    let orgSlug := org_or_default params in
    let count := js_or (prop params "count") (JNumber (Num 5)) in
    let* releases := getSortedReleases orgSlug (prop params "project_slug") in
    lift (let+ end_ := Number_ count in
          let+ entries := Array_map recent_entry (Array_slice0 releases end_) in
          Return (JArray entries)).

Definition get_releases_exec : Exec :=
  fun params =>
    let orgSlug := org_or_default params in
    let* releases := getSortedReleases orgSlug (prop params "project_slug") in
    ret (JArray releases).

Definition get_release_health_exec : Exec :=
  fun params =>
    let orgSlug := org_or_default params in
    let* releaseVersion :=
      if truthy (prop params "release_version")
      then ret (prop params "release_version")
      else getLatestReleaseVersion orgSlug (prop params "project_slug") in
    let* healthUrl :=
      lift (let+ org := String_ orgSlug in
            let+ project := String_ (prop params "project_slug") in
            let+ version := String_ releaseVersion in
            let+ encoded := encodeURIComponent version in
            Return (SENTRY_BASE_URL ^^ "projects/" ^^ org ^^ "/" ^^ project
                      ^^ "/releases/" ^^ encoded ^^ "/")) in
    let* response := axios_get upstream healthUrl [] in
    lift (let+ new_groups := get (data response) "new_groups" in
          let+ crash_free_rate := get (data response) "crash_free_rate" in
          let+ sessions := get (data response) "sessions" in
          let+ stats := get (data response) "stats" in
          Return (JObject [("version", releaseVersion);
                           ("new_issues", new_groups);
                           ("crash_free_rate", crash_free_rate);
                           ("sessions", sessions);
                           ("stats", stats)])).

Definition issue_summary (v : value) : result value :=
  let+ id := get v "id" in
  let+ title := get v "title" in
  let+ permalink := get v "permalink" in
  Return (JObject [("id", id); ("title", title); ("permalink", permalink)]).

Definition get_issue_exec : Exec :=
  fun params =>
    let* u :=
      lift (let+ issue_id := String_ (prop params "issue_id") in
            Return ("/issues/" ^^ issue_id ^^ "/")) in
    let* response := axios_get upstream u [] in
    lift (issue_summary (data response)).

Definition get_release_issues_exec : Exec :=
  fun params =>
    let orgSlug := org_or_default params in
    let* releaseVersion :=
      if negb (truthy (prop params "release_version")) then
        let* releasesUrl :=
          lift (let+ org := String_ orgSlug in
                let+ project := String_ (prop params "project_slug") in
                Return (SENTRY_BASE_URL ^^ "projects/" ^^ org ^^ "/"
                          ^^ project ^^ "/releases/")) in
        let* releasesResponse := axios_get upstream releasesUrl [] in
        match data releasesResponse with
        | JArray (first :: _) =>
            let* version := lift (get first "version") in
            (* logDebug(`Using latest release version: ${releaseVersion}`) *)
            let* _ := logDebug (String_ version) in
            ret version
        | _ =>
            let* project := lift (String_ (prop params "project_slug")) in
            throw (Error_ ("No releases found for project " ^^ project))
        end
      else
        (* logDebug(`Using provided release version: ${releaseVersion}`) *)
        let* _ := logDebug (String_ (prop params "release_version")) in
        ret (prop params "release_version") in
    if negb (truthy releaseVersion)
    then throw (Error_ "Could not determine release version.")
    else
      let* projectUrl :=
        lift (let+ org := String_ orgSlug in
              let+ project := String_ (prop params "project_slug") in
              Return (SENTRY_BASE_URL ^^ "projects/" ^^ org ^^ "/"
                        ^^ project ^^ "/")) in
      let* project := axios_get upstream projectUrl [] in
      let* issuesUrl :=
        lift (let+ org := String_ orgSlug in
              Return (SENTRY_BASE_URL ^^ "organizations/" ^^ org ^^ "/issues/")) in
      let* projectId := lift (get (data project) "id") in
      let* query :=
        lift (let+ version := String_ releaseVersion in
              Return ("release:" ^^ dquote ^^ version ^^ dquote)) in
      let* issues :=
        axios_get upstream issuesUrl
          [("project", projectId); ("query", JString query)] in
      lift (let+ elems := as_array "issues.data" "map" (data issues) in
            let+ summaries := Array_map issue_summary elems in
            Return (JArray summaries)).

(** The object literal [tools], for a given reading of its own keys. *)
Definition tools_with (registry_keys : list string) : list (string * Exec) :=
  [("inspect_sentry", inspect_sentry_exec registry_keys);
   ("list_recent_releases", list_recent_releases_exec);
   ("get_releases", get_releases_exec);
   ("get_release_health", get_release_health_exec);
   ("get_issue", get_issue_exec);
   ("get_release_issues", get_release_issues_exec)].

(** [tools]: [inspect_sentry] sees the keys of the finished object. *)
Definition tools : list (string * Exec) :=
  tools_with (Object_keys (tools_with [])).

End Server.

(* ===================================================================== *)
(** ** The capability descriptor *)
(* ===================================================================== *)

Record PropertySchema : Type := mkProperty {
  prop_type : string;
  prop_description : option string
}.

Record InputSchema : Type := mkSchema {
  schema_type : string;
  properties : list (string * PropertySchema);
  required : list string
}.

Record ToolDefinition : Type := mkTool {
  description : string;
  inputSchema : InputSchema
}.

Definition plain (ty : string) : PropertySchema := mkProperty ty None.

Section Capabilities.
Context {host : Host}.

(** [serverCapabilities.tools]. *)
Definition serverCapabilities_tools : list (string * ToolDefinition) :=
  [("inspect_sentry",
      mkTool "Inspect server configuration and capabilities"
        (mkSchema "object" [] []));
   ("list_recent_releases",
      mkTool "List most recent releases with issue counts"
        (mkSchema "object"
           [("project_slug", plain "string"); ("org_slug", plain "string");
            ("count", plain "number")]
           ["project_slug"]));
   ("get_releases",
      mkTool "Get all releases sorted by date (newest first)"
        (mkSchema "object"
           [("project_slug", plain "string"); ("org_slug", plain "string")]
           ["project_slug"]));
   ("get_release_health",
      mkTool "Get health metrics for a release"
        (mkSchema "object"
           [("project_slug", plain "string"); ("org_slug", plain "string");
            ("release_version", plain "string")]
           ["project_slug"]));
   ("get_issue",
      mkTool "Get a Sentry issue by ID"
        (mkSchema "object"
           [("issue_id", plain "string"); ("org_slug", plain "string");
            ("project_slug", plain "string")]
           ["issue_id"; "org_slug"; "project_slug"]));
   ("get_release_issues",
      mkTool "Get issues from a specific release (defaults to latest)"
        (mkSchema "object"
           [("project_slug",
               mkProperty "string" (Some "Project slug (e.g., 'renaissance')"));
            ("org_slug",
               mkProperty "string"
                 (Some ("Organization slug (defaults to SENTRY_ORG_SLUG: "
                          ^^ SENTRY_ORG_SLUG ^^ ")")));
            ("release_version",
               mkProperty "string"
                 (Some "Optional: Specific release version (defaults to latest)"))]
           ["project_slug"]))].

(** The fields a tool's schema requires; none for an unknown name. *)
Definition required_fields (tool : string) : list string :=
  match find (fun d => String.eqb (fst d) tool) serverCapabilities_tools with
  | Some d => required (inputSchema (snd d))
  | None => []
  end.

End Capabilities.

(* ===================================================================== *)
(** ** The call-tool dispatcher *)
(* ===================================================================== *)

(** [request.params] of a call-tool request.  The protocol schema makes
    [name] a string and [arguments] an object or absent ([None]), so the
    source's [typeof args !== 'object'] test never fires. *)
Record CallToolRequest : Type := mkCall {
  name : string;
  arguments : option (list (string * value))
}.

Record ContentBlock : Type := mkBlock {
  type_ : string;
  text : option string
}.

(** The returned envelope; [isError] is an optional property. *)
Record CallToolResult : Type := mkEnvelope {
  _meta : value;
  content : list ContentBlock;
  isError : option bool
}.

(** How a client reads the optional flag: absent means no error. *)
Definition is_error (r : CallToolResult) : bool :=
  match isError r with Some b => b | None => false end.

Definition success_envelope (result_ : value) : CallToolResult :=
  mkEnvelope (JObject []) [mkBlock "text" (JSON_stringify result_)] None.

Definition error_payload (error : Error) : value :=
  JObject [("error", JString "Failed to execute tool");
           ("details", JString (message error))].

Definition error_envelope (error : Error) : CallToolResult :=
  mkEnvelope (JObject []) [mkBlock "text" (JSON_stringify (error_payload error))]
    (Some true).

Definition invalid_arguments (tool requirement : string) : Error :=
  Error_ ("Invalid arguments for " ^^ tool ^^ " - requires " ^^ requirement).

(** [args.k ? String(args.k) : otherwise]. *)
Definition string_or (args : list (string * value)) (k : string)
  (otherwise : value) : result value :=
  if truthy (prop args k)
  then let+ s := String_ (prop args k) in Return (JString s)
  else Return otherwise.

Section Dispatcher.
Context {host : Host}.
Variable upstream : Upstream.

(** [!!tools[name]]: own keys and inherited members alike. *)
Definition tools_member (n : string) : bool :=
  existsb (String.eqb n) (Object_keys (tools upstream) ++ Object_prototype_keys).

(** The guard before the [try]: [!request.params.name || !tools[name]]. *)
Definition tool_not_found (request : CallToolRequest) : bool :=
  negb (truthy (JString (name request))) || negb (tools_member (name request)).

(** [args] passes [!args || !('k' in args)] for every [k] of [keys]. *)
Definition has_all (keys : list string) (arguments_ : option (list (string * value)))
  : option (list (string * value)) :=
  match arguments_ with
  | Some args => if forallb (fun k => has_key k args) keys then Some args else None
  | None => None
  end.

(** The chain of [if]s inside the [try]: validate the arguments of the named
    tool, build its parameter object (the conversions in the order of its
    properties), run it.  The value is [result]. *)
Definition run_tool (request : CallToolRequest) : Async value :=
  let n := name request in
  if String.eqb n "list_recent_releases" then
    match has_all ["project_slug"] (arguments request) with
    | None => throw (invalid_arguments "list_recent_releases" "project_slug")
    | Some args =>
        let* params :=
          lift (let+ project_slug := String_ (prop args "project_slug") in
                let+ org_slug := string_or args "org_slug" JUndefined in
                let+ count :=
                  if truthy (prop args "count")
                  then let+ c := Number_ (prop args "count") in Return (JNumber c)
                  else Return JUndefined in
                Return [("project_slug", JString project_slug);
                        ("org_slug", org_slug); ("count", count)]) in
        list_recent_releases_exec upstream params
    end
  else if String.eqb n "get_releases" then
    match has_all ["project_slug"] (arguments request) with
    | None => throw (invalid_arguments "get_releases" "project_slug")
    | Some args =>
        let* params :=
          lift (let+ project_slug := String_ (prop args "project_slug") in
                let+ org_slug := string_or args "org_slug" JUndefined in
                Return [("project_slug", JString project_slug);
                        ("org_slug", org_slug)]) in
        get_releases_exec upstream params
    end
  else if String.eqb n "get_issue" then
    match has_all ["issue_id"; "org_slug"; "project_slug"] (arguments request) with
    | None =>
        throw (invalid_arguments "get_issue" "issue_id, org_slug and project_slug")
    | Some args =>
        let* params :=
          lift (let+ issue_id := String_ (prop args "issue_id") in
                let+ org_slug := String_ (prop args "org_slug") in
                let+ project_slug := String_ (prop args "project_slug") in
                Return [("issue_id", JString issue_id);
                        ("org_slug", JString org_slug);
                        ("project_slug", JString project_slug)]) in
        get_issue_exec upstream params
    end
  else if String.eqb n "get_release_issues" then
    match has_all ["project_slug"] (arguments request) with
    | None => throw (invalid_arguments "get_release_issues" "project_slug")
    | Some args =>
        let* params :=
          lift (let+ project_slug := String_ (prop args "project_slug") in
                let+ org_slug :=
                  string_or args "org_slug" (JString SENTRY_ORG_SLUG) in
                Return [("project_slug", JString project_slug);
                        ("org_slug", org_slug)]) in
        get_release_issues_exec upstream params
    end
  else if String.eqb n "inspect_sentry" then
    inspect_sentry_exec (Object_keys (tools upstream)) []
  else if String.eqb n "get_release_health" then
    match has_all ["project_slug"] (arguments request) with
    | None => throw (invalid_arguments "get_release_health" "project_slug")
    | Some args =>
        let* params :=
          lift (let+ project_slug := String_ (prop args "project_slug") in
                let+ org_slug :=
                  string_or args "org_slug" (JString SENTRY_ORG_SLUG) in
                let+ release_version :=
                  string_or args "release_version" JUndefined in
                Return [("project_slug", JString project_slug);
                        ("org_slug", org_slug);
                        ("release_version", release_version)]) in
        get_release_health_exec upstream params
    end
  else throw (Error_ "Unknown tool").

(** The handler registered for [CallToolRequestSchema].  A [Throw] here is a
    rejection that leaves the handler. *)
Definition CallTool_handler (request : CallToolRequest) : Async CallToolResult :=
  if tool_not_found request then throw (Error_ "Tool not found")
  else
    try_catch
      (let* result_ := run_tool request in ret (success_envelope result_))
      (fun error => ret (error_envelope error)).

(** The handler registered for [ListToolsRequestSchema]: name, description
    and input schema of every entry of the descriptor. *)
Definition ListTools_handler : list (string * string * InputSchema) :=
  map (fun d => (fst d, description (snd d), inputSchema (snd d)))
    serverCapabilities_tools.

End Dispatcher.

(* ===================================================================== *)
(** ** A reference host, for the closed examples *)
(* ===================================================================== *)

(** The theorems below hold for every host.  The closed examples run on this
    one: it reads the ISO 8601 UTC instants that Sentry emits
    ([YYYY-MM-DDTHH:MM:SS], an optional fraction, [Z]) and decimal integer
    literals, on which it agrees with Node.  Where ECMAScript leaves the
    sort to the engine, this one compares each element with the one before
    it and leaves the array as it is; no example depends on it. *)

Definition digit_of (c : ascii) : option Z :=
  let n := nat_of_ascii c in
  if ((48 <=? n) && (n <=? 57))%nat then Some (Z.of_nat (n - 48)) else None.

Fixpoint digits_from (acc : Z) (s : string) : option Z :=
  match s with
  | EmptyString => Some acc
  | String c rest =>
      match digit_of c with
      | Some d => digits_from (acc * 10 + d) rest
      | None => None
      end
  end.

(** The decimal number written in the [len] characters from [start]. *)
Definition digits_at (start len : nat) (s : string) : option Z :=
  let sub := substring start len s in
  if (String.length sub =? len)%nat then digits_from 0 sub else None.

Definition is_leap (y : Z) : bool :=
  ((y mod 4 =? 0) && negb (y mod 100 =? 0)) || (y mod 400 =? 0).

Definition days_in_month (y m : Z) : Z :=
  if m =? 2 then (if is_leap y then 29 else 28)
  else if (m =? 4) || (m =? 6) || (m =? 9) || (m =? 11) then 30
  else 31.

(** Days from 1970-01-01 to the civil date, proleptic Gregorian. *)
Definition days_from_civil (y m d : Z) : Z :=
  let y' := if m <=? 2 then y - 1 else y in
  let era := y' / 400 in
  let yoe := y' - era * 400 in
  let doy := (153 * (if 2 <? m then m - 3 else m + 9) + 2) / 5 + d - 1 in
  let doe := yoe * 365 + yoe / 4 - yoe / 100 + doy in
  era * 146097 + doe - 719468.

(** Milliseconds of the fraction after the seconds: [Z] alone is 0,
    [.ddd...Z] keeps the first three digits. *)
Definition fraction_ms (suffix : string) : option Z :=
  if String.eqb suffix "Z" then Some 0
  else if String.prefix "." suffix then
    let body := substring 1 (String.length suffix - 2) suffix in
    if (negb (String.length body =? 0)%nat
        && String.eqb (substring (String.length suffix - 1) 1 suffix) "Z")%bool
    then
      match digits_from 0 body with
      | Some _ => digits_from 0 (substring 0 3 (body ^^ "00"))
      | None => None
      end
    else None
  else None.

Definition iso8601_parse (s : string) : option Z :=
  match digits_at 0 4 s, digits_at 5 2 s, digits_at 8 2 s,
        digits_at 11 2 s, digits_at 14 2 s, digits_at 17 2 s,
        fraction_ms (substring 19 (String.length s - 19) s) with
  | Some y, Some m, Some d, Some hh, Some mm, Some ss, Some ms =>
      if (String.eqb (substring 4 1 s) "-" && String.eqb (substring 7 1 s) "-"
          && String.eqb (substring 10 1 s) "T"
          && String.eqb (substring 13 1 s) ":" && String.eqb (substring 16 1 s) ":"
          && (1 <=? m) && (m <=? 12) && (1 <=? d) && (d <=? days_in_month y m)
          && (hh <=? 23) && (mm <=? 59) && (ss <=? 59))%bool
      then Some ((((days_from_civil y m d * 24 + hh) * 60 + mm) * 60 + ss) * 1000 + ms)
      else None
  | _, _, _, _, _, _, _ => None
  end.

Definition decimal_literal (s : string) : number :=
  match s with
  | EmptyString => Num 0
  | String c rest =>
      if String.eqb s "Infinity" then Infinity true
      else if String.eqb s "-Infinity" then Infinity false
      else if (nat_of_ascii c =? 45)%nat then
        match rest, digits_from 0 rest with
        | String _ _, Some z => Num (- z)
        | _, _ => NaN
        end
      else match digits_from 0 s with Some z => Num z | None => NaN end
  end.

(** The positions of each element and the one before it. *)
Definition neighbour_calls (l : list value) : list (nat * nat) :=
  map (fun i => (S i, i)) (seq 0 (List.length l - 1)).

Definition reference_host : Host := {|
  Date_parse := iso8601_parse;
  StringToNumber := decimal_literal;
  engine_calls := fun _ l => neighbour_calls l;
  engine_order := fun _ _ => [];
  SENTRY_AUTH_TOKEN := "token";
  SENTRY_BASE_URL := "https://sentry.io/api/0/";
  SENTRY_ORG_SLUG := "acme";
  process_version := "v18.12.0";
  process_platform := "linux";
  process_memoryUsage := JObject [("rss", JNumber (Num 50000000))]
|}.

(** A release as the upstream lists it. *)
Definition release (version dateCreated : string) (newGroups : Z) : value :=
  JObject [("version", JString version);
           ("dateCreated", JString dateCreated);
           ("newGroups", JNumber (Num newGroups));
           ("shortVersion", JString version)].

(** An upstream that answers every request with the same reply. *)
Definition always (o : Outcome) : Upstream := fun _ _ => o.

(** An upstream whose first [n] attempts fail with [msg]; the attempts after
    them get [o].  The number of attempts made so far is read off the
    history. *)
Definition attempts (h : History) : nat :=
  List.length (filter (fun e => match e with EvRequest _ => true | _ => false end) h).

Definition fails_first (n : nat) (msg : string) (o : Outcome) : Upstream :=
  fun h _ => if (attempts h <? n)%nat then Rejected msg else o.

(** An upstream that serves one payload per URL suffix. *)
Definition routes (table : list (string * value)) : Upstream :=
  fun _ r =>
    match find (fun e => String_includes (fst e) (req_url r)) table with
    | Some e => Resolved (mkResponse 200 (snd e))
    | None => Rejected "Request failed with status code 404"
    end.


(* ===================================================================== *)
(** ** Start-up: the configuration read from the environment *)
(* ===================================================================== *)

(** [process.env]: the variables that are set, each with its string. *)
Definition ProcessEnv : Type := list (string * string).

(** [process.env.NAME]: the string, or [undefined]. *)
Fixpoint env_get (k : string) (env : ProcessEnv) : value :=
  match env with
  | [] => JUndefined
  | (k', s) :: rest => if String.eqb k k' then JString s else env_get k rest
  end.

(** How the top of the module ends: the process exits with a code after
    writing to the diagnostic stream, or the three constants are bound and
    the module goes on to serve. *)
Inductive Startup : Type :=
| Exited (code : Z) (stderr : list string)
| Started (authToken baseUrl orgSlug : value).

Definition required_message (variable : string) : string :=
  "Error: " ^^ variable ^^ " environment variable is required.".

(** The three [if (!X) { console.error(..); process.exit(1); }] in order. *)
Definition startup (env : ProcessEnv) : Startup :=
  let authToken := env_get "SENTRY_AUTH_TOKEN" env in
  let baseUrl := env_get "SENTRY_BASE_URL" env in
  let orgSlug := env_get "SENTRY_ORG_SLUG" env in
  if negb (truthy authToken)
  then Exited 1 [required_message "SENTRY_AUTH_TOKEN"]
  else if negb (truthy baseUrl)
  then Exited 1 [required_message "SENTRY_BASE_URL"]
  else if negb (truthy orgSlug)
  then Exited 1 [required_message "SENTRY_ORG_SLUG"]
  else Started authToken baseUrl orgSlug.

(* ===================================================================== *)
(** ** The debug handler *)
(* ===================================================================== *)

(** [s.slice(start)] on the characters of a string (its bytes here, which
    are its characters for an ASCII token): a negative [start] counts from
    the end, and the start is clamped to the string. *)
Definition String_slice (start : Z) (s : string) : string :=
  let len := Z.of_nat (String.length s) in
  let from := if start <? 0 then Z.max (len + start) 0 else Z.min start len in
  substring (Z.to_nat from) (String.length s - Z.to_nat from) s.

(** [JSON.stringify(v, null, gap)] below the top level, at the indentation
    [indent]: members on lines of their own, [": "] after a key, and an
    empty array or object without a line break. *)
Fixpoint JSON_stringify_pretty (gap indent : string) (v : value)
  : option string :=
  let inner := indent ^^ gap in
  let wrap (opening closing : string) (parts : list string) : string :=
    match parts with
    | [] => opening ^^ closing
    | _ =>
        opening ^^ String (ascii_of_nat 10) inner
          ^^ join ("," ^^ String (ascii_of_nat 10) inner) parts
          ^^ String (ascii_of_nat 10) indent ^^ closing
    end in
  match v with
  | JArray elems =>
      Some (wrap "[" "]"
        ((fix each (l : list value) : list string :=
            match l with
            | [] => []
            | x :: l' =>
                match JSON_stringify_pretty gap inner x with
                | Some t => t
                | None => "null"
                end :: each l'
            end) elems))
  | JObject props =>
      Some (wrap "{" "}"
        ((fix each (l : list (string * value)) : list string :=
            match l with
            | [] => []
            | (k, x) :: l' =>
                match JSON_stringify_pretty gap inner x with
                | Some t => (json_quote k ^^ ": " ^^ t) :: each l'
                | None => each l'
                end
            end) props))
  | _ => JSON_stringify v
  end.

(** ['***' + (token ? token.slice(-4) : 'missing')]; an environment
    variable that is set is a string. *)
Definition masked_token (token : value) : string :=
  "***" ^^ (if truthy token
            then match token with
                 | JString s => String_slice (-4) s
                 | _ => ""
                 end
            else "missing").

(** The object the debug handler serializes.  [axiosInstance.defaults] and
    [process.versions] belong to the libraries and are taken as given. *)
Definition debug_payload (env : ProcessEnv) (axios_defaults versions : value)
  : value :=
  JObject
    [("environment", JObject
        [("SENTRY_BASE_URL", env_get "SENTRY_BASE_URL" env);
         ("SENTRY_AUTH_TOKEN",
            JString (masked_token (env_get "SENTRY_AUTH_TOKEN" env)));
         ("NODE_ENV", env_get "NODE_ENV" env)]);
     ("axiosConfig", axios_defaults);
     ("versions", versions)].

(** The handler registered for [DebugRequestSchema]. *)
Definition Debug_handler (env : ProcessEnv) (axios_defaults versions : value)
  : CallToolResult :=
  mkEnvelope (JObject [])
    [mkBlock "text"
       (JSON_stringify_pretty "  " "" (debug_payload env axios_defaults versions))]
    None.
(* ===================================================================== *)
(** ** Vocabulary of the properties *)
(* ===================================================================== *)

(** The retry policy in the words of the specification: a failed request is
    retried while the budget lasts, the wait before retry [n] is
    [n * 1000] ms, and with the budget spent the failure goes to the
    caller. *)
Fixpoint retry_policy (upstream : Upstream) (budget n : nat) (r : Request)
  (h : History) : result AxiosResponse * History :=
  match upstream h r with
  | Resolved resp => (Return resp, h ++ [EvRequest r])
  | Rejected msg =>
      match budget with
      | O => (Throw (AxiosError msg), h ++ [EvRequest r])
      | S b =>
          retry_policy upstream b (S n) r
            (h ++ [EvRequest r; EvDelay (Z.of_nat n * 1000)])
      end
  end.


(** The comparator returns on every pair of elements of [l]. *)
Definition comparable (comparefn : value -> value -> result (option Z))
  (l : list value) : Prop :=
  forall a b, In a l -> In b l -> exists c, comparefn a b = Return c.

(** [v.k] where the read cannot throw: [undefined] otherwise. *)
Definition member (v : value) (k : string) : value :=
  match get v k with
  | Return x => x
  | Throw _ => JUndefined
  end.

Definition is_object (v : value) : bool :=
  match v with JObject _ => true | _ => false end.

Definition is_string (v : value) : bool :=
  match v with JString _ => true | _ => false end.

(** The three properties [getSortedReleases] keeps of a release. *)
Definition projection (v : value) : value :=
  JObject [("version", member v "version");
           ("dateCreated", member v "dateCreated");
           ("newGroups", member v "newGroups")].

(** The entry [list_recent_releases] makes of a projected release whose
    version is a string. *)
Definition recent_view (e : value) : value :=
  JObject [("version", member e "version");
           ("date", member e "dateCreated");
           ("new_issues", member e "newGroups");
           ("type", JString (match member e "version" with
                             | JString s =>
                                 if String_includes "mobile" s
                                 then "mobile" else "desktop"
                             | _ => "desktop"
                             end))].

(** A count that does not bound a list of [len] entries. *)
Definition unbounded (count : value) (len : nat) : Prop :=
  match count with
  | JNumber (Infinity true) => True
  | JNumber (Num n) => Z.of_nat len <= n
  | _ => False
  end.

Section DateOrder.
Context {host : Host}.

(** When a release was created, as the comparator reads it; [None] when
    [dateCreated] is no date. *)
Definition release_time (v : value) : option Z :=
  match Date_getTime (member v "dateCreated") with
  | Return t => t
  | Throw _ => None
  end.

(** An upstream release: an object whose [dateCreated] is a date. *)
Definition well_dated (v : value) : bool :=
  is_object v && match release_time v with Some _ => true | None => false end.

(** [a] is not older than [b]. *)
Definition not_older (a b : value) : Prop :=
  exists ta tb, release_time a = Some ta /\ release_time b = Some tb /\ tb <= ta.

(** The comparator on dated objects. *)
Definition date_order (x y : value) : Z :=
  match release_time y, release_time x with
  | Some ty, Some tx => ty - tx
  | _, _ => 0
  end.

Fixpoint insert_by_date (x : value) (l : list value) : list value :=
  match l with
  | [] => [x]
  | y :: l' =>
      if date_order x y <=? 0 then x :: y :: l' else y :: insert_by_date x l'
  end.

(** The stable sort by [dateCreated], newest first. *)
Fixpoint sort_by_date (l : list value) : list value :=
  match l with
  | [] => []
  | x :: l' => insert_by_date x (sort_by_date l')
  end.

End DateOrder.

(** The relative URL [getSortedReleases] requests. *)
Definition releases_path (org project : string) : string :=
  "projects/" ^^ org ^^ "/" ^^ project ^^ "/releases/".

(** An upstream release as the interface [SentryReleaseResponse] types what
    the tools read of it: an object whose [version] and [dateCreated] are
    strings. *)
Definition release_like (v : value) : bool :=
  is_object v && is_string (member v "version")
  && is_string (member v "dateCreated").

(** The release data of an entry of [get_releases]. *)
Definition release_data (e : value) : value * value * value :=
  (member e "version", member e "dateCreated", member e "newGroups").

(** The release data of an entry of [list_recent_releases]. *)
Definition recent_data (e : value) : value * value * value :=
  (member e "version", member e "date", member e "new_issues").

(** An entry with exactly the three properties of a projected release. *)
Definition three_fields (e : value) : Prop :=
  exists v d n,
    e = JObject [("version", v); ("dateCreated", d); ("newGroups", n)].

(** The execution function the registry holds under a name. *)
Definition registry_exec (registry : list (string * Exec)) (n : string)
  : option Exec :=
  match find (fun e => String.eqb (fst e) n) registry with
  | Some e => Some (snd e)
  | None => None
  end.

(** [k] is an own property of the argument record, if there is one. *)
Definition supplied (k : string) (arguments_ : option (list (string * value)))
  : bool :=
  match arguments_ with
  | Some args => has_key k args
  | None => false
  end.

(** A value [JSON.stringify] turns into text that starts with a bracket: an
    array or an object. *)
Definition structured (v : value) : bool :=
  match v with
  | JArray _ | JObject _ => true
  | _ => false
  end.

Section RecentOrder.
Context {host : Host}.

(** When the release of a [list_recent_releases] entry was created. *)
Definition recent_time (e : value) : option Z :=
  match Date_getTime (member e "date") with
  | Return t => t
  | Throw _ => None
  end.

Definition recent_not_older (a b : value) : Prop :=
  exists ta tb, recent_time a = Some ta /\ recent_time b = Some tb /\ tb <= ta.

End RecentOrder.

Section Urls.
Context {host : Host}.

(** The absolute URL of a project's release list, as
    [getLatestReleaseVersion] and [get_release_issues] request it. *)
Definition releases_url (org project : string) : string :=
  SENTRY_BASE_URL ^^ "projects/" ^^ org ^^ "/" ^^ project ^^ "/releases/".

(** The absolute URL of a project's details. *)
Definition project_url (org project : string) : string :=
  SENTRY_BASE_URL ^^ "projects/" ^^ org ^^ "/" ^^ project ^^ "/".

(** The absolute URL of one release of a project, the version
    percent-encoded. *)
Definition health_url (org project version : string) : string :=
  SENTRY_BASE_URL ^^ "projects/" ^^ org ^^ "/" ^^ project ^^ "/releases/"
    ^^ percent_encode version ^^ "/".

(** The request that searches an organization's issues for a release. *)
Definition issues_request (org : string) (projectId : value) (version : string)
  : Request :=
  mkRequest (SENTRY_BASE_URL ^^ "organizations/" ^^ org ^^ "/issues/")
    [("project", projectId);
     ("query", JString ("release:" ^^ dquote ^^ version ^^ dquote))].

(** The organization a call is made for: the [org_slug] argument as
    [String] converts it when it is truthy and does not convert to the
    empty string, else the configured one. *)
Definition effective_org (args : list (string * value)) : result string :=
  if truthy (prop args "org_slug")
  then let+ s := String_ (prop args "org_slug") in
       Return (if String.eqb s "" then SENTRY_ORG_SLUG else s)
  else Return SENTRY_ORG_SLUG.

End Urls.

(** The events of one call to the client that needed [k] retries, the next
    retry being number [n]: attempts with the waits between them. *)
Fixpoint retry_trace (r : Request) (n k : nat) : History :=
  match k with
  | O => [EvRequest r]
  | S k' => EvRequest r :: EvDelay (Z.of_nat n * 1000) :: retry_trace r (S n) k'
  end.

(** Three attempts of a request, each followed by its wait: what stands
    before the fourth and last attempt. *)
Definition three_failures (r : Request) : History :=
  [EvRequest r; EvDelay 1000; EvRequest r; EvDelay 2000;
   EvRequest r; EvDelay 3000].

(** The time spent waiting in a stretch of history, in ms. *)
Fixpoint waited (h : History) : Z :=
  match h with
  | [] => 0
  | EvDelay ms :: rest => ms + waited rest
  | EvRequest _ :: rest => waited rest
  end.

(** [h'] continues [h] with at most [calls] calls to the client: at most
    four attempts and six seconds of waiting for each. *)
Definition within (calls : nat) (h h' : History) : Prop :=
  exists tail,
    h' = h ++ tail
    /\ (attempts tail <= 4 * calls)%nat
    /\ 0 <= waited tail <= 6000 * Z.of_nat calls.

(** A computation that makes at most [calls] calls to the client. *)
Definition bounded {A : Type} (calls : nat) (m : Async A) : Prop :=
  forall h, within calls h (snd (m h)).

(** How many calls to the client the tool of a name makes at most. *)
Definition client_calls (tool : string) : nat :=
  if String.eqb tool "get_release_issues" then 3
  else if String.eqb tool "get_release_health" then 2
  else if String.eqb tool "inspect_sentry" then 0
  else 1.

(** A computation that reaches the upstream through the client only: it is
    made of synchronous steps and of calls to [axiosInstance.get], at most
    [calls] of them in a run.  It is given as a function of the upstream it
    runs against. *)
Inductive client_program
  : forall A : Type, (Upstream -> Async A) -> nat -> Prop :=
| program_lift (A : Type) (r : result A) :
    client_program A (fun _ => lift r) 0
| program_get (u : string) (ps : list (string * value)) :
    client_program AxiosResponse (fun upstream => axios_get upstream u ps) 1
| program_bind (A B : Type) (m : Upstream -> Async A)
    (k : Upstream -> A -> Async B) (a b : nat) :
    client_program A m a ->
    (forall x, client_program B (fun upstream => k upstream x) b) ->
    client_program B (fun upstream => bind (m upstream) (k upstream)) (a + b)
| program_weaken (A : Type) (m : Upstream -> Async A) (a b : nat) :
    (a <= b)%nat -> client_program A m a -> client_program A m b.

(** How many elements [slice(0, count)] keeps of [len]: a negative count
    drops that many from the end, anything that is not a number keeps
    none. *)
Definition kept (count : number) (len : nat) : nat :=
  match count with
  | NaN => 0
  | Num z =>
      if z <? 0 then Z.to_nat (Z.max (Z.of_nat len + z) 0)
      else Nat.min (Z.to_nat z) len
  | Infinity true => len
  | Infinity false => 0
  end.

(** The object [get_release_health] makes of a release payload. *)
Definition health_view (releaseVersion payload : value) : value :=
  JObject [("version", releaseVersion);
           ("new_issues", member payload "new_groups");
           ("crash_free_rate", member payload "crash_free_rate");
           ("sessions", member payload "sessions");
           ("stats", member payload "stats")].

(** The object the issue tools make of an issue payload. *)
Definition issue_view (payload : value) : value :=
  JObject [("id", member payload "id");
           ("title", member payload "title");
           ("permalink", member payload "permalink")].

(** The text of an error envelope whose details are [details]:
    [{"error":"Failed to execute tool","details":"<details>"}], the details
    escaped as JSON. *)
Definition error_text (details : string) : string :=
  ("{" ^^ dquote ^^ "error" ^^ dquote ^^ ":"
       ^^ dquote ^^ "Failed to execute tool" ^^ dquote ^^ ","
       ^^ dquote ^^ "details" ^^ dquote ^^ ":"
       ^^ dquote ^^ json_escape details ^^ dquote) ^^ "}".

(** The value of a hexadecimal digit. *)
Definition hex_value (c : ascii) : option nat :=
  let n := nat_of_ascii c in
  if ((48 <=? n) && (n <=? 57))%nat then Some (n - 48)%nat
  else if ((65 <=? n) && (n <=? 70))%nat then Some (n - 55)%nat
  else if ((97 <=? n) && (n <=? 102))%nat then Some (n - 87)%nat
  else None.

(** Reading percent escapes back: [%XY] becomes the byte [XY], anything
    else stands for itself. *)
Fixpoint percent_decode (s : string) : string :=
  match s with
  | EmptyString => EmptyString
  | String c rest =>
      if Ascii.eqb c "%" then
        match rest with
        | String a (String b rest') =>
            match hex_value a, hex_value b with
            | Some x, Some y =>
                String (ascii_of_nat (16 * x + y)) (percent_decode rest')
            | _, _ => String c (percent_decode rest)
            end
        | _ => String c (percent_decode rest)
        end
      else String c (percent_decode rest)
  end.

(** A string made of unreserved characters and [%] only. *)
Definition uri_safe (s : string) : bool :=
  forallb (fun c => uri_unreserved c || Ascii.eqb c "%") (list_ascii_of_string s).

(** A computation whose first event is the request [r]. *)
Definition starts_with {A : Type} (r : Request) (m : Async A) : Prop :=
  forall h, exists tail, snd (m h) = h ++ EvRequest r :: tail.

(** The [TypeError]s of the engine that the program can run into: a value
    that cannot be converted to a primitive, a property read of [null] or
    [undefined], and a call of a method the value does not have. *)
Definition is_TypeError (e : Error) : Prop :=
  e = cannot_convert
  \/ (exists what k,
        (what = "undefined" \/ what = "null") /\ e = cannot_read what k)
  \/ (exists expr method,
        e = TypeError (expr ^^ "." ^^ method ^^ " is not a function")).

(** The errors a tool can end with once its parameters are built: an
    upstream failure that outlasted the retries, a [TypeError] of the
    engine, the [URIError] for a release version that cannot be encoded, or
    one of the three messages about releases. *)
Definition tool_error (upstream : Upstream) (e : Error) : Prop :=
  (exists m h0 r, e = AxiosError m /\ upstream h0 r = Rejected m)
  \/ is_TypeError e
  \/ e = URIError "URI malformed"
  \/ e = Error_ "No releases found"
  \/ (exists project, e = Error_ ("No releases found for project " ^^ project))
  \/ e = Error_ "Could not determine release version.".

Section Declared.
Context {host : Host}.

(** The argument names a tool's schema declares; none for an unknown
    name. *)
Definition declared_properties (tool : string) : list string :=
  match find (fun d => String.eqb (fst d) tool) serverCapabilities_tools with
  | Some d => Object_keys (properties (inputSchema (snd d)))
  | None => []
  end.

End Declared.

(** Two argument records agree on a key: both have it with the same value,
    or neither has it. *)
Definition agree_on (k : string) (args1 args2 : list (string * value)) : Prop :=
  lookup k args1 = lookup k args2.

Section Ties.
Context {host : Host}.

(** The release was created at the instant [t]. *)
Definition created_at (t : Z) (v : value) : bool :=
  match release_time v with
  | Some t' => t' =? t
  | None => false
  end.

End Ties.

(** The bytes that hold a code unit: itself below 128, the three bytes of a
    lone surrogate from D800 on. *)
Definition code_unit_bytes (u : N) : string :=
  if (u <? 128)%N then String (ascii_of_N u) EmptyString
  else String (ascii_of_nat 237)
         (String (ascii_of_N (160 + (u - 55296) / 64))
            (String (ascii_of_N (128 + u mod 64)) EmptyString)).

(** Reading the escapes of a JSON string back. *)
Fixpoint json_unescape (s : string) : string :=
  match s with
  | EmptyString => EmptyString
  | String c rest =>
      if Ascii.eqb c "\" then
        match rest with
        | String "u" (String a (String b (String x (String y rest')))) =>
            match hex_value a, hex_value b, hex_value x, hex_value y with
            | Some ha, Some hb, Some hx, Some hy =>
                code_unit_bytes
                  (4096 * N.of_nat ha + 256 * N.of_nat hb
                   + 16 * N.of_nat hx + N.of_nat hy)%N
                  ^^ json_unescape rest'
            | _, _, _, _ => String c (json_unescape rest)
            end
        | String d rest' =>
            String (if Ascii.eqb d "b" then ascii_of_nat 8
                    else if Ascii.eqb d "f" then ascii_of_nat 12
                    else if Ascii.eqb d "n" then ascii_of_nat 10
                    else if Ascii.eqb d "r" then ascii_of_nat 13
                    else if Ascii.eqb d "t" then ascii_of_nat 9
                    else d) (json_unescape rest')
        | EmptyString => String c EmptyString
        end
      else String c (json_unescape rest)
  end.

(** No control character and no bare double quote: every double quote of
    the text follows a backslash. *)
Fixpoint quoted_safely (escaped : bool) (s : string) : bool :=
  match s with
  | EmptyString => negb escaped
  | String c rest =>
      (32 <=? nat_of_ascii c)%nat
      && (if escaped then quoted_safely false rest
          else if Ascii.eqb c "\" then quoted_safely true rest
          else negb (nat_of_ascii c =? 34)%nat && quoted_safely false rest)
  end.

(* ===================================================================== *)
(** * Properties *)
(* ===================================================================== *)

(** ** The value model on small inputs *)

Example truthy_zero_and_empty :
  map truthy [JNumber (Num 0); JString ""; JString "0"; JNumber NaN; JArray []]
  = [false; false; true; false; true].
Proof. reflexivity. Qed.

Example String_of_array :
  String_ (JArray [JNumber (Num 1); JNull; JArray [JString "a"; JString "b"]])
  = Return "1,,a,b".
Proof. reflexivity. Qed.

(** An own [toString] that is no function leaves nothing to convert with,
    also inside an array. *)
Example String_of_unconvertible :
  String_ (JObject [("toString", JNumber (Num 1))]) = Throw cannot_convert
  /\ String_ (JArray [JString "a"; JObject [("toString", JNull)]])
     = Throw cannot_convert
  /\ String_ (JObject [("valueOf", JNumber (Num 1))]) = Return "[object Object]".
Proof. repeat split; reflexivity. Qed.

Example String_of_large_numbers :
  map (fun z => String_ (JNumber (Num z)))
    [9007199254740992; 18446744073709551616; 100000000000000000000;
     1000000000000000000000; 1180591620717411303424;
     - 123456789012345677877248]
  = map Return
      ["9007199254740992"; "18446744073709552000"; "100000000000000000000";
       "1e+21"; "1.1805916207174113e+21"; "-1.2345678901234568e+23"].
Proof. vm_compute. reflexivity. Qed.

Example slice_negative_end :
  Array_slice0 [1; 2; 3; 4]%nat (Num (-1)) = [1; 2; 3]%nat.
Proof. reflexivity. Qed.

Example encodeURIComponent_version :
  encodeURIComponent "mobile-app@1.0 beta/2"
  = Return "mobile-app%401.0%20beta%2F2".
Proof. reflexivity. Qed.

(** The lone surrogate U+D800 cannot be encoded, and JSON writes it as an
    escape. *)
Example lone_surrogate :
  let s := String (ascii_of_nat 237)
             (String (ascii_of_nat 160) (String (ascii_of_nat 128) "x")) in
  encodeURIComponent s = Throw (URIError "URI malformed")
  /\ json_escape s = "\ud800x".
Proof. split; reflexivity. Qed.

Example stringify_skips_undefined :
  JSON_stringify (JObject [("id", JString "7"); ("title", JUndefined);
                           ("tags", JArray [JUndefined; JNumber (Num (-3))])])
  = Some ("{" ^^ json_quote "id" ^^ ":" ^^ json_quote "7" ^^ ","
              ^^ json_quote "tags" ^^ ":[null,-3]}").
Proof. reflexivity. Qed.

Example iso8601_epoch :
  iso8601_parse "1970-01-02T00:00:00.500Z" = Some 86400500
  /\ iso8601_parse "2023-10-27T10:30:00Z" = Some 1698402600000
  /\ iso8601_parse "2023-02-30T00:00:00Z" = None.
Proof. repeat split; reflexivity. Qed.

(** ** Substrings *)

Lemma prefix_app (a b : string) :
  String.prefix a b = true <-> exists post, b = a ^^ post.
Proof.
  revert b. induction a as [|c a IH]; intros b; simpl.
  - destruct b; split; eauto.
  - destruct b as [|d b]; simpl.
    + split; [discriminate|]. intros [post H]. discriminate H.
    + destruct (ascii_dec c d) as [->|N].
      * rewrite IH. split; intros [post H]; exists post.
        -- rewrite H. reflexivity.
        -- inversion H. reflexivity.
      * split; [discriminate|]. intros [post H]. inversion H. congruence.
Qed.

(** [includes] finds the needle exactly when it occurs somewhere. *)
Lemma String_includes_spec (needle s : string) :
  String_includes needle s = true
  <-> exists pre post, s = pre ^^ needle ^^ post.
Proof.
  induction s as [|c s IH]; cbn [String_includes].
  - rewrite Bool.orb_false_r, prefix_app. split.
    + intros [post H]. exists "", post. exact H.
    + intros (pre & post & H). destruct pre; simpl in H; [eauto|discriminate].
  - rewrite Bool.orb_true_iff, prefix_app, IH. split.
    + intros [[post H]|(pre & post & H)].
      * exists "", post. exact H.
      * exists (String c pre), post. simpl. rewrite H. reflexivity.
    + intros (pre & post & H). destruct pre as [|d pre]; simpl in H.
      * left. eauto.
      * right. inversion H. eauto.
Qed.

Lemma append_nil_r (s : string) : s ^^ "" = s.
Proof. induction s as [|c s IH]; simpl; [reflexivity|]. rewrite IH. reflexivity. Qed.

Lemma append_assoc (a b c : string) : (a ^^ b) ^^ c = a ^^ b ^^ c.
Proof. induction a as [|x a IH]; simpl; [reflexivity|]. rewrite IH. reflexivity. Qed.

Lemma String_includes_append (needle a b : string) :
  String_includes needle b = true -> String_includes needle (a ^^ b) = true.
Proof.
  rewrite !String_includes_spec. intros (pre & post & ->).
  exists (a ^^ pre), post. rewrite append_assoc. reflexivity.
Qed.

Lemma String_includes_prepend (needle a b : string) :
  String_includes needle a = true -> String_includes needle (a ^^ b) = true.
Proof.
  rewrite !String_includes_spec. intros (pre & post & ->).
  exists pre, (post ^^ b). rewrite !append_assoc. reflexivity.
Qed.

(** ** The retry policy *)

Lemma axiosInstance_step (upstream : Upstream) (config : AxiosRequestConfig)
  (h : History) :
  axiosInstance upstream config h =
  match upstream h (request_of config) with
  | Resolved r => (Return r, h ++ [EvRequest (request_of config)])
  | Rejected msg =>
      if ((retry config =? 0) || (retry config <=? retry_count config))%nat
      then (Throw (AxiosError msg), h ++ [EvRequest (request_of config)])
      else axiosInstance upstream (bump config)
             (h ++ [EvRequest (request_of config);
                    EvDelay (retryDelay (S (retry_count config)))])
  end.
Proof.
  rewrite axiosInstance_equation_1.
  destruct (upstream h (request_of config)) as [r|msg]; simpl; [reflexivity|].
  destruct (Nat.eqb_spec (retry config) 0) as [E|E]; simpl.
  - destruct (le_lt_dec (retry config) (retry_count config)); reflexivity.
  - destruct (le_lt_dec (retry config) (retry_count config)) as [L|L]; simpl.
    + apply Nat.leb_le in L. rewrite L. reflexivity.
    + apply Nat.leb_gt in L. rewrite L. reflexivity.
Qed.

(** The interceptor implements the policy: from any configuration, the
    remaining budget is [retry - __retryCount]. *)
Lemma axiosInstance_retry_policy (upstream : Upstream) (budget : nat) :
  forall (config : AxiosRequestConfig) (h : History),
    (retry config - retry_count config)%nat = budget ->
    axiosInstance upstream config h =
    retry_policy upstream budget (S (retry_count config)) (request_of config) h.
Proof.
  induction budget as [|b IH]; intros config h Hb;
    rewrite axiosInstance_step; simpl;
    destruct (upstream h (request_of config)) as [r|msg]; try reflexivity.
  - assert (L : (retry config <=? retry_count config)%nat = true)
      by (apply Nat.leb_le; lia).
    rewrite L, Bool.orb_true_r. reflexivity.
  - assert (L : (retry config <=? retry_count config)%nat = false)
      by (apply Nat.leb_gt; lia).
    assert (E : (retry config =? 0)%nat = false) by (apply Nat.eqb_neq; lia).
    rewrite L, E. simpl.
    rewrite (IH (bump config)) by (unfold retry_count; simpl; fold (retry_count config); lia).
    unfold retryDelay. reflexivity.
Qed.

Lemma axios_get_retry_policy (upstream : Upstream) (u : string)
  (ps : list (string * value)) (h : History) :
  axios_get upstream u ps h = retry_policy upstream 3 1 (mkRequest u ps) h.
Proof.
  unfold axios_get. rewrite (axiosInstance_retry_policy upstream 3); reflexivity.
Qed.

(** Every call sends its request first: the history grows by that request
    and whatever follows it. *)
Lemma retry_policy_extends (upstream : Upstream) (budget : nat) :
  forall n r h out h',
    retry_policy upstream budget n r h = (out, h') ->
    exists tail, h' = h ++ EvRequest r :: tail.
Proof.
  induction budget as [|b IH]; intros n r h out h' H; simpl in H;
    destruct (upstream h r).
  - inversion H; subst. exists []. reflexivity.
  - inversion H; subst. exists []. reflexivity.
  - inversion H; subst. exists []. reflexivity.
  - apply IH in H. destruct H as [tail ->].
    exists (EvDelay (Z.of_nat n * 1000) :: EvRequest r :: tail).
    rewrite <- app_assoc. reflexivity.
Qed.

Lemma attempts_app (h l : History) :
  attempts (h ++ l) = (attempts h + attempts l)%nat.
Proof. unfold attempts. rewrite filter_app, length_app. reflexivity. Qed.

(** A call makes at least one attempt and at most one more than its
    budget of retries. *)
Lemma retry_policy_attempts (upstream : Upstream) (budget : nat) :
  forall n r h out h',
    retry_policy upstream budget n r h = (out, h') ->
    (attempts h < attempts h' <= attempts h + S budget)%nat.
Proof.
  induction budget as [|b IH]; intros n r h out h' H; simpl in H;
    destruct (upstream h r);
    try (inversion H; subst; rewrite attempts_app; cbn; lia).
  apply IH in H. rewrite attempts_app in H. cbn in H. lia.
Qed.

(** Three failures and an answer, and four failures. *)
Lemma axios_get_third_attempt (upstream : Upstream) (u : string)
  (ps : list (string * value)) (h : History) (m1 m2 : string)
  (resp : AxiosResponse) :
  upstream h (mkRequest u ps) = Rejected m1 ->
  upstream (h ++ [EvRequest (mkRequest u ps); EvDelay 1000])
    (mkRequest u ps) = Rejected m2 ->
  upstream ((h ++ [EvRequest (mkRequest u ps); EvDelay 1000])
              ++ [EvRequest (mkRequest u ps); EvDelay 2000])
    (mkRequest u ps) = Resolved resp ->
  axios_get upstream u ps h
  = (Return resp,
     ((h ++ [EvRequest (mkRequest u ps); EvDelay 1000])
        ++ [EvRequest (mkRequest u ps); EvDelay 2000])
       ++ [EvRequest (mkRequest u ps)]).
Proof.
  intros E1 E2 E3. rewrite axios_get_retry_policy.
  simpl. rewrite E1. simpl in E2. rewrite E2. simpl in E3. rewrite E3.
  reflexivity.
Qed.

Lemma axios_get_given_up (upstream : Upstream) (u : string)
  (ps : list (string * value)) (h : History) (m1 m2 m3 m4 : string) :
  upstream h (mkRequest u ps) = Rejected m1 ->
  upstream (h ++ [EvRequest (mkRequest u ps); EvDelay 1000])
    (mkRequest u ps) = Rejected m2 ->
  upstream ((h ++ [EvRequest (mkRequest u ps); EvDelay 1000])
              ++ [EvRequest (mkRequest u ps); EvDelay 2000])
    (mkRequest u ps) = Rejected m3 ->
  upstream (((h ++ [EvRequest (mkRequest u ps); EvDelay 1000])
               ++ [EvRequest (mkRequest u ps); EvDelay 2000])
              ++ [EvRequest (mkRequest u ps); EvDelay 3000])
    (mkRequest u ps) = Rejected m4 ->
  axios_get upstream u ps h
  = (Throw (AxiosError m4),
     (((h ++ [EvRequest (mkRequest u ps); EvDelay 1000])
         ++ [EvRequest (mkRequest u ps); EvDelay 2000])
        ++ [EvRequest (mkRequest u ps); EvDelay 3000])
       ++ [EvRequest (mkRequest u ps)]).
Proof.
  intros E1 E2 E3 E4. rewrite axios_get_retry_policy.
  simpl. rewrite E1. simpl in E2. rewrite E2. simpl in E3. rewrite E3.
  simpl in E4. rewrite E4. reflexivity.
Qed.

(** ** The traces of the client *)

Lemma removelast_app_last {A : Type} (l : list A) (x : A) :
  removelast (l ++ [x]) = l.
Proof. apply removelast_last. Qed.

Lemma retry_trace_last (r : Request) (k : nat) :
  forall n, exists init, retry_trace r n k = init ++ [EvRequest r].
Proof.
  induction k as [|k IH]; intros n; simpl.
  - exists []. reflexivity.
  - destruct (IH (S n)) as [init ->].
    exists (EvRequest r :: EvDelay (Z.of_nat n * 1000) :: init). reflexivity.
Qed.

Lemma waited_app (h l : History) : waited (h ++ l) = waited h + waited l.
Proof.
  induction h as [|[r|ms] h IH]; simpl; rewrite ?IH; lia.
Qed.

Lemma retry_trace_attempts (r : Request) (k : nat) :
  forall n, attempts (retry_trace r n k) = S k.
Proof.
  induction k as [|k IH]; intros n; [reflexivity|].
  change (attempts (retry_trace r n (S k)))
    with (S (attempts (retry_trace r (S n) k))).
  rewrite IH. reflexivity.
Qed.

Lemma retry_trace_waited (r : Request) (k : nat) :
  forall n,
    2 * waited (retry_trace r n k)
    = 1000 * Z.of_nat k * (2 * Z.of_nat n + Z.of_nat k - 1).
Proof.
  induction k as [|k IH]; intros n.
  - simpl. lia.
  - cbn [retry_trace waited]. specialize (IH (S n)). nia.
Qed.

(** What one call of the policy leaves in the history, and why it ended:
    [k] retries were needed, the last attempt decided, and a failure is
    only given up with the budget spent. *)
Lemma retry_policy_trace (upstream : Upstream) (budget : nat) :
  forall n r h,
    exists k,
      (k <= budget)%nat
      /\ snd (retry_policy upstream budget n r h) = h ++ retry_trace r n k
      /\ match fst (retry_policy upstream budget n r h) with
         | Return resp =>
             upstream (removelast (h ++ retry_trace r n k)) r = Resolved resp
         | Throw e =>
             k = budget
             /\ exists m, e = AxiosError m
                          /\ upstream (removelast (h ++ retry_trace r n k)) r
                             = Rejected m
         end.
Proof.
  induction budget as [|b IH]; intros n r h; simpl.
  - exists 0%nat. simpl. rewrite removelast_app_last.
    destruct (upstream h r) as [resp|m] eqn:E; simpl; rewrite ?E; eauto 6.
  - destruct (upstream h r) as [resp|m] eqn:E.
    + exists 0%nat. simpl. rewrite removelast_app_last, E.
      split; [lia|]. split; reflexivity.
    + destruct (IH (S n) r (h ++ [EvRequest r; EvDelay (Z.of_nat n * 1000)]))
        as (k & Hk & Hh & Hout).
      exists (S k). split; [lia|].
      assert (Eh : (h ++ [EvRequest r; EvDelay (Z.of_nat n * 1000)])
                     ++ retry_trace r (S n) k
                   = h ++ retry_trace r n (S k)).
      { rewrite <- app_assoc. reflexivity. }
      rewrite Eh in Hh, Hout. split; [exact Hh|].
      destruct (fst (retry_policy upstream b (S n) r
                       (h ++ [EvRequest r; EvDelay (Z.of_nat n * 1000)])));
        [exact Hout|].
      destruct Hout as (-> & Hm). split; [reflexivity|exact Hm].
Qed.

(** The trace and the outcome of one call to the client. *)
Lemma axios_get_trace (upstream : Upstream) (u : string)
  (ps : list (string * value)) (h : History) :
  exists k,
    (k <= 3)%nat
    /\ snd (axios_get upstream u ps h) = h ++ retry_trace (mkRequest u ps) 1 k
    /\ waited (retry_trace (mkRequest u ps) 1 k)
       = 500 * Z.of_nat k * (Z.of_nat k + 1)
    /\ match fst (axios_get upstream u ps h) with
       | Return resp =>
           upstream (removelast (snd (axios_get upstream u ps h)))
             (mkRequest u ps) = Resolved resp
       | Throw e =>
           k = 3%nat
           /\ exists m,
                e = AxiosError m
                /\ upstream (removelast (snd (axios_get upstream u ps h)))
                     (mkRequest u ps) = Rejected m
       end.
Proof.
  rewrite axios_get_retry_policy.
  destruct (retry_policy_trace upstream 3 1 (mkRequest u ps) h)
    as (k & Hk & Hh & Hout).
  exists k. split; [exact Hk|]. split; [exact Hh|]. split.
  - pose proof (retry_trace_waited (mkRequest u ps) k 1) as W. nia.
  - rewrite Hh. exact Hout.
Qed.

(** A wait of 3000 ms stands in the trace of a call only before its fourth
    attempt, which is its last. *)
Lemma retry_trace_fourth (r0 r : Request) (k : nat) (z y : History) :
  (k <= 3)%nat ->
  retry_trace r0 1 k = z ++ EvDelay 3000 :: EvRequest r :: y ->
  k = 3%nat /\ r = r0 /\ y = []
  /\ z = [EvRequest r0; EvDelay 1000; EvRequest r0; EvDelay 2000; EvRequest r0].
Proof.
  intros Hk E.
  destruct k as [|[|[|[|k]]]]; [| | | |lia]; cbn in E;
    repeat (destruct z as [|? z]; cbn in E;
            [try discriminate E|
             try discriminate E; injection E as <- E]);
    try discriminate E.
  injection E as <- <-. auto.
Qed.

(** ** Conversions *)

Lemma String_JString (s : string) : String_ (JString s) = Return s.
Proof. reflexivity. Qed.

Lemma cannot_convert_TypeError : is_TypeError cannot_convert.
Proof. left. reflexivity. Qed.

Lemma cannot_read_TypeError (what k : string) :
  what = "undefined" \/ what = "null" -> is_TypeError (cannot_read what k).
Proof. intros H. right. left. eauto. Qed.

Lemma not_a_function_TypeError (expr method : string) :
  is_TypeError (TypeError (expr ^^ "." ^^ method ^^ " is not a function")).
Proof. right. right. eauto. Qed.

(** Induction on values, through the elements of arrays. *)
Lemma value_elements_ind (P : value -> Prop) :
  P JUndefined -> P JNull -> (forall b, P (JBool b)) ->
  (forall n, P (JNumber n)) -> (forall s, P (JString s)) ->
  (forall elems, Forall P elems -> P (JArray elems)) ->
  (forall props, P (JObject props)) ->
  forall v, P v.
Proof.
  intros Hu Hn Hb Hnum Hs Ha Ho. fix IH 1.
  intros [| |b|n|s|elems|props];
    [exact Hu|exact Hn|apply Hb|apply Hnum|apply Hs| |apply Ho].
  apply Ha. induction elems as [|x l IHl]; constructor; [apply IH|exact IHl].
Qed.

Lemma String_parts_Throw (elems : list value) (e : Error) :
  Forall (fun x => forall e', String_ x = Throw e' -> e' = cannot_convert) elems ->
  (fix each (l : list value) : result (list string) :=
     match l with
     | [] => Return []
     | x :: l' =>
         let+ p := match x with
                   | JUndefined | JNull => Return ""
                   | _ => String_ x
                   end in
         let+ ps := each l' in
         Return (p :: ps)
     end) elems = Throw e ->
  e = cannot_convert.
Proof.
  induction 1 as [|x l Hx Hl IH]; intros H; [discriminate H|].
  match type of H with
  | result_bind ?r _ = Throw _ => destruct r as [p|e0] eqn:Ep
  end; cbn [result_bind] in H.
  - match type of H with
    | result_bind ?r _ = Throw _ => destruct r as [ps|e1] eqn:Eps
    end; cbn [result_bind] in H; [discriminate H|].
    inversion H; subst. apply IH. reflexivity.
  - inversion H; subst. destruct x; try discriminate Ep; apply Hx; exact Ep.
Qed.

(** [String] throws nothing but the conversion error. *)
Lemma String_Throw (v : value) (e : Error) :
  String_ v = Throw e -> e = cannot_convert.
Proof.
  revert e. induction v as [| |b|n|s|elems IH|props] using value_elements_ind;
    intros e H; try discriminate H.
  - destruct b; discriminate H.
  - cbn [String_] in H.
    match type of H with
    | result_bind ?r _ = Throw _ => destruct r as [ps|e1] eqn:Eps
    end; cbn [result_bind] in H; [discriminate H|].
    inversion H; subst. eapply String_parts_Throw; [exact IH|exact Eps].
  - cbn [String_] in H. destruct (has_key "toString" props); inversion H.
    reflexivity.
Qed.

Lemma Number_Throw {host : Host} (v : value) (e : Error) :
  Number_ v = Throw e -> e = cannot_convert.
Proof.
  destruct v as [| |[|]| | | |]; cbn [Number_]; intros H; try discriminate H;
    match type of H with
    | result_bind ?r _ = Throw _ => destruct r as [s|e1] eqn:E
    end; cbn [result_bind] in H; try discriminate H;
    inversion H; subst; eapply String_Throw; exact E.
Qed.

Lemma Date_getTime_Throw {host : Host} (v : value) (e : Error) :
  Date_getTime v = Throw e -> e = cannot_convert.
Proof.
  destruct v as [| |[|]| | | |]; cbn [Date_getTime Number_ result_bind];
    intros H; try discriminate H;
    match type of H with
    | result_bind ?r _ = Throw _ => destruct r as [s|e1] eqn:E
    end; cbn [result_bind] in H; try discriminate H;
    inversion H; subst; eapply String_Throw; exact E.
Qed.

Lemma encodeURIComponent_Throw (s : string) (e : Error) :
  encodeURIComponent s = Throw e -> e = URIError "URI malformed".
Proof.
  unfold encodeURIComponent. destruct (well_formed s); intros H; inversion H.
  reflexivity.
Qed.

(** ** Inversion of the monadic steps *)

Lemma bind_Return {A B : Type} (m : Async A) (k : A -> Async B)
  (h h' : History) (b : B) :
  bind m k h = (Return b, h') ->
  exists a h1, m h = (Return a, h1) /\ k a h1 = (Return b, h').
Proof.
  unfold bind. destruct (m h) as [[a|e] h1]; [eauto|discriminate].
Qed.

Lemma lift_Return {A : Type} (r : result A) (h h' : History) (a : A) :
  lift r h = (Return a, h') -> r = Return a /\ h' = h.
Proof. unfold lift. intros H. inversion H. auto. Qed.

Lemma result_bind_Return {A B : Type} (r : result A) (k : A -> result B) (b : B) :
  result_bind r k = Return b -> exists a, r = Return a /\ k a = Return b.
Proof. destruct r as [a|e]; simpl; [eauto|discriminate]. Qed.

Lemma bind_Throw {A B : Type} (m : Async A) (k : A -> Async B)
  (h h' : History) (e : Error) :
  bind m k h = (Throw e, h') ->
  m h = (Throw e, h')
  \/ exists a h1, m h = (Return a, h1) /\ k a h1 = (Throw e, h').
Proof.
  unfold bind. destruct (m h) as [[a|e0] h1]; intros H; [eauto|].
  left. inversion H. reflexivity.
Qed.

Lemma lift_Throw {A : Type} (r : result A) (h h' : History) (e : Error) :
  lift r h = (Throw e, h') -> r = Throw e /\ h' = h.
Proof. unfold lift. intros H. inversion H. auto. Qed.

Lemma result_bind_Throw {A B : Type} (r : result A) (k : A -> result B)
  (e : Error) :
  result_bind r k = Throw e ->
  r = Throw e \/ exists a, r = Return a /\ k a = Throw e.
Proof.
  destruct r as [a|e0]; simpl; intros H; [eauto|].
  left. inversion H. reflexivity.
Qed.

Lemma logDebug_Return (message : result string) (h h' : History) (u : unit) :
  logDebug message h = (Return u, h') ->
  (exists s, message = Return s) /\ h' = h.
Proof.
  unfold logDebug, bind, lift, ret. destruct message as [s|e]; intros H;
    inversion H. eauto.
Qed.

Lemma logDebug_Throw (message : result string) (h h' : History) (e : Error) :
  logDebug message h = (Throw e, h') -> message = Throw e /\ h' = h.
Proof.
  unfold logDebug, bind, lift, ret. destruct message as [s|e0]; intros H;
    inversion H. auto.
Qed.

Ltac invert_steps :=
  repeat match goal with
         | H : bind _ _ _ = (Return _, _) |- _ =>
             apply bind_Return in H as (? & ? & ? & H)
         | H : lift _ _ = (Return _, _) |- _ =>
             apply lift_Return in H as [H ?]
         | H : logDebug _ _ = (Return _, _) |- _ =>
             apply logDebug_Return in H as [[? H] ?]
         | H : result_bind _ _ = Return _ |- _ =>
             apply result_bind_Return in H as (? & ? & H)
         | H : ret _ _ = (Return _, _) |- _ =>
             unfold ret in H; inversion H; subst; clear H
         | H : Return _ = Return _ |- _ => inversion H; subst; clear H
         | H : throw _ _ = (Return _, _) |- _ => discriminate H
         end.

(** ** Sorting *)

Lemma forallb_Forall {A : Type} (f : A -> bool) (l : list A) :
  forallb f l = true -> Forall (fun x => f x = true) l.
Proof. intros H. apply Forall_forall. apply forallb_forall. exact H. Qed.

Lemma take_out_perm {A : Type} (i : nat) :
  forall (l others : list A) (x : A),
    take_out i l = Some (x, others) -> Permutation l (x :: others).
Proof.
  induction i as [|i IH]; intros [|y l] others x H; simpl in H;
    try discriminate H.
  - inversion H. reflexivity.
  - destruct (take_out i l) as [[z rest]|] eqn:E; [|discriminate H].
    inversion H; subst. rewrite (IH _ _ _ E). apply perm_swap.
Qed.

(** Whatever positions an engine names, it returns the elements it was
    given. *)
Lemma reorder_perm {A : Type} (order : list nat) :
  forall l : list A, Permutation l (reorder order l).
Proof.
  induction order as [|i order IH]; intros l; simpl; [reflexivity|].
  destruct (take_out i l) as [[x others]|] eqn:E; [|apply IH].
  rewrite (take_out_perm _ _ _ _ E). constructor. apply IH.
Qed.

Lemma partition_perm {A : Type} (f : A -> bool) (l : list A) :
  Permutation l (filter (fun x => negb (f x)) l ++ filter f l).
Proof.
  induction l as [|x l IH]; simpl; [constructor|].
  destruct (f x); simpl.
  - apply Permutation_cons_app. exact IH.
  - constructor. exact IH.
Qed.

Section SortAnyInput.
Context {host : Host}.
Variable comparefn : value -> value -> result (option Z).

Lemma insert_sorted_perm (x : value) (l r : list value) :
  insert_sorted comparefn x l = Return r -> Permutation (x :: l) r.
Proof.
  revert r. induction l as [|y l IH]; intros r H; simpl in H.
  - inversion H. reflexivity.
  - apply result_bind_Return in H as (c & _ & H).
    destruct (c <=? 0).
    + inversion H. reflexivity.
    + apply result_bind_Return in H as (r' & Hr & H). inversion H; subst.
      rewrite perm_swap. constructor. apply IH. exact Hr.
Qed.

Lemma sort_defined_perm (l s : list value) :
  sort_defined comparefn l = Return s -> Permutation l s.
Proof.
  revert s. induction l as [|x l IH]; intros s H; simpl in H.
  - inversion H. constructor.
  - apply result_bind_Return in H as (s' & Hs & H).
    apply insert_sorted_perm in H. rewrite <- H. constructor. apply IH, Hs.
Qed.

(** Whenever the sort returns, it returns the elements it was given. *)
Lemma Array_sort_perm (l s : list value) :
  Array_sort comparefn l = Return s -> Permutation l s.
Proof.
  unfold Array_sort. intros H.
  apply result_bind_Return in H as (d & Hd & H). inversion H; subst.
  rewrite (partition_perm is_undefined l) at 1.
  apply Permutation_app_tail.
  destruct (_ || _).
  - apply sort_defined_perm. exact Hd.
  - apply result_bind_Return in Hd as (u & _ & Hd). inversion Hd.
    apply reorder_perm.
Qed.

Lemma insert_sorted_total (x : value) (l : list value) :
  (forall y, In y l -> exists c, comparefn x y = Return c) ->
  exists r, insert_sorted comparefn x l = Return r.
Proof.
  induction l as [|y l IH]; intros H; simpl; [eauto|].
  destruct (H y (or_introl eq_refl)) as [c Hc].
  unfold SortCompare. rewrite Hc. cbn [result_bind].
  destruct (_ <=? 0); [eauto|].
  destruct IH as [r ->]; [intros z Hz; apply H; right; exact Hz|].
  cbn [result_bind]. eauto.
Qed.

Lemma sort_defined_total (l : list value) :
  comparable comparefn l -> exists s, sort_defined comparefn l = Return s.
Proof.
  induction l as [|x l IH]; intros H; simpl; [eauto|].
  destruct IH as [s Hs].
  { intros a b Ha Hb. apply H; right; assumption. }
  rewrite Hs. cbn [result_bind]. apply insert_sorted_total.
  intros y Hy. apply H; [left; reflexivity|right].
  eapply Permutation_in; [symmetry; eapply sort_defined_perm; exact Hs|exact Hy].
Qed.

Lemma engine_run_total (l : list value) (calls : list (nat * nat)) :
  comparable comparefn l -> engine_run comparefn l calls = Return tt.
Proof.
  intros H. induction calls as [|[i j] calls IH]; simpl; [reflexivity|].
  destruct (nth_error l i) as [a|] eqn:Ea; [|exact IH].
  destruct (nth_error l j) as [b|] eqn:Eb; [|exact IH].
  destruct (H a b (nth_error_In _ _ Ea) (nth_error_In _ _ Eb)) as [c Hc].
  unfold SortCompare. rewrite Hc. cbn [result_bind]. exact IH.
Qed.

(** A comparator that does not throw on the elements makes the sort
    return. *)
Lemma Array_sort_total (l : list value) :
  comparable comparefn l ->
  exists s, Array_sort comparefn l = Return s /\ Permutation l s.
Proof.
  intros H.
  assert (Hd : comparable comparefn (filter (fun v => negb (is_undefined v)) l)).
  { intros a b Ha Hb. apply filter_In in Ha as [Ha _].
    apply filter_In in Hb as [Hb _]. apply H; assumption. }
  assert (E : exists s, Array_sort comparefn l = Return s).
  { unfold Array_sort. destruct (_ || _).
    - destruct (sort_defined_total _ Hd) as [s ->]. cbn [result_bind]. eauto.
    - rewrite (engine_run_total _ _ Hd). cbn [result_bind]. eauto. }
  destruct E as [s Hs]. exists s. split; [exact Hs|].
  apply Array_sort_perm. exact Hs.
Qed.

Lemma insert_sorted_Throw (x : value) (l : list value) (e : Error) :
  insert_sorted comparefn x l = Throw e ->
  exists a b, comparefn a b = Throw e.
Proof.
  induction l as [|y l IH]; simpl; intros H; [discriminate H|].
  apply result_bind_Throw in H as [H|(c & _ & H)].
  - unfold SortCompare in H.
    apply result_bind_Throw in H as [H|(? & _ & H)]; [eauto|discriminate H].
  - destruct (c <=? 0); [discriminate H|].
    apply result_bind_Throw in H as [H|(? & _ & H)]; [apply IH, H|discriminate H].
Qed.

Lemma sort_defined_Throw (l : list value) (e : Error) :
  sort_defined comparefn l = Throw e -> exists a b, comparefn a b = Throw e.
Proof.
  induction l as [|x l IH]; simpl; intros H; [discriminate H|].
  apply result_bind_Throw in H as [H|(s & _ & H)]; [apply IH, H|].
  eapply insert_sorted_Throw; exact H.
Qed.

Lemma engine_run_Throw (l : list value) (calls : list (nat * nat)) (e : Error) :
  engine_run comparefn l calls = Throw e -> exists a b, comparefn a b = Throw e.
Proof.
  induction calls as [|[i j] calls IH]; simpl; intros H; [discriminate H|].
  destruct (nth_error l i) as [a|]; [|apply IH, H].
  destruct (nth_error l j) as [b|]; [|apply IH, H].
  apply result_bind_Throw in H as [H|(? & _ & H)]; [|apply IH, H].
  unfold SortCompare in H.
  apply result_bind_Throw in H as [H|(? & _ & H)]; [eauto|discriminate H].
Qed.

(** The sort throws only what the comparator throws. *)
Lemma Array_sort_Throw (l : list value) (e : Error) :
  Array_sort comparefn l = Throw e -> exists a b, comparefn a b = Throw e.
Proof.
  unfold Array_sort. intros H.
  apply result_bind_Throw in H as [H|(s & _ & H)]; [|discriminate H].
  destruct (_ || _).
  - eapply sort_defined_Throw; exact H.
  - apply result_bind_Throw in H as [H|(? & _ & H)]; [|discriminate H].
    eapply engine_run_Throw; exact H.
Qed.

End SortAnyInput.

(** ** Sorting by [dateCreated] *)

Section SortFacts.
Context {host : Host}.

Lemma get_object (ps : list (string * value)) (k : string) :
  get (JObject ps) k = Return (member (JObject ps) k).
Proof. reflexivity. Qed.

Lemma is_object_inv (v : value) :
  is_object v = true -> exists ps, v = JObject ps.
Proof. destruct v; simpl; try discriminate. intros _. eauto. Qed.

Lemma well_dated_object (v : value) : well_dated v = true -> is_object v = true.
Proof. unfold well_dated. intros H. apply andb_prop in H. tauto. Qed.

Lemma well_dated_inv (v : value) :
  well_dated v = true ->
  exists ps t,
    v = JObject ps /\ release_time v = Some t
    /\ Date_getTime (member v "dateCreated") = Return (Some t).
Proof.
  unfold well_dated, release_time. intros H. apply andb_prop in H as [Ho Ht].
  apply is_object_inv in Ho as [ps ->].
  destruct (Date_getTime (member (JObject ps) "dateCreated")) as [[t|]|e];
    try discriminate Ht.
  eauto.
Qed.

Lemma compare_dateCreated_dated (a b : value) :
  well_dated a = true -> well_dated b = true ->
  compare_dateCreated a b = Return (Some (date_order a b)).
Proof.
  intros Ha Hb.
  destruct (well_dated_inv a Ha) as (pa & ta & -> & Ta & Da).
  destruct (well_dated_inv b Hb) as (pb & tb & -> & Tb & Db).
  unfold compare_dateCreated, date_order. rewrite Ta, Tb.
  rewrite !get_object. cbn [result_bind]. rewrite Db. cbn [result_bind].
  rewrite Da. reflexivity.
Qed.

Lemma SortCompare_dated (a b : value) :
  well_dated a = true -> well_dated b = true ->
  SortCompare compare_dateCreated a b = Return (date_order a b).
Proof.
  intros Ha Hb. unfold SortCompare.
  rewrite (compare_dateCreated_dated a b Ha Hb). reflexivity.
Qed.

(** On dated releases the comparator is a consistent one. *)
Lemma consistent_dated (l : list value) :
  Forall (fun v => well_dated v = true) l ->
  consistent_comparator compare_dateCreated l = true.
Proof.
  intros Hl. rewrite Forall_forall in Hl. unfold consistent_comparator.
  apply forallb_forall; intros a Ha. apply forallb_forall; intros b Hb.
  apply forallb_forall; intros c Hc. unfold compares.
  rewrite !compare_dateCreated_dated by auto.
  destruct (well_dated_inv a (Hl a Ha)) as (? & ta & _ & Ta & _).
  destruct (well_dated_inv b (Hl b Hb)) as (? & tb & _ & Tb & _).
  destruct (well_dated_inv c (Hl c Hc)) as (? & tc & _ & Tc & _).
  unfold date_order. rewrite Ta, Tb, Tc.
  destruct (Z.compare_spec (ta - ta) 0), (Z.compare_spec (tb - ta) 0),
    (Z.compare_spec (ta - tb) 0), (Z.compare_spec (tc - tb) 0),
    (Z.compare_spec (tc - ta) 0); cbn; try reflexivity; lia.
Qed.

Lemma insert_by_date_perm (x : value) (l : list value) :
  Permutation (x :: l) (insert_by_date x l).
Proof.
  induction l as [|y l IH]; simpl; [reflexivity|].
  destruct (date_order x y <=? 0); [reflexivity|].
  rewrite perm_swap. constructor. exact IH.
Qed.

Lemma sort_by_date_perm (l : list value) : Permutation l (sort_by_date l).
Proof.
  induction l as [|x l IH]; simpl; [constructor|].
  rewrite <- insert_by_date_perm. constructor. exact IH.
Qed.

Lemma insert_sorted_dated (x : value) (l : list value) :
  well_dated x = true -> Forall (fun v => well_dated v = true) l ->
  insert_sorted compare_dateCreated x l = Return (insert_by_date x l).
Proof.
  intros Hx Hl. induction Hl as [|y l Hy Hl IH]; simpl; [reflexivity|].
  rewrite (SortCompare_dated x y Hx Hy). simpl.
  destruct (date_order x y <=? 0); [reflexivity|].
  rewrite IH. reflexivity.
Qed.

Lemma sort_defined_dated (l : list value) :
  Forall (fun v => well_dated v = true) l ->
  sort_defined compare_dateCreated l = Return (sort_by_date l).
Proof.
  intros Hl. induction Hl as [|x l Hx Hl IH]; simpl; [reflexivity|].
  rewrite IH. simpl. apply insert_sorted_dated; [exact Hx|].
  eapply Permutation_Forall; [apply sort_by_date_perm|exact Hl].
Qed.

Lemma filter_defined_objects (l : list value) :
  Forall (fun v => is_object v = true) l ->
  filter (fun v => negb (is_undefined v)) l = l /\ filter is_undefined l = [].
Proof.
  intros Hl. induction Hl as [|x l Hx Hl [IH1 IH2]]; simpl; [auto|].
  apply is_object_inv in Hx as [ps ->]. simpl. rewrite IH1, IH2. auto.
Qed.

(** On dated releases [sort] is the stable sort by date, newest first. *)
Lemma Array_sort_dated (l : list value) :
  Forall (fun v => well_dated v = true) l ->
  Array_sort compare_dateCreated l = Return (sort_by_date l).
Proof.
  intros Hl. unfold Array_sort.
  assert (Hobj : Forall (fun v => is_object v = true) l).
  { eapply Forall_impl; [|exact Hl]. intros v. apply well_dated_object. }
  destruct (filter_defined_objects l Hobj) as [-> ->].
  rewrite (consistent_dated l Hl), Bool.orb_true_r.
  rewrite (sort_defined_dated l Hl). simpl. rewrite app_nil_r. reflexivity.
Qed.

Lemma release_like_inv (v : value) :
  release_like v = true ->
  exists ps version date,
    v = JObject ps /\ member v "version" = JString version
    /\ member v "dateCreated" = JString date.
Proof.
  unfold release_like. intros H. apply andb_prop in H as [H Hd].
  apply andb_prop in H as [Ho Hv]. apply is_object_inv in Ho as [ps ->].
  destruct (member (JObject ps) "version"); try discriminate Hv.
  destruct (member (JObject ps) "dateCreated"); try discriminate Hd.
  eauto 10.
Qed.

Lemma release_like_object (v : value) :
  release_like v = true -> is_object v = true.
Proof. intros H. destruct (release_like_inv v H) as (ps & ? & ? & -> & _). reflexivity. Qed.

(** On typed releases the comparator returns. *)
Lemma comparable_release_like (l : list value) :
  Forall (fun v => release_like v = true) l ->
  comparable compare_dateCreated l.
Proof.
  intros Hl a b Ha Hb. rewrite Forall_forall in Hl.
  destruct (release_like_inv a (Hl a Ha)) as (pa & ? & da & -> & _ & Da).
  destruct (release_like_inv b (Hl b Hb)) as (pb & ? & db & -> & _ & Db).
  unfold compare_dateCreated. rewrite !get_object. cbn [result_bind].
  rewrite Da, Db. cbn [Date_getTime result_bind]. eauto.
Qed.

Lemma get_Throw (v : value) (k : string) (e : Error) :
  get v k = Throw e -> is_TypeError e.
Proof.
  destruct v; simpl; intros H; inversion H; apply cannot_read_TypeError; auto.
Qed.

Lemma compare_dateCreated_Throw (a b : value) (e : Error) :
  compare_dateCreated a b = Throw e -> is_TypeError e.
Proof.
  unfold compare_dateCreated. intros H.
  repeat match goal with
         | H : result_bind _ _ = Throw _ |- _ =>
             apply result_bind_Throw in H as [H|(? & ? & H)]
         | H : get _ _ = Throw _ |- _ => apply get_Throw in H
         | H : Date_getTime _ = Throw _ |- _ =>
             apply Date_getTime_Throw in H; subst; apply cannot_convert_TypeError
         end; try assumption; discriminate H.
Qed.

(** Newest first: each entry is not older than every entry after it. *)
Lemma insert_by_date_sorted (x : value) (l : list value) :
  well_dated x = true -> Forall (fun v => well_dated v = true) l ->
  StronglySorted not_older l -> StronglySorted not_older (insert_by_date x l).
Proof.
  intros Hx Hl Hs. induction Hs as [|y l Hs IH Hy]; simpl.
  - repeat constructor.
  - inversion Hl as [|? ? Hdy Hdl]; subst.
    destruct (well_dated_inv x Hx) as (? & tx & _ & Ex & _).
    destruct (well_dated_inv y Hdy) as (? & ty & _ & Ey & _).
    unfold date_order. rewrite Ex, Ey.
    destruct (Z.leb_spec (ty - tx) 0) as [L|L].
    + constructor; [constructor; assumption|].
      constructor.
      * exists tx, ty. repeat split; [assumption..|lia].
      * eapply Forall_impl; [|exact Hy]. intros z (ty' & tz & E1 & E2 & L').
        rewrite Ey in E1. inversion E1; subst ty'.
        exists tx, tz. repeat split; [assumption..|lia].
    + constructor.
      * apply IH. exact Hdl.
      * eapply Permutation_Forall; [apply insert_by_date_perm|].
        constructor; [|exact Hy].
        exists ty, tx. repeat split; [assumption..|lia].
Qed.

Lemma sort_by_date_sorted (l : list value) :
  Forall (fun v => well_dated v = true) l ->
  StronglySorted not_older (sort_by_date l).
Proof.
  intros Hl. induction Hl as [|x l Hx Hl IH]; simpl; [constructor|].
  apply insert_by_date_sorted; [exact Hx| |exact IH].
  eapply Permutation_Forall; [apply sort_by_date_perm|exact Hl].
Qed.

(** Projection keeps [dateCreated], hence the time and the order. *)
Lemma release_time_projection (v : value) :
  release_time (projection v) = release_time v.
Proof. reflexivity. Qed.

Lemma StronglySorted_map_projection (l : list value) :
  StronglySorted not_older l -> StronglySorted not_older (map projection l).
Proof.
  induction 1 as [|x l Hs IH Hx]; simpl; constructor; [exact IH|].
  apply Forall_map. eapply Forall_impl; [|exact Hx].
  intros y Hy. exact Hy.
Qed.

End SortFacts.

(** ** The release tools *)

Lemma as_array_Return (expr method : string) (v : value) (l : list value) :
  as_array expr method v = Return l -> v = JArray l.
Proof. destruct v; simpl; intros H; inversion H. reflexivity. Qed.

Lemma get_Return (v x : value) (k : string) :
  get v k = Return x -> x = member v k.
Proof. unfold member. intros ->. reflexivity. Qed.

Lemma project_release_Return (v e : value) :
  project_release v = Return e -> e = projection v.
Proof.
  unfold project_release, projection. intros H.
  apply result_bind_Return in H as (a & Ha & H).
  apply result_bind_Return in H as (b & Hb & H).
  apply result_bind_Return in H as (c & Hc & H).
  inversion H. rewrite (get_Return _ _ _ Ha), (get_Return _ _ _ Hb),
    (get_Return _ _ _ Hc). reflexivity.
Qed.

Lemma Array_map_project_Return (l out : list value) :
  Array_map project_release l = Return out -> out = map projection l.
Proof.
  revert out. induction l as [|x l IH]; intros out H; simpl in H.
  - inversion H. reflexivity.
  - apply result_bind_Return in H as (y & Hy & H).
    apply result_bind_Return in H as (ys & Hys & H). inversion H; subst.
    rewrite (project_release_Return _ _ Hy), (IH _ Hys). reflexivity.
Qed.

Section ReleaseTools.
Context {host : Host}.
Variable upstream : Upstream.

Lemma Array_map_project_objects (l : list value) :
  Forall (fun v => is_object v = true) l ->
  Array_map project_release l = Return (map projection l).
Proof.
  intros Hl. induction Hl as [|x l Hx Hl IH]; simpl; [reflexivity|].
  apply is_object_inv in Hx as [ps ->]. rewrite IH. reflexivity.
Qed.

(** [getSortedReleases] once its two slugs are converted. *)
Lemma getSortedReleases_converted (orgSlug projectSlug : value)
  (org project : string) (h : History) :
  String_ orgSlug = Return org ->
  String_ projectSlug = Return project ->
  getSortedReleases upstream orgSlug projectSlug h
  = match axios_get upstream (releases_path org project) [] h with
    | (Return response, h') =>
        (let+ elems := as_array "response.data" "sort" (data response) in
         let+ sorted := Array_sort compare_dateCreated elems in
         Array_map project_release sorted, h')
    | (Throw e, h') => (Throw e, h')
    end.
Proof.
  intros Ho Hp. unfold getSortedReleases, bind, lift. rewrite Ho, Hp.
  cbn [result_bind]. fold (releases_path org project).
  destruct (axios_get upstream (releases_path org project) [] h) as [[r|e] h'];
    reflexivity.
Qed.

Lemma getSortedReleases_dated (orgSlug projectSlug : value)
  (org project : string) (h h' : History)
  (resp : AxiosResponse) (rels : list value) :
  String_ orgSlug = Return org ->
  String_ projectSlug = Return project ->
  axios_get upstream (releases_path org project) [] h = (Return resp, h') ->
  data resp = JArray rels ->
  Forall (fun v => well_dated v = true) rels ->
  getSortedReleases upstream orgSlug projectSlug h
  = (Return (map projection (sort_by_date rels)), h').
Proof.
  intros Ho Hp Hget Hdata Hd.
  rewrite (getSortedReleases_converted _ _ _ _ h Ho Hp), Hget, Hdata.
  cbn [as_array result_bind]. rewrite (Array_sort_dated rels Hd).
  cbn [result_bind]. rewrite Array_map_project_objects; [reflexivity|].
  eapply Permutation_Forall; [apply sort_by_date_perm|].
  eapply Forall_impl; [|exact Hd]. intros v. apply well_dated_object.
Qed.

Lemma getSortedReleases_typed (orgSlug projectSlug : value)
  (org project : string) (h h' : History)
  (resp : AxiosResponse) (rels : list value) :
  String_ orgSlug = Return org ->
  String_ projectSlug = Return project ->
  axios_get upstream (releases_path org project) [] h = (Return resp, h') ->
  data resp = JArray rels ->
  Forall (fun v => release_like v = true) rels ->
  exists sorted,
    Permutation rels sorted
    /\ getSortedReleases upstream orgSlug projectSlug h
       = (Return (map projection sorted), h').
Proof.
  intros Ho Hp Hget Hdata Hl.
  rewrite (getSortedReleases_converted _ _ _ _ h Ho Hp), Hget, Hdata.
  cbn [as_array result_bind].
  destruct (Array_sort_total compare_dateCreated rels
              (comparable_release_like rels Hl)) as (sorted & -> & Hperm).
  exists sorted. split; [exact Hperm|]. cbn [result_bind].
  rewrite Array_map_project_objects; [reflexivity|].
  eapply Permutation_Forall; [exact Hperm|].
  eapply Forall_impl; [|exact Hl]. intros v. apply release_like_object.
Qed.

Lemma getSortedReleases_Return (orgSlug projectSlug : value) (h h' : History)
  (out : list value) :
  getSortedReleases upstream orgSlug projectSlug h = (Return out, h') ->
  exists org project resp rels sorted,
    String_ orgSlug = Return org
    /\ String_ projectSlug = Return project
    /\ axios_get upstream (releases_path org project) [] h = (Return resp, h')
    /\ data resp = JArray rels
    /\ Permutation rels sorted
    /\ out = map projection sorted.
Proof.
  unfold getSortedReleases. intros H.
  apply bind_Return in H as (u & h0 & Hu & H).
  apply lift_Return in Hu as [Hu ->].
  apply result_bind_Return in Hu as (org & Ho & Hu).
  apply result_bind_Return in Hu as (project & Hp & Hu).
  inversion Hu; subst u. fold (releases_path org project) in H.
  apply bind_Return in H as (resp & h1 & Hget & H).
  apply lift_Return in H as [H ->].
  apply result_bind_Return in H as (elems & He & H).
  apply result_bind_Return in H as (sorted & Hs & H).
  exists org, project, resp, elems, sorted.
  split; [exact Ho|]. split; [exact Hp|].
  split; [exact Hget|]. split; [eapply as_array_Return; exact He|].
  split; [eapply Array_sort_perm; exact Hs|].
  apply Array_map_project_Return. exact H.
Qed.

Lemma recent_entry_projection (v : value) :
  release_like v = true ->
  recent_entry (projection v) = Return (recent_view (projection v)).
Proof.
  intros H. destruct (release_like_inv v H) as (ps & version & date & -> & Hv & _).
  unfold recent_entry, recent_view, projection. rewrite !get_object.
  cbn [result_bind].
  change (member (JObject [("version", member (JObject ps) "version");
                           ("dateCreated", member (JObject ps) "dateCreated");
                           ("newGroups", member (JObject ps) "newGroups")])
            "version") with (member (JObject ps) "version").
  rewrite Hv. reflexivity.
Qed.

Lemma Array_map_recent (l : list value) :
  Forall (fun v => release_like v = true) l ->
  Array_map recent_entry (map projection l)
  = Return (map recent_view (map projection l)).
Proof.
  intros Hl. induction Hl as [|x l Hx Hl IH]; [reflexivity|].
  cbn [map Array_map]. rewrite (recent_entry_projection x Hx), IH. reflexivity.
Qed.

(** [slice(0, count)] is a prefix. *)
Lemma Array_slice0_prefix {A : Type} (l : list A) (n : number) :
  exists k, Array_slice0 l n = firstn k l.
Proof.
  unfold Array_slice0. destruct (to_integer n) as [|z|[|]].
  - exists 0%nat. reflexivity.
  - destruct (z <? 0); eexists; reflexivity.
  - exists (List.length l). symmetry. apply firstn_all.
  - exists 0%nat. reflexivity.
Qed.

Lemma Array_slice0_at_most {A : Type} (l : list A) (z : Z) :
  0 <= z -> Z.of_nat (List.length (Array_slice0 l (Num z))) <= z.
Proof.
  intros Hz. unfold Array_slice0. simpl.
  destruct (Z.ltb_spec z 0) as [L|L]; [lia|].
  pose proof (firstn_le_length (Z.to_nat z) l). lia.
Qed.

Lemma Array_slice0_unbounded {A : Type} (l : list A) (c : value) :
  unbounded c (List.length l) ->
  exists n,
    Number_ (js_or c (JNumber (Num 5))) = Return n /\ Array_slice0 l n = l.
Proof.
  destruct c as [| | |[|z|[|]]| | |]; simpl; try contradiction.
  - intros Hz. unfold js_or. simpl.
    destruct (Z.eqb_spec z 0) as [E|E]; simpl.
    + subst z. destruct l; [|simpl in Hz; lia]. eexists. split; reflexivity.
    + eexists. split; [reflexivity|]. unfold Array_slice0. simpl.
      destruct (Z.ltb_spec z 0) as [L|L]; [lia|].
      apply firstn_all2. lia.
  - intros _. eexists. split; reflexivity.
Qed.

Lemma Forall_prefix {A : Type} (P : A -> Prop) (k : nat) (l : list A) :
  Forall P l -> Forall P (firstn k l).
Proof.
  intros H. revert k. induction H as [|x l Hx Hl IH]; intros [|k]; simpl;
    constructor; auto.
Qed.

Lemma map_firstn_projection (k : nat) (l : list value) :
  firstn k (map projection l) = map projection (firstn k l).
Proof. apply firstn_map. Qed.

(** What [list_recent_releases] makes of the sorted list. *)
Lemma list_recent_releases_on (params : list (string * value))
  (h h' : History) (sorted : list value) (n : number) :
  getSortedReleases upstream (org_or_default params) (prop params "project_slug") h
  = (Return (map projection sorted), h') ->
  Forall (fun v => release_like v = true) sorted ->
  Number_ (js_or (prop params "count") (JNumber (Num 5))) = Return n ->
  list_recent_releases_exec upstream params h
  = (Return (JArray (map recent_view
       (Array_slice0 (map projection sorted) n))), h').
Proof.
  intros Hs Hrel Hn. unfold list_recent_releases_exec, bind. rewrite Hs.
  unfold lift. rewrite Hn. cbn [result_bind].
  destruct (Array_slice0_prefix (map projection sorted) n) as [k ->].
  rewrite map_firstn_projection, Array_map_recent; [reflexivity|].
  apply Forall_prefix. exact Hrel.
Qed.

End ReleaseTools.

(** ** The dispatcher *)

Section DispatcherFacts.
Context {host : Host}.
Variable upstream : Upstream.

Lemma tools_keys :
  Object_keys (tools upstream)
  = ["inspect_sentry"; "list_recent_releases"; "get_releases";
     "get_release_health"; "get_issue"; "get_release_issues"].
Proof. reflexivity. Qed.

Lemma registered_name (n : string) :
  existsb (String.eqb n) (Object_keys (tools upstream)) = true ->
  n = "inspect_sentry" \/ n = "list_recent_releases" \/ n = "get_releases"
  \/ n = "get_release_health" \/ n = "get_issue" \/ n = "get_release_issues".
Proof.
  rewrite tools_keys. simpl. intros H.
  repeat (apply orb_prop in H as [H|H];
          [apply String.eqb_eq in H; tauto|]).
  discriminate.
Qed.

(** Past the guard the handler always returns an envelope: the [try] block
    catches whatever the tool throws. *)
Lemma handler_returns_past_guard (request : CallToolRequest) (h : History) :
  tool_not_found upstream request = false ->
  CallTool_handler upstream request h
  = match run_tool upstream request h with
    | (Return v, h') => (Return (success_envelope v), h')
    | (Throw e, h') => (Return (error_envelope e), h')
    end.
Proof.
  intros G. unfold CallTool_handler. rewrite G. unfold try_catch, bind, ret.
  destruct (run_tool upstream request h) as [[v|e] h']; reflexivity.
Qed.

Lemma registered_passes_guard (request : CallToolRequest) :
  existsb (String.eqb (name request)) (Object_keys (tools upstream)) = true ->
  tool_not_found upstream request = false.
Proof.
  intros H. unfold tool_not_found, tools_member.
  rewrite existsb_app, H. simpl.
  destruct (registered_name _ H) as [E|[E|[E|[E|[E|E]]]]]; rewrite E; reflexivity.
Qed.

Lemma handler_history (request : CallToolRequest) (h : History) :
  tool_not_found upstream request = false ->
  snd (CallTool_handler upstream request h) = snd (run_tool upstream request h).
Proof.
  intros G. rewrite handler_returns_past_guard by exact G.
  destruct (run_tool upstream request h) as [[v|e] h']; reflexivity.
Qed.

Lemma has_all_missing (keys : list string) (k : string)
  (arguments_ : option (list (string * value))) :
  In k keys -> supplied k arguments_ = false -> has_all keys arguments_ = None.
Proof.
  intros Hin Hk. destruct arguments_ as [args|]; [|reflexivity]. simpl in *.
  destruct (forallb (fun k0 => has_key k0 args) keys) eqn:E; [|reflexivity].
  rewrite forallb_forall in E. rewrite (E k Hin) in Hk. discriminate.
Qed.

Lemma has_all_present (keys : list string) (args : list (string * value)) :
  forallb (fun k => has_key k args) keys = true ->
  has_all keys (Some args) = Some args.
Proof. intros H. unfold has_all. rewrite H. reflexivity. Qed.

(** The text of an error envelope is the frame around the escaped
    message. *)
Lemma error_envelope_text (e : Error) :
  error_envelope e
  = mkEnvelope (JObject []) [mkBlock "text" (Some (error_text (message e)))]
      (Some true).
Proof. reflexivity. Qed.

(** The dispatcher's branches, once the arguments are validated. *)
Lemma run_list_recent_releases (args : list (string * value)) (h : History) :
  has_key "project_slug" args = true ->
  run_tool upstream (mkCall "list_recent_releases" (Some args)) h
  = (let* params :=
       lift (let+ project_slug := String_ (prop args "project_slug") in
             let+ org_slug := string_or args "org_slug" JUndefined in
             let+ count :=
               if truthy (prop args "count")
               then let+ c := Number_ (prop args "count") in Return (JNumber c)
               else Return JUndefined in
             Return [("project_slug", JString project_slug);
                     ("org_slug", org_slug); ("count", count)]) in
     list_recent_releases_exec upstream params) h.
Proof.
  intros Hk. unfold run_tool. cbn [name arguments].
  rewrite has_all_present by (simpl; rewrite Hk; reflexivity).
  reflexivity.
Qed.

Lemma run_get_releases (args : list (string * value)) (h : History) :
  has_key "project_slug" args = true ->
  run_tool upstream (mkCall "get_releases" (Some args)) h
  = (let* params :=
       lift (let+ project_slug := String_ (prop args "project_slug") in
             let+ org_slug := string_or args "org_slug" JUndefined in
             Return [("project_slug", JString project_slug);
                     ("org_slug", org_slug)]) in
     get_releases_exec upstream params) h.
Proof.
  intros Hk. unfold run_tool. cbn [name arguments].
  rewrite has_all_present by (simpl; rewrite Hk; reflexivity).
  reflexivity.
Qed.

Lemma run_get_release_issues (args : list (string * value)) (h : History) :
  has_key "project_slug" args = true ->
  run_tool upstream (mkCall "get_release_issues" (Some args)) h
  = (let* params :=
       lift (let+ project_slug := String_ (prop args "project_slug") in
             let+ org_slug :=
               string_or args "org_slug" (JString SENTRY_ORG_SLUG) in
             Return [("project_slug", JString project_slug);
                     ("org_slug", org_slug)]) in
     get_release_issues_exec upstream params) h.
Proof.
  intros Hk. unfold run_tool. cbn [name arguments].
  rewrite has_all_present by (simpl; rewrite Hk; reflexivity).
  reflexivity.
Qed.

Lemma run_get_release_health (args : list (string * value)) (h : History) :
  has_key "project_slug" args = true ->
  run_tool upstream (mkCall "get_release_health" (Some args)) h
  = (let* params :=
       lift (let+ project_slug := String_ (prop args "project_slug") in
             let+ org_slug :=
               string_or args "org_slug" (JString SENTRY_ORG_SLUG) in
             let+ release_version :=
               string_or args "release_version" JUndefined in
             Return [("project_slug", JString project_slug);
                     ("org_slug", org_slug);
                     ("release_version", release_version)]) in
     get_release_health_exec upstream params) h.
Proof.
  intros Hk. unfold run_tool. cbn [name arguments].
  rewrite has_all_present by (simpl; rewrite Hk; reflexivity).
  reflexivity.
Qed.

Lemma run_get_issue (args : list (string * value)) (h : History) :
  forallb (fun k => has_key k args) ["issue_id"; "org_slug"; "project_slug"]
  = true ->
  run_tool upstream (mkCall "get_issue" (Some args)) h
  = (let* params :=
       lift (let+ issue_id := String_ (prop args "issue_id") in
             let+ org_slug := String_ (prop args "org_slug") in
             let+ project_slug := String_ (prop args "project_slug") in
             Return [("issue_id", JString issue_id);
                     ("org_slug", JString org_slug);
                     ("project_slug", JString project_slug)]) in
     get_issue_exec upstream params) h.
Proof.
  intros Hk. unfold run_tool. cbn [name arguments].
  rewrite (has_all_present _ _ Hk). reflexivity.
Qed.

(** The organization the tools use, whichever default the dispatcher put
    in: the parameter the dispatcher builds, and what the tool makes of
    it. *)
Lemma org_or_default_effective (args rest : list (string * value))
  (p fallback : value) (org : string) :
  fallback = JUndefined \/ fallback = JString SENTRY_ORG_SLUG ->
  effective_org args = Return org ->
  exists org_slug,
    string_or args "org_slug" fallback = Return org_slug
    /\ org_or_default (("project_slug", p) :: ("org_slug", org_slug) :: rest)
       = JString org.
Proof.
  intros Hf. unfold effective_org, string_or.
  destruct (truthy (prop args "org_slug")) eqn:T.
  - destruct (String_ (prop args "org_slug")) as [s|e]; cbn [result_bind];
      [|discriminate].
    intros H. inversion H; subst org. eexists. split; [reflexivity|].
    unfold org_or_default, js_or, prop.
    cbn [lookup String.eqb Ascii.eqb Bool.eqb truthy].
    destruct (String.eqb s ""); reflexivity.
  - intros H. inversion H; subst org. eexists. split; [reflexivity|].
    unfold org_or_default, js_or, prop.
    cbn [lookup String.eqb Ascii.eqb Bool.eqb].
    destruct Hf as [-> | ->]; cbn [truthy]; [reflexivity|].
    destruct (String.eqb SENTRY_ORG_SLUG ""); reflexivity.
Qed.

Lemma effective_org_Throw (args : list (string * value)) (fallback : value)
  (e : Error) :
  effective_org args = Throw e ->
  string_or args "org_slug" fallback = Throw e /\ e = cannot_convert.
Proof.
  unfold effective_org, string_or.
  destruct (truthy (prop args "org_slug")); [|discriminate].
  destruct (String_ (prop args "org_slug")) as [s|e0] eqn:E; cbn [result_bind];
    [discriminate|].
  intros H. inversion H; subst. split; [reflexivity|].
  eapply String_Throw; exact E.
Qed.

End DispatcherFacts.

(** ** How many calls a computation makes *)

Lemma within_refl (h : History) : within 0 h h.
Proof.
  exists []. rewrite app_nil_r. simpl. repeat split; try reflexivity; lia.
Qed.

Lemma within_trans (a b : nat) (h1 h2 h3 : History) :
  within a h1 h2 -> within b h2 h3 -> within (a + b) h1 h3.
Proof.
  intros (t1 & -> & A1 & W1) (t2 & -> & A2 & W2).
  exists (t1 ++ t2). rewrite app_assoc, attempts_app, waited_app.
  repeat split; try reflexivity; lia.
Qed.

Lemma within_weaken (a b : nat) (h h' : History) :
  (a <= b)%nat -> within a h h' -> within b h h'.
Proof.
  intros L (t & -> & A & W). exists t. repeat split; try lia.
Qed.

Lemma bounded_ret {A : Type} (a : A) : bounded 0 (ret a).
Proof. intros h. apply within_refl. Qed.

Lemma bounded_throw {A : Type} (e : Error) : bounded 0 (@throw A e).
Proof. intros h. apply within_refl. Qed.

Lemma bounded_lift {A : Type} (r : result A) : bounded 0 (lift r).
Proof. intros h. apply within_refl. Qed.

Lemma bounded_bind {A B : Type} (a b : nat) (m : Async A) (k : A -> Async B) :
  bounded a m -> (forall x, bounded b (k x)) -> bounded (a + b) (bind m k).
Proof.
  intros Hm Hk h. unfold bind. specialize (Hm h).
  destruct (m h) as [[x|e] h1]; simpl in *.
  - eapply within_trans; [exact Hm|apply Hk].
  - eapply within_weaken; [|exact Hm]. lia.
Qed.

Lemma bounded_try_catch {A : Type} (a : nat) (body : Async A)
  (handler : Error -> Async A) :
  bounded a body -> (forall e, bounded 0 (handler e)) ->
  bounded a (try_catch body handler).
Proof.
  intros Hb Hh h. unfold try_catch. specialize (Hb h).
  destruct (body h) as [[x|e] h1]; simpl in *; [exact Hb|].
  replace a with (a + 0)%nat by lia.
  eapply within_trans; [exact Hb|apply Hh].
Qed.

Lemma bounded_weaken {A : Type} (a b : nat) (m : Async A) :
  (a <= b)%nat -> bounded a m -> bounded b m.
Proof. intros L H h. eapply within_weaken; [exact L|apply H]. Qed.

Lemma bounded_axios_get (upstream : Upstream) (u : string)
  (ps : list (string * value)) :
  bounded 1 (axios_get upstream u ps).
Proof.
  intros h. destruct (axios_get_trace upstream u ps h) as (k & Hk & Hh & W & _).
  exists (retry_trace (mkRequest u ps) 1 k). split; [exact Hh|].
  rewrite retry_trace_attempts. split; [lia|].
  rewrite W. nia.
Qed.

(** ** Computations that reach the upstream through the client *)

Lemma program_bounded (A : Type) (F : Upstream -> Async A) (n : nat) :
  client_program A F n -> forall upstream, bounded n (F upstream).
Proof.
  induction 1 as [A r|u ps|A B m k a b Hm IHm Hk IHk|A m a b L Hm IHm];
    intros upstream.
  - apply bounded_lift.
  - apply bounded_axios_get.
  - apply bounded_bind; [apply IHm|intros x; apply IHk].
  - eapply bounded_weaken; [exact L|apply IHm].
Qed.

(** A run ends where it began or with an attempt. *)
Lemma program_ends (A : Type) (F : Upstream -> Async A) (n : nat) :
  client_program A F n ->
  forall upstream h,
    snd (F upstream h) = h
    \/ exists t r, snd (F upstream h) = h ++ t ++ [EvRequest r].
Proof.
  induction 1 as [A r|u ps|A B m k a b Hm IHm Hk IHk|A m a b L Hm IHm];
    intros upstream h.
  - left. reflexivity.
  - right. destruct (axios_get_trace upstream u ps h) as (k & _ & -> & _).
    destruct (retry_trace_last (mkRequest u ps) k 1) as [init ->]. eauto.
  - unfold bind. specialize (IHm upstream h).
    destruct (m upstream h) as [[x|e] h1] eqn:Em; cbn [snd] in *; [|exact IHm].
    destruct (IHk x upstream h1) as [Ek|(t2 & r2 & Ek)]; rewrite Ek.
    + exact IHm.
    + right. destruct IHm as [->|(t1 & r1 & ->)]; [eauto|].
      exists ((t1 ++ [EvRequest r1]) ++ t2), r2.
      rewrite <- !app_assoc. reflexivity.
  - apply IHm.
Qed.

Lemma program_extends (A : Type) (F : Upstream -> Async A) (n : nat) :
  client_program A F n ->
  forall upstream h, exists t, snd (F upstream h) = h ++ t.
Proof.
  intros H upstream h.
  destruct (program_ends A F n H upstream h) as [->|(t & r & ->)].
  - exists []. rewrite app_nil_r. reflexivity.
  - eauto.
Qed.

Lemma not_ending_in_delay (z t : History) (ms : Z) :
  z ++ [EvDelay ms] = t ->
  t = [] \/ (exists t0 r, t = t0 ++ [EvRequest r]) ->
  False.
Proof.
  intros <- [H|(t0 & r & H)].
  - destruct z; discriminate H.
  - apply app_inj_tail in H as [_ H]. discriminate H.
Qed.

(** An attempt that follows a wait of 3000 ms and fails ends the run: the
    call it belongs to throws that failure, and nothing comes after it. *)
Lemma program_gives_up (A : Type) (F : Upstream -> Async A) (n : nat) :
  client_program A F n ->
  forall upstream h z r y msg,
    snd (F upstream h) = (h ++ z ++ [EvDelay 3000]) ++ EvRequest r :: y ->
    upstream (h ++ z ++ [EvDelay 3000]) r = Rejected msg ->
    y = [] /\ fst (F upstream h) = Throw (AxiosError msg).
Proof.
  induction 1 as [A r0|u ps|A B m k a b Hm IHm Hk IHk|A m a b L Hm IHm];
    intros upstream h z r y msg Hh Hrej.
  - exfalso. cbn in Hh. apply (f_equal (@List.length _)) in Hh.
    rewrite !length_app in Hh. simpl in Hh. lia.
  - destruct (axios_get_trace upstream u ps h) as (k & Hk & Hs & _ & Hout).
    rewrite Hs in Hh, Hout. rewrite <- !app_assoc in Hh.
    apply app_inv_head in Hh. cbn [app] in Hh.
    destruct (retry_trace_fourth _ _ _ _ _ Hk Hh) as (-> & -> & -> & ->).
    split; [reflexivity|].
    change (retry_trace (mkRequest u ps) 1 3)
      with (([EvRequest (mkRequest u ps); EvDelay 1000;
              EvRequest (mkRequest u ps); EvDelay 2000;
              EvRequest (mkRequest u ps)] ++ [EvDelay 3000])
              ++ [EvRequest (mkRequest u ps)]) in Hout.
    rewrite app_assoc, removelast_app_last in Hout.
    destruct (fst (axios_get upstream u ps h)) as [resp|e].
    + rewrite Hrej in Hout. discriminate Hout.
    + destruct Hout as (_ & m & -> & Hm). rewrite Hrej in Hm.
      inversion Hm. reflexivity.
  - unfold bind in *.
    pose proof (IHm upstream h) as IHm'.
    pose proof (program_ends _ _ _ Hm upstream h) as Em.
    destruct (m upstream h) as [[x|e] h1] eqn:E1; cbn [fst snd] in *;
      [|destruct (IHm' z r y msg Hh Hrej) as [-> Hf]; inversion Hf;
        split; reflexivity].
    assert (X : exists t1,
               h1 = h ++ t1
               /\ (t1 = [] \/ exists t0 r1, t1 = t0 ++ [EvRequest r1])).
    { destruct Em as [->|(t & r1 & ->)].
      - exists []. rewrite app_nil_r. auto.
      - exists (t ++ [EvRequest r1]). eauto. }
    destruct X as (t1 & -> & Ht1).
    destruct (program_extends _ _ _ (Hk x) upstream (h ++ t1)) as [t2 Et2].
    rewrite Et2 in Hh. rewrite <- !app_assoc in Hh. apply app_inv_head in Hh.
    rewrite app_assoc in Hh.
    apply app_eq_app in Hh as [l [[Ea Eb]|[Ea Eb]]].
    + destruct l as [|ev l].
      * exfalso. rewrite app_nil_r in Ea.
        eapply not_ending_in_delay; [symmetry; exact Ea|exact Ht1].
      * cbn [app] in Eb. injection Eb as <- ->. exfalso.
        destruct (IHm' z r l msg) as [_ Hf];
          [rewrite Ea, <- !app_assoc; reflexivity|exact Hrej|discriminate Hf].
    + destruct l as [|ev l].
      * exfalso. rewrite app_nil_r in Ea.
        eapply not_ending_in_delay; [exact Ea|exact Ht1].
      * destruct (exists_last (l := ev :: l) ltac:(discriminate))
          as (l0 & last & El).
        rewrite El in Ea, Eb. rewrite app_assoc in Ea.
        apply app_inj_tail in Ea as [-> <-].
        apply (IHk x upstream (h ++ t1) l0 r y msg).
        -- rewrite Et2, Eb, <- !app_assoc. reflexivity.
        -- rewrite <- Hrej, <- !app_assoc. reflexivity.
  - apply (IHm upstream h z r y msg Hh Hrej).
Qed.

(** The result of a run depends on the upstream only through what the
    client hands over: against two upstreams on which every call to the
    client ends alike, the run ends alike. *)
Lemma program_oblivious (A : Type) (F : Upstream -> Async A) (n : nat) :
  client_program A F n ->
  forall (upstream upstream' : Upstream) (R : History -> History -> Prop),
    (forall u ps h h',
        R h h' ->
        fst (axios_get upstream u ps h) = fst (axios_get upstream' u ps h')
        /\ R (snd (axios_get upstream u ps h))
             (snd (axios_get upstream' u ps h'))) ->
    forall h h',
      R h h' ->
      fst (F upstream h) = fst (F upstream' h')
      /\ R (snd (F upstream h)) (snd (F upstream' h')).
Proof.
  induction 1 as [A r|u ps|A B m k a b Hm IHm Hk IHk|A m a b L Hm IHm];
    intros U U' R HR h h' Hh.
  - split; [reflexivity|exact Hh].
  - apply HR. exact Hh.
  - unfold bind. destruct (IHm U U' R HR h h' Hh) as [Ef ER].
    destruct (m U h) as [[x|e] h1], (m U' h') as [[x'|e'] h1'];
      cbn [fst snd] in *; try discriminate Ef.
    + inversion Ef; subst x'. apply (IHk x U U' R HR h1 h1' ER).
    + inversion Ef; subst. split; [reflexivity|exact ER].
  - apply (IHm U U' R HR h h' Hh).
Qed.

Lemma program_lift_n (A : Type) (r : result A) (n : nat) :
  client_program A (fun _ => lift r) n.
Proof. apply (program_weaken _ _ 0); [lia|apply program_lift]. Qed.

Lemma program_ret (A : Type) (a : A) (n : nat) :
  client_program A (fun _ => ret a) n.
Proof. exact (program_lift_n A (Return a) n). Qed.

Lemma program_throw (A : Type) (e : Error) (n : nat) :
  client_program A (fun _ => throw e) n.
Proof. exact (program_lift_n A (Throw e) n). Qed.

Lemma program_bind_n (A B : Type) (m : Upstream -> Async A)
  (k : Upstream -> A -> Async B) (a b n : nat) :
  client_program A m a ->
  (forall x, client_program B (fun upstream => k upstream x) b) ->
  (a + b <= n)%nat ->
  client_program B (fun upstream => bind (m upstream) (k upstream)) n.
Proof.
  intros Hm Hk L. apply (program_weaken _ _ (a + b)); [exact L|].
  apply program_bind; assumption.
Qed.

Lemma program_logDebug (message : result string) :
  client_program unit (fun _ => logDebug message) 0.
Proof.
  unfold logDebug.
  apply (program_bind_n _ _ (fun _ => lift message) (fun _ _ => ret tt) 0 0);
    [apply program_lift|intros; apply program_ret|lia].
Qed.

Section Programs.
Context {host : Host}.

Lemma getSortedReleases_program (orgSlug projectSlug : value) :
  client_program _
    (fun upstream => getSortedReleases upstream orgSlug projectSlug) 1.
Proof.
  unfold getSortedReleases.
  apply (program_bind_n _ _ _ _ 0 1); [apply program_lift|intros u|lia].
  apply (program_bind_n _ _ _ _ 1 0);
    [apply program_get|intros resp; apply program_lift|lia].
Qed.

Lemma getLatestReleaseVersion_program (orgSlug projectSlug : value) :
  client_program _
    (fun upstream => getLatestReleaseVersion upstream orgSlug projectSlug) 1.
Proof.
  unfold getLatestReleaseVersion.
  apply (program_bind_n _ _ _ _ 0 1); [apply program_lift|intros u|lia].
  apply (program_bind_n _ _ _ _ 1 0); [apply program_get|intros resp|lia].
  apply (program_bind_n _ _ _ _ 0 0); [apply program_lift|intros version|lia].
  destruct (negb (truthy version)); [apply program_throw|apply program_lift].
Qed.

Lemma list_recent_releases_program (params : list (string * value)) :
  client_program _ (fun upstream => list_recent_releases_exec upstream params) 1.
Proof.
  unfold list_recent_releases_exec.
  apply (program_bind_n _ _ _ _ 1 0);
    [apply getSortedReleases_program|intros; apply program_lift|lia].
Qed.

Lemma get_releases_program (params : list (string * value)) :
  client_program _ (fun upstream => get_releases_exec upstream params) 1.
Proof.
  unfold get_releases_exec.
  apply (program_bind_n _ _ _ _ 1 0);
    [apply getSortedReleases_program|intros; apply program_ret|lia].
Qed.

Lemma get_issue_program (params : list (string * value)) :
  client_program _ (fun upstream => get_issue_exec upstream params) 1.
Proof.
  unfold get_issue_exec.
  apply (program_bind_n _ _ _ _ 0 1); [apply program_lift|intros u|lia].
  apply (program_bind_n _ _ _ _ 1 0);
    [apply program_get|intros; apply program_lift|lia].
Qed.

Lemma get_release_health_program (params : list (string * value)) :
  client_program _ (fun upstream => get_release_health_exec upstream params) 2.
Proof.
  unfold get_release_health_exec.
  apply (program_bind_n _ _ _ _ 1 1); [|intros releaseVersion|lia].
  - destruct (truthy (prop params "release_version"));
      [apply program_ret|apply getLatestReleaseVersion_program].
  - apply (program_bind_n _ _ _ _ 0 1); [apply program_lift|intros u|lia].
    apply (program_bind_n _ _ _ _ 1 0);
      [apply program_get|intros; apply program_lift|lia].
Qed.

Lemma get_release_issues_program (params : list (string * value)) :
  client_program _ (fun upstream => get_release_issues_exec upstream params) 3.
Proof.
  unfold get_release_issues_exec.
  apply (program_bind_n _ _ _ _ 1 2); [|intros releaseVersion|lia].
  - destruct (negb (truthy (prop params "release_version"))).
    + apply (program_bind_n _ _ _ _ 0 1); [apply program_lift|intros u|lia].
      apply (program_bind_n _ _ _ _ 1 0); [apply program_get|intros resp|lia].
      destruct (data resp) as [| | | | |[|first rest]|];
        try (apply (program_bind_n _ _ _ _ 0 0);
             [apply program_lift|intros; apply program_throw|lia]).
      apply (program_bind_n _ _ _ _ 0 0); [apply program_lift|intros v|lia].
      apply (program_bind_n _ _ _ _ 0 0);
        [apply program_logDebug|intros; apply program_ret|lia].
    + apply (program_bind_n _ _ _ _ 0 0);
        [apply program_logDebug|intros; apply program_ret|lia].
  - destruct (negb (truthy releaseVersion)); [apply program_throw|].
    apply (program_bind_n _ _ _ _ 0 2); [apply program_lift|intros u|lia].
    apply (program_bind_n _ _ _ _ 1 1); [apply program_get|intros project|lia].
    apply (program_bind_n _ _ _ _ 0 1); [apply program_lift|intros iu|lia].
    apply (program_bind_n _ _ _ _ 0 1); [apply program_lift|intros pid|lia].
    apply (program_bind_n _ _ _ _ 0 1); [apply program_lift|intros q|lia].
    apply (program_bind_n _ _ _ _ 1 0);
      [apply program_get|intros; apply program_lift|lia].
Qed.

(** The tools reach the upstream through the client only, each with the
    number of calls of its name. *)
Lemma run_tool_program (request : CallToolRequest) :
  client_program _ (fun upstream => run_tool upstream request)
    (client_calls (name request)).
Proof.
  unfold run_tool, client_calls.
  destruct (String.eqb_spec (name request) "list_recent_releases") as [E|_].
  { rewrite E. cbn [String.eqb Ascii.eqb Bool.eqb].
    destruct (has_all _ _); [|apply program_throw].
    apply (program_bind_n _ _ _ _ 0 1);
      [apply program_lift|intros; apply list_recent_releases_program|lia]. }
  destruct (String.eqb_spec (name request) "get_releases") as [E|_].
  { rewrite E. cbn [String.eqb Ascii.eqb Bool.eqb].
    destruct (has_all _ _); [|apply program_throw].
    apply (program_bind_n _ _ _ _ 0 1);
      [apply program_lift|intros; apply get_releases_program|lia]. }
  destruct (String.eqb_spec (name request) "get_issue") as [E|_].
  { rewrite E. cbn [String.eqb Ascii.eqb Bool.eqb].
    destruct (has_all _ _); [|apply program_throw].
    apply (program_bind_n _ _ _ _ 0 1);
      [apply program_lift|intros; apply get_issue_program|lia]. }
  destruct (String.eqb_spec (name request) "get_release_issues") as [E|_].
  { destruct (has_all _ _); [|apply program_throw].
    apply (program_bind_n _ _ _ _ 0 3);
      [apply program_lift|intros; apply get_release_issues_program|lia]. }
  destruct (String.eqb_spec (name request) "inspect_sentry") as [E|_].
  { change (fun upstream : Upstream =>
              inspect_sentry_exec (Object_keys (tools upstream)) [])
      with (fun _ : Upstream =>
              inspect_sentry_exec
                ["inspect_sentry"; "list_recent_releases"; "get_releases";
                 "get_release_health"; "get_issue"; "get_release_issues"] []).
    unfold inspect_sentry_exec.
    destruct (String.eqb (name request) "get_release_health");
      apply program_ret. }
  destruct (String.eqb_spec (name request) "get_release_health") as [E|_].
  { destruct (has_all _ _); [|apply program_throw].
    apply (program_bind_n _ _ _ _ 0 2);
      [apply program_lift|intros; apply get_release_health_program|lia]. }
  apply program_throw.
Qed.

End Programs.

(** ** The handler over the client *)

Section HandlerFacts.
Context {host : Host}.

(** A run of the handler that shows three failed attempts of a request and
    then a fourth that fails too ends there, with the error envelope of
    that last failure. *)
Lemma handler_gives_up (upstream : Upstream) (request : CallToolRequest)
  (h x y : History) (r : Request) (m : string) :
  snd (CallTool_handler upstream request h)
  = ((h ++ x) ++ three_failures r) ++ EvRequest r :: y ->
  upstream ((h ++ x) ++ three_failures r) r = Rejected m ->
  y = []
  /\ fst (CallTool_handler upstream request h)
     = Return (mkEnvelope (JObject [])
                 [mkBlock "text" (Some (error_text m))] (Some true)).
Proof.
  intros Hh Hrej.
  destruct (tool_not_found upstream request) eqn:G.
  - exfalso. unfold CallTool_handler in Hh. rewrite G in Hh. cbn in Hh.
    apply (f_equal (@List.length _)) in Hh.
    rewrite !length_app in Hh. simpl in Hh. lia.
  - rewrite handler_history in Hh by exact G.
    rewrite handler_returns_past_guard by exact G.
    assert (E : (h ++ x) ++ three_failures r
                = h ++ (x ++ [EvRequest r; EvDelay 1000; EvRequest r;
                              EvDelay 2000; EvRequest r]) ++ [EvDelay 3000]).
    { unfold three_failures. rewrite <- !app_assoc. reflexivity. }
    rewrite E in Hh, Hrej.
    destruct (program_gives_up _ _ _ (run_tool_program request)
                upstream h _ r y m Hh Hrej) as [-> Hf].
    split; [reflexivity|].
    destruct (run_tool upstream request h) as [[v|e] h']; cbn in Hf |- *;
      inversion Hf; subst e. reflexivity.
Qed.

(** The envelope depends on the upstream only through what the client
    hands over. *)
Lemma handler_oblivious (upstream upstream' : Upstream)
  (R : History -> History -> Prop) :
  (forall u ps h h',
      R h h' ->
      fst (axios_get upstream u ps h) = fst (axios_get upstream' u ps h')
      /\ R (snd (axios_get upstream u ps h))
           (snd (axios_get upstream' u ps h'))) ->
  forall request h h',
    R h h' ->
    fst (CallTool_handler upstream request h)
    = fst (CallTool_handler upstream' request h').
Proof.
  intros HR request h h' Hh.
  destruct (program_oblivious _ _ _ (run_tool_program request)
              upstream upstream' R HR h h' Hh) as [Ef _].
  unfold CallTool_handler.
  change (tool_not_found upstream' request)
    with (tool_not_found upstream request).
  destruct (tool_not_found upstream request); [reflexivity|].
  unfold try_catch, bind, ret.
  destruct (run_tool upstream request h) as [[v|e] h1],
           (run_tool upstream' request h') as [[v'|e'] h1'];
    cbn in *; inversion Ef; reflexivity.
Qed.

Lemma issue_summary_view (payload : value) :
  nullish payload = false ->
  issue_summary payload = Return (issue_view payload).
Proof. destruct payload; intros H; try discriminate H; reflexivity. Qed.

Lemma issue_view_text (payload : value) :
  exists t, JSON_stringify (issue_view payload) = Some t.
Proof. unfold issue_view. cbn [JSON_stringify]. eauto. Qed.

(** [get_issue] once its three arguments are there and convert. *)
Lemma handler_get_issue (upstream : Upstream) (args : list (string * value))
  (issue_id org project : string) (h : History) :
  forallb (fun k => has_key k args) ["issue_id"; "org_slug"; "project_slug"]
  = true ->
  String_ (prop args "issue_id") = Return issue_id ->
  String_ (prop args "org_slug") = Return org ->
  String_ (prop args "project_slug") = Return project ->
  CallTool_handler upstream (mkCall "get_issue" (Some args)) h
  = match axios_get upstream ("/issues/" ^^ issue_id ^^ "/") [] h with
    | (Return resp, h') =>
        match issue_summary (data resp) with
        | Return v => (Return (success_envelope v), h')
        | Throw e => (Return (error_envelope e), h')
        end
    | (Throw e, h') => (Return (error_envelope e), h')
    end.
Proof.
  intros Ha Hi Ho Hp. rewrite handler_returns_past_guard by reflexivity.
  rewrite (run_get_issue upstream args h Ha).
  unfold bind, lift. rewrite Hi, Ho, Hp. cbn [result_bind].
  unfold get_issue_exec, bind, lift, prop.
  cbn [lookup String.eqb Ascii.eqb Bool.eqb String_ result_bind].
  destruct (axios_get upstream _ [] h) as [[resp|e] h']; [|reflexivity].
  destruct (issue_summary (data resp)); reflexivity.
Qed.

(** An argument of [get_issue] that does not convert ends the call before
    anything is sent. *)
Lemma handler_get_issue_unconverted (upstream : Upstream)
  (args : list (string * value)) (h : History) :
  forallb (fun k => has_key k args) ["issue_id"; "org_slug"; "project_slug"]
  = true ->
  (exists e, String_ (prop args "issue_id") = Throw e)
  \/ (exists e, String_ (prop args "org_slug") = Throw e)
  \/ (exists e, String_ (prop args "project_slug") = Throw e) ->
  CallTool_handler upstream (mkCall "get_issue" (Some args)) h
  = (Return (error_envelope cannot_convert), h).
Proof.
  intros Ha Hc. rewrite handler_returns_past_guard by reflexivity.
  rewrite (run_get_issue upstream args h Ha). unfold bind, lift.
  destruct (String_ (prop args "issue_id")) as [i|e1] eqn:E1.
  - destruct (String_ (prop args "org_slug")) as [o|e2] eqn:E2.
    + destruct (String_ (prop args "project_slug")) as [p|e3] eqn:E3.
      * exfalso. destruct Hc as [[e H]|[[e H]|[e H]]]; discriminate H.
      * cbn [result_bind]. rewrite (String_Throw _ _ E3). reflexivity.
    + cbn [result_bind]. rewrite (String_Throw _ _ E2). reflexivity.
  - cbn [result_bind]. rewrite (String_Throw _ _ E1). reflexivity.
Qed.

End HandlerFacts.

(** ** What the tools return *)

Lemma structured_has_text (v : value) :
  structured v = true -> exists t, JSON_stringify v = Some t.
Proof. destruct v; simpl; try discriminate; eauto. Qed.

Section ToolResults.
Context {host : Host}.
Variable upstream : Upstream.

Lemma inspect_sentry_structured keys params h v h' :
  inspect_sentry_exec keys params h = (Return v, h') -> structured v = true.
Proof. unfold inspect_sentry_exec. intros H. invert_steps. reflexivity. Qed.

Lemma list_recent_releases_structured params h v h' :
  list_recent_releases_exec upstream params h = (Return v, h') ->
  structured v = true.
Proof. unfold list_recent_releases_exec. intros H. invert_steps. reflexivity. Qed.

Lemma get_releases_structured params h v h' :
  get_releases_exec upstream params h = (Return v, h') -> structured v = true.
Proof. unfold get_releases_exec. intros H. invert_steps. reflexivity. Qed.

Lemma get_release_health_structured params h v h' :
  get_release_health_exec upstream params h = (Return v, h') ->
  structured v = true.
Proof.
  unfold get_release_health_exec. intros H.
  apply bind_Return in H as (rv & h1 & _ & H).
  invert_steps. reflexivity.
Qed.

Lemma get_issue_structured params h v h' :
  get_issue_exec upstream params h = (Return v, h') -> structured v = true.
Proof.
  unfold get_issue_exec, issue_summary. intros H. invert_steps. reflexivity.
Qed.

Lemma get_release_issues_structured params h v h' :
  get_release_issues_exec upstream params h = (Return v, h') ->
  structured v = true.
Proof.
  unfold get_release_issues_exec. intros H.
  apply bind_Return in H as (rv & h1 & _ & H).
  destruct (negb (truthy rv)); [discriminate H|].
  invert_steps. reflexivity.
Qed.

(** Every value a tool returns has a JSON text. *)
Lemma run_tool_structured request h v h' :
  run_tool upstream request h = (Return v, h') -> structured v = true.
Proof.
  unfold run_tool.
  repeat match goal with
         | |- context [if String.eqb ?a ?b then _ else _] =>
             destruct (String.eqb a b)
         end;
    try match goal with
        | |- context [has_all ?ks ?a] => destruct (has_all ks a)
        end;
    intros H; try discriminate H;
    try (apply bind_Return in H as (params & h1 & _ & H));
    eauto using inspect_sentry_structured, list_recent_releases_structured,
      get_releases_structured, get_release_health_structured,
      get_issue_structured, get_release_issues_structured.
Qed.

End ToolResults.

(** A falsy value converts to a string. *)
Lemma falsy_converts (v : value) :
  truthy v = false -> exists s, String_ v = Return s.
Proof.
  destruct v as [| |b|n|s|l|ps]; intros H; try discriminate H;
    cbn [String_]; try destruct b; eauto.
Qed.

Lemma truthy_get (v : value) (k : string) :
  truthy (member v k) = true -> get v k = Return (member v k).
Proof. destruct v; intros H; try discriminate H; reflexivity. Qed.

(** ** [list_recent_releases] under a count *)

Section RecentFacts.
Context {host : Host}.
Variable upstream : Upstream.

Lemma StronglySorted_prefix {A : Type} (R : A -> A -> Prop) (k : nat)
  (l : list A) :
  StronglySorted R l -> StronglySorted R (firstn k l).
Proof.
  intros H. revert k. induction H as [|x l Hs IH Hx]; intros [|k]; simpl;
    try constructor; auto using Forall_prefix.
Qed.

Lemma StronglySorted_recent_view (l : list value) :
  StronglySorted not_older l -> StronglySorted recent_not_older (map recent_view l).
Proof.
  induction 1 as [|x l Hs IH Hx]; simpl; constructor; [exact IH|].
  apply Forall_map. eapply Forall_impl; [|exact Hx].
  intros y Hy. exact Hy.
Qed.

(** With a positive count [n] the tool returns at most [n] entries, newest
    first; without a count it returns at most 5.  A count of 0 is not
    covered: it is falsy and takes the default. *)
Lemma list_recent_releases_at_most (params : list (string * value))
  (org project : string) (h h' : History) (resp : AxiosResponse)
  (rels : list value) (n : Z) :
  String_ (org_or_default params) = Return org ->
  String_ (prop params "project_slug") = Return project ->
  axios_get upstream (releases_path org project) [] h = (Return resp, h') ->
  data resp = JArray rels ->
  forallb release_like rels = true ->
  forallb well_dated rels = true ->
  prop params "count" = JNumber (Num n) /\ 0 < n
  \/ prop params "count" = JUndefined /\ n = 5 ->
  exists recent,
    list_recent_releases_exec upstream params h = (Return (JArray recent), h')
    /\ Z.of_nat (List.length recent) <= n
    /\ StronglySorted recent_not_older recent.
Proof.
  intros Ho Hp Hget Hdata Hlike Hdated Hcount.
  apply forallb_Forall in Hlike. apply forallb_Forall in Hdated.
  assert (E : Number_ (js_or (prop params "count") (JNumber (Num 5)))
              = Return (Num n)).
  { destruct Hcount as [[-> Hn]| [-> ->]]; [|reflexivity].
    unfold js_or. simpl. destruct (Z.eqb_spec n 0); [lia|reflexivity]. }
  eexists. split.
  { apply (list_recent_releases_on upstream params h h' (sort_by_date rels)
             (Num n)).
    - apply (getSortedReleases_dated upstream _ _ org project h h' resp rels);
        assumption.
    - eapply Permutation_Forall; [apply sort_by_date_perm|exact Hlike].
    - exact E. }
  split.
  - rewrite length_map. apply Array_slice0_at_most.
    destruct Hcount as [[_ Hn]|[_ ->]]; lia.
  - apply StronglySorted_recent_view.
    destruct (Array_slice0_prefix (map projection (sort_by_date rels)) (Num n))
      as [k ->].
    apply StronglySorted_prefix, StronglySorted_map_projection,
      sort_by_date_sorted.
    exact Hdated.
Qed.

End RecentFacts.

(** ** What the release tools return whenever they return *)

Lemma recent_entry_Return (e r : value) :
  recent_entry e = Return r ->
  recent_data r = release_data e
  /\ (member r "type" = JString "mobile" \/ member r "type" = JString "desktop").
Proof.
  unfold recent_entry. intros H.
  apply result_bind_Return in H as (a & Ha & H).
  apply result_bind_Return in H as (b & Hb & H).
  apply result_bind_Return in H as (c & Hc & H).
  apply result_bind_Return in H as (m & _ & H).
  inversion H. unfold recent_data, release_data.
  rewrite (get_Return _ _ _ Ha), (get_Return _ _ _ Hb), (get_Return _ _ _ Hc).
  split; [reflexivity|]. destruct m; [left|right]; reflexivity.
Qed.

Lemma Array_map_recent_Return (l out : list value) :
  Array_map recent_entry l = Return out ->
  Forall2 (fun r e => recent_data r = release_data e
                      /\ (member r "type" = JString "mobile"
                          \/ member r "type" = JString "desktop")) out l.
Proof.
  revert out. induction l as [|x l IH]; intros out H; simpl in H.
  - inversion H. constructor.
  - apply result_bind_Return in H as (y & Hy & H).
    apply result_bind_Return in H as (ys & Hys & H). inversion H; subst.
    constructor; [apply recent_entry_Return; exact Hy|apply IH; exact Hys].
Qed.

Lemma Array_slice0_kept {A : Type} (l : list A) (n : number) :
  Array_slice0 l n = firstn (kept n (List.length l)) l.
Proof.
  unfold Array_slice0, kept. destruct n as [|z|[|]]; simpl.
  - destruct l; reflexivity.
  - destruct (Z.ltb_spec z 0); [reflexivity|].
    destruct (Nat.le_ge_cases (Z.to_nat z) (List.length l)) as [L|L].
    + rewrite Nat.min_l by exact L. reflexivity.
    + rewrite Nat.min_r by exact L. rewrite firstn_all. apply firstn_all2. exact L.
  - symmetry. apply firstn_all.
  - reflexivity.
Qed.

Lemma kept_le (n : number) (len : nat) : (kept n len <= len)%nat.
Proof.
  unfold kept. destruct n as [|z|[|]]; try lia.
  destruct (Z.ltb_spec z 0); lia.
Qed.

(** ** Release health *)

Section HealthFacts.
Context {host : Host}.
Variable upstream : Upstream.



(** [get_release_health] from the version on: the version is converted and
    encoded, the release fetched, and the result made of its payload. *)
Lemma get_release_health_from_version (params : list (string * value))
  (org project : string) (h : History) :
  String_ (org_or_default params) = Return org ->
  String_ (prop params "project_slug") = Return project ->
  get_release_health_exec upstream params h
  = match (if truthy (prop params "release_version")
           then ret (prop params "release_version")
           else getLatestReleaseVersion upstream (org_or_default params)
                  (prop params "project_slug")) h with
    | (Return releaseVersion, h1) =>
        match String_ releaseVersion with
        | Return version =>
            if well_formed version then
              match axios_get upstream (health_url org project version) [] h1 with
              | (Return resp, h2) =>
                  (let+ _ := get (data resp) "new_groups" in
                   Return (health_view releaseVersion (data resp)), h2)
              | (Throw e, h2) => (Throw e, h2)
              end
            else (Throw (URIError "URI malformed"), h1)
        | Throw e => (Throw e, h1)
        end
    | (Throw e, h1) => (Throw e, h1)
    end.
Proof.
  intros Ho Hp. unfold get_release_health_exec. unfold bind at 1.
  destruct ((if truthy (prop params "release_version")
             then ret (prop params "release_version")
             else getLatestReleaseVersion upstream (org_or_default params)
                    (prop params "project_slug")) h)
    as [[releaseVersion|e] h1]; [|reflexivity].
  unfold bind, lift. rewrite Ho, Hp. cbn [result_bind].
  destruct (String_ releaseVersion) as [version|e]; [|reflexivity].
  cbn [result_bind]. unfold encodeURIComponent.
  destruct (well_formed version); [|reflexivity].
  cbn [result_bind]. fold (health_url org project version).
  destruct (axios_get upstream (health_url org project version) [] h1)
    as [[resp|e] h2]; [|reflexivity].
  unfold health_view. destruct (data resp); reflexivity.
Qed.

End HealthFacts.

(** ** The first request of a call *)

Lemma starts_with_axios_get (upstream : Upstream) (u : string)
  (ps : list (string * value)) :
  starts_with (mkRequest u ps) (axios_get upstream u ps).
Proof.
  intros h. destruct (axios_get_trace upstream u ps h) as (k & _ & Hh & _).
  rewrite Hh. destruct k; simpl; eauto.
Qed.

Lemma starts_with_bind {A B : Type} (r : Request) (n : nat) (m : Async A)
  (k : A -> Async B) :
  starts_with r m -> (forall x, bounded n (k x)) -> starts_with r (bind m k).
Proof.
  intros Hm Hk h. unfold bind. destruct (Hm h) as [tail Hh].
  destruct (m h) as [[x|e] h1]; simpl in *.
  - destruct (Hk x h1) as (t & Ht & _). rewrite Ht, Hh.
    exists (tail ++ t). rewrite <- app_assoc. reflexivity.
  - eauto.
Qed.

Section FirstRequests.
Context {host : Host}.
Variable upstream : Upstream.

Lemma starts_getSortedReleases (orgSlug projectSlug : value)
  (org project : string) :
  String_ orgSlug = Return org ->
  String_ projectSlug = Return project ->
  starts_with (mkRequest (releases_path org project) [])
    (getSortedReleases upstream orgSlug projectSlug).
Proof.
  intros Ho Hp h. unfold getSortedReleases. unfold bind at 1, lift at 1.
  rewrite Ho, Hp. cbn [result_bind]. fold (releases_path org project).
  apply (starts_with_bind _ 0); [apply starts_with_axios_get|].
  intros; apply bounded_lift.
Qed.

Lemma starts_get_releases (params : list (string * value))
  (org project : string) :
  String_ (org_or_default params) = Return org ->
  String_ (prop params "project_slug") = Return project ->
  starts_with (mkRequest (releases_path org project) [])
    (get_releases_exec upstream params).
Proof.
  intros Ho Hp. unfold get_releases_exec.
  apply (starts_with_bind _ 0);
    [apply starts_getSortedReleases; assumption|intros; apply bounded_ret].
Qed.

Lemma starts_list_recent_releases (params : list (string * value))
  (org project : string) :
  String_ (org_or_default params) = Return org ->
  String_ (prop params "project_slug") = Return project ->
  starts_with (mkRequest (releases_path org project) [])
    (list_recent_releases_exec upstream params).
Proof.
  intros Ho Hp. unfold list_recent_releases_exec.
  apply (starts_with_bind _ 0);
    [apply starts_getSortedReleases; assumption|intros; apply bounded_lift].
Qed.

Lemma starts_get_release_issues (params : list (string * value))
  (org project : string) :
  String_ (org_or_default params) = Return org ->
  String_ (prop params "project_slug") = Return project ->
  truthy (prop params "release_version") = false ->
  starts_with (mkRequest (releases_url org project) [])
    (get_release_issues_exec upstream params).
Proof.
  intros Ho Hp Hrv. unfold get_release_issues_exec. rewrite Hrv. cbn [negb].
  apply (starts_with_bind _ 2).
  - intros h. unfold bind at 1, lift at 1. rewrite Ho, Hp. cbn [result_bind].
    fold (releases_url org project).
    apply (starts_with_bind _ 0); [apply starts_with_axios_get|].
    intros resp. destruct (data resp) as [| | | | |[|first rest]|];
      try (apply (bounded_bind 0 0);
           [apply bounded_lift|intros; apply bounded_throw]).
    apply (bounded_bind 0 0); [apply bounded_lift|intros v].
    apply (bounded_bind 0 0); [|intros; apply bounded_ret].
    apply (program_bounded _ _ _ (program_logDebug _) upstream).
  - intros rv. destruct (negb (truthy rv)).
    + apply (bounded_weaken 0); [lia|apply bounded_throw].
    + change 2%nat with (0 + (1 + (0 + (0 + (0 + (1 + 0))))))%nat.
      apply bounded_bind; [apply bounded_lift|intros].
      apply bounded_bind; [apply bounded_axios_get|intros].
      apply bounded_bind; [apply bounded_lift|intros].
      apply bounded_bind; [apply bounded_lift|intros].
      apply bounded_bind; [apply bounded_lift|intros].
      apply bounded_bind; [apply bounded_axios_get|intros; apply bounded_lift].
Qed.

End FirstRequests.

(** ** The release tools through the dispatcher *)

Section ReleaseCalls.
Context {host : Host}.
Variable upstream : Upstream.

Lemma String_TypeError (v : value) (e : Error) :
  String_ v = Throw e -> is_TypeError e.
Proof. intros H. rewrite (String_Throw v e H). apply cannot_convert_TypeError. Qed.

Lemma Number_TypeError (v : value) (e : Error) :
  Number_ v = Throw e -> is_TypeError e.
Proof. intros H. rewrite (Number_Throw v e H). apply cannot_convert_TypeError. Qed.

Lemma string_or_Throw (args : list (string * value)) (k : string)
  (otherwise : value) (e : Error) :
  string_or args k otherwise = Throw e -> e = cannot_convert.
Proof.
  unfold string_or. destruct (truthy (prop args k)); [|discriminate].
  destruct (String_ (prop args k)) as [s|e0] eqn:E; cbn [result_bind];
    [discriminate|].
  intros H. inversion H; subst. eapply String_Throw; exact E.
Qed.


(** A slug that does not convert ends a release tool before anything is
    sent. *)
Lemma run_release_tool_unconverted (tool : string)
  (args : list (string * value)) (h : History) :
  In tool ["get_releases"; "list_recent_releases"; "get_release_issues";
           "get_release_health"] ->
  has_key "project_slug" args = true ->
  (exists e, effective_org args = Throw e)
  \/ (exists e, String_ (prop args "project_slug") = Throw e) ->
  run_tool upstream (mkCall tool (Some args)) h = (Throw cannot_convert, h).
Proof.
  intros Htool Hk Hc.
  simpl in Htool. destruct Htool as [<-|[<-|[<-|[<-|[]]]]].
  - rewrite (run_get_releases upstream args h Hk). unfold bind, lift.
    destruct (String_ (prop args "project_slug")) as [p|e1] eqn:E1;
      cbn [result_bind].
    + destruct Hc as [[e He]|[e He]]; [|discriminate He].
      destruct (effective_org_Throw args JUndefined e He) as [Hs ->].
      rewrite Hs. reflexivity.
    + rewrite (String_Throw _ _ E1). reflexivity.
  - rewrite (run_list_recent_releases upstream args h Hk). unfold bind, lift.
    destruct (String_ (prop args "project_slug")) as [p|e1] eqn:E1;
      cbn [result_bind].
    + destruct Hc as [[e He]|[e He]]; [|discriminate He].
      destruct (effective_org_Throw args JUndefined e He) as [Hs ->].
      rewrite Hs. reflexivity.
    + rewrite (String_Throw _ _ E1). reflexivity.
  - rewrite (run_get_release_issues upstream args h Hk). unfold bind, lift.
    destruct (String_ (prop args "project_slug")) as [p|e1] eqn:E1;
      cbn [result_bind].
    + destruct Hc as [[e He]|[e He]]; [|discriminate He].
      destruct (effective_org_Throw args (JString SENTRY_ORG_SLUG) e He)
        as [Hs ->].
      rewrite Hs. reflexivity.
    + rewrite (String_Throw _ _ E1). reflexivity.
  - rewrite (run_get_release_health upstream args h Hk). unfold bind, lift.
    destruct (String_ (prop args "project_slug")) as [p|e1] eqn:E1;
      cbn [result_bind].
    + destruct Hc as [[e He]|[e He]]; [|discriminate He].
      destruct (effective_org_Throw args (JString SENTRY_ORG_SLUG) e He)
        as [Hs ->].
      rewrite Hs. reflexivity.
    + rewrite (String_Throw _ _ E1). reflexivity.
Qed.

End ReleaseCalls.

(** ** The encoded release version *)

Lemma percent_encode_cons (c : ascii) (s : string) :
  percent_encode (String c s)
  = percent_encode (String c EmptyString) ^^ percent_encode s.
Proof. simpl. destruct (uri_unreserved c); reflexivity. Qed.

Lemma encode_char_safe (c : ascii) :
  uri_safe (percent_encode (String c EmptyString)) = true.
Proof. destruct c as [[] [] [] [] [] [] [] []]; reflexivity. Qed.

Lemma decode_encode_char (c : ascii) (t : string) :
  percent_decode (percent_encode (String c EmptyString) ^^ t)
  = String c (percent_decode t).
Proof. destruct c as [[] [] [] [] [] [] [] []]; reflexivity. Qed.

Lemma list_ascii_of_string_app (a b : string) :
  list_ascii_of_string (a ^^ b)
  = list_ascii_of_string a ++ list_ascii_of_string b.
Proof. induction a as [|c a IH]; simpl; [reflexivity|]. rewrite IH. reflexivity. Qed.

Lemma append_cancel_l (p a b : string) : p ^^ a = p ^^ b -> a = b.
Proof.
  induction p as [|c p IH]; simpl; intros H; [exact H|].
  inversion H. apply IH. assumption.
Qed.

Lemma append_slash_cancel (a b : string) : a ^^ "/" = b ^^ "/" -> a = b.
Proof.
  revert b. induction a as [|c a IH]; intros [|d b] H; simpl in H.
  - reflexivity.
  - inversion H as [[Hc Hb]]. destruct b; discriminate Hb.
  - inversion H as [[Hc Ha]]. destruct a; discriminate Ha.
  - inversion H. f_equal. apply IH. assumption.
Qed.

Lemma percent_decode_encode (s : string) :
  percent_decode (percent_encode s) = s.
Proof.
  induction s as [|c s IH]; [reflexivity|].
  rewrite percent_encode_cons, decode_encode_char, IH. reflexivity.
Qed.

Lemma percent_encode_safe (s : string) : uri_safe (percent_encode s) = true.
Proof.
  induction s as [|c s IH]; [reflexivity|].
  rewrite percent_encode_cons. pose proof (encode_char_safe c) as Hc.
  unfold uri_safe in *.
  rewrite list_ascii_of_string_app, forallb_app, IH, Hc. reflexivity.
Qed.

Lemma percent_encode_inj (s1 s2 : string) :
  percent_encode s1 = percent_encode s2 -> s1 = s2.
Proof.
  intros H.
  rewrite <- (percent_decode_encode s1), <- (percent_decode_encode s2), H.
  reflexivity.
Qed.

Lemma uri_safe_characters (t : string) (c : ascii) :
  uri_safe t = true -> In c (list_ascii_of_string t) ->
  c <> "/"%char /\ c <> "?"%char /\ c <> "#"%char /\ c <> " "%char.
Proof.
  intros Ht Hc. unfold uri_safe in Ht. rewrite forallb_forall in Ht.
  specialize (Ht c Hc).
  repeat split; intros ->; discriminate Ht.
Qed.

Lemma health_url_inj {host : Host} (org project s1 s2 : string) :
  health_url org project s1 = health_url org project s2 -> s1 = s2.
Proof.
  unfold health_url. intros H. repeat apply append_cancel_l in H.
  apply append_slash_cancel in H. apply percent_encode_inj. exact H.
Qed.

(** ** The text of an error envelope *)

Lemma json_escape_step (c : ascii) (rest : string) :
  json_escape (String c rest)
  = match rest with
    | String d (String e rest') =>
        match surrogate_unit c d e with
        | Some u => unicode_escape u ^^ json_escape rest'
        | None => escape_char c ^^ json_escape rest
        end
    | _ => escape_char c ^^ json_escape rest
    end.
Proof. destruct rest as [|d [|e rest']]; reflexivity. Qed.

Lemma unescape_escape_char (c : ascii) (t : string) :
  json_unescape (escape_char c ^^ t) = String c (json_unescape t).
Proof. destruct c as [[] [] [] [] [] [] [] []]; reflexivity. Qed.

Lemma escape_char_quoted (c : ascii) (t : string) :
  quoted_safely false (escape_char c ^^ t) = quoted_safely false t.
Proof. destruct c as [[] [] [] [] [] [] [] []]; reflexivity. Qed.

Lemma hex_digit_value (k : nat) :
  (k < 16)%nat ->
  hex_value (hex_digit false k) = Some k
  /\ forall t, quoted_safely false (String (hex_digit false k) t)
               = quoted_safely false t.
Proof.
  intros Hk.
  do 16 (destruct k as [|k]; [split; [reflexivity|intros t; reflexivity]|]).
  lia.
Qed.

Lemma json_unescape_unicode (a b x y : ascii) (t : string) :
  json_unescape (String "\" (String "u" (String a (String b (String x
                   (String y t))))))
  = match hex_value a, hex_value b, hex_value x, hex_value y with
    | Some ha, Some hb, Some hx, Some hy =>
        code_unit_bytes
          (4096 * N.of_nat ha + 256 * N.of_nat hb
           + 16 * N.of_nat hx + N.of_nat hy)%N
          ^^ json_unescape t
    | _, _, _, _ =>
        String "\" (json_unescape (String "u" (String a (String b (String x
                                      (String y t))))))
    end.
Proof. reflexivity. Qed.

(** A code unit escaped and read back. *)
Lemma unescape_unicode_escape (u : N) (t : string) :
  (u < 65536)%N ->
  json_unescape (unicode_escape u ^^ t) = code_unit_bytes u ^^ json_unescape t.
Proof.
  intros Hu. unfold unicode_escape. cbn [append].
  rewrite json_unescape_unicode.
  assert (H1 : (N.to_nat (u / 4096) < 16)%nat).
  { pose proof (N.Div0.div_lt_upper_bound u 4096 16). lia. }
  assert (H2 : (N.to_nat (u / 256 mod 16) < 16)%nat).
  { pose proof (N.mod_upper_bound (u / 256) 16). lia. }
  assert (H3 : (N.to_nat (u / 16 mod 16) < 16)%nat).
  { pose proof (N.mod_upper_bound (u / 16) 16). lia. }
  assert (H4 : (N.to_nat (u mod 16) < 16)%nat).
  { pose proof (N.mod_upper_bound u 16). lia. }
  rewrite (proj1 (hex_digit_value _ H1)), (proj1 (hex_digit_value _ H2)),
    (proj1 (hex_digit_value _ H3)), (proj1 (hex_digit_value _ H4)).
  rewrite !N2Nat.id.
  replace (4096 * (u / 4096) + 256 * (u / 256 mod 16) + 16 * (u / 16 mod 16)
           + u mod 16)%N with u; [reflexivity|].
  pose proof (N.div_mod u 16 ltac:(lia)) as D1.
  pose proof (N.div_mod (u / 16) 16 ltac:(lia)) as D2.
  pose proof (N.div_mod (u / 256) 16 ltac:(lia)) as D3.
  assert (E2 : (u / 16 / 16 = u / 256)%N)
    by (rewrite N.Div0.div_div; reflexivity).
  assert (E3 : (u / 256 / 16 = u / 4096)%N)
    by (rewrite N.Div0.div_div; reflexivity).
  rewrite E2 in D2. rewrite E3 in D3. lia.
Qed.

Lemma unicode_escape_quoted (u : N) (t : string) :
  (u < 65536)%N ->
  quoted_safely false (unicode_escape u ^^ t) = quoted_safely false t.
Proof.
  intros Hu. unfold unicode_escape. cbn [append].
  assert (H1 : (N.to_nat (u / 4096) < 16)%nat).
  { pose proof (N.Div0.div_lt_upper_bound u 4096 16). lia. }
  assert (H2 : (N.to_nat (u / 256 mod 16) < 16)%nat).
  { pose proof (N.mod_upper_bound (u / 256) 16). lia. }
  assert (H3 : (N.to_nat (u / 16 mod 16) < 16)%nat).
  { pose proof (N.mod_upper_bound (u / 16) 16). lia. }
  assert (H4 : (N.to_nat (u mod 16) < 16)%nat).
  { pose proof (N.mod_upper_bound u 16). lia. }
  change (quoted_safely false (String "\" (String "u" ?r)))
    with (quoted_safely false r).
  rewrite (proj2 (hex_digit_value _ H1)), (proj2 (hex_digit_value _ H2)),
    (proj2 (hex_digit_value _ H3)), (proj2 (hex_digit_value _ H4)).
  reflexivity.
Qed.

(** The bytes of a lone surrogate are those of its code unit. *)
Lemma surrogate_unit_bytes (c d e : ascii) (u : N) :
  surrogate_unit c d e = Some u ->
  (u < 65536)%N
  /\ code_unit_bytes u = String c (String d (String e EmptyString)).
Proof.
  unfold surrogate_unit.
  destruct (N.eqb_spec (N_of_ascii c) 237) as [Ec|]; [|discriminate].
  destruct (N.leb_spec 160 (N_of_ascii d)) as [D1|]; [|discriminate].
  destruct (N.leb_spec (N_of_ascii d) 191) as [D2|]; [|discriminate].
  destruct (N.leb_spec 128 (N_of_ascii e)) as [E1|]; [|discriminate].
  destruct (N.leb_spec (N_of_ascii e) 191) as [E2|]; [|discriminate].
  cbn [andb]. intros H.
  assert (Hu : (55296 + (N_of_ascii d - 160) * 64 + (N_of_ascii e - 128))%N = u)
    by congruence.
  clear H. subst u.
  split; [lia|].
  unfold code_unit_bytes.
  destruct (N.ltb_spec (55296 + (N_of_ascii d - 160) * 64 + (N_of_ascii e - 128))
              128) as [L|_]; [lia|].
  assert (Xd : (160 + (55296 + (N_of_ascii d - 160) * 64
                       + (N_of_ascii e - 128) - 55296) / 64
                = N_of_ascii d)%N).
  { replace (55296 + (N_of_ascii d - 160) * 64 + (N_of_ascii e - 128) - 55296)%N
      with ((N_of_ascii e - 128) + (N_of_ascii d - 160) * 64)%N by lia.
    rewrite N.div_add by lia. rewrite N.div_small by lia. lia. }
  assert (Xe : (128 + (55296 + (N_of_ascii d - 160) * 64
                       + (N_of_ascii e - 128)) mod 64
                = N_of_ascii e)%N).
  { replace (55296 + (N_of_ascii d - 160) * 64 + (N_of_ascii e - 128))%N
      with ((N_of_ascii e - 128) + (864 + (N_of_ascii d - 160)) * 64)%N by lia.
    rewrite N.Div0.mod_add. rewrite N.mod_small by lia. lia. }
  rewrite Xd, Xe, !ascii_N_embedding.
  replace (ascii_of_nat 237) with c; [reflexivity|].
  rewrite <- (ascii_N_embedding c), Ec. reflexivity.
Qed.

(** Escaping is safe and can be read back. *)
Lemma json_escape_sound (s : string) :
  quoted_safely false (json_escape s) = true
  /\ json_unescape (json_escape s) = s.
Proof.
  assert (X : forall n s, (String.length s <= n)%nat ->
                quoted_safely false (json_escape s) = true
                /\ json_unescape (json_escape s) = s).
  { clear s. induction n as [|n IH]; intros s Hs.
    - destruct s; [split; reflexivity|simpl in Hs; lia].
    - destruct s as [|c rest]; [split; reflexivity|].
      cbn [String.length] in Hs. rewrite json_escape_step.
      assert (Plain : quoted_safely false (escape_char c ^^ json_escape rest)
                      = true
                      /\ json_unescape (escape_char c ^^ json_escape rest)
                         = String c rest).
      { destruct (IH rest ltac:(lia)) as [Q U].
        rewrite escape_char_quoted, unescape_escape_char, Q, U.
        split; reflexivity. }
      destruct rest as [|d [|e rest']]; try exact Plain.
      destruct (surrogate_unit c d e) as [u|] eqn:Eu; [|exact Plain].
      destruct (surrogate_unit_bytes c d e u Eu) as [Hu Hb].
      cbn [String.length] in Hs.
      destruct (IH rest' ltac:(lia)) as [Q U].
      rewrite (unicode_escape_quoted u _ Hu), (unescape_unicode_escape u _ Hu),
        Q, U, Hb.
      split; reflexivity. }
  apply (X (String.length s)). lia.
Qed.

(** ** The issue tools *)



(** ** The errors a call can end with *)

Lemma get0_Throw (v : value) (e : Error) : get0 v = Throw e -> is_TypeError e.
Proof.
  destruct v as [| | | |[|c s]|[|x l]|ps]; simpl; intros H; inversion H;
    apply cannot_read_TypeError; auto.
Qed.

Lemma as_array_Throw (expr method : string) (v : value) (e : Error) :
  as_array expr method v = Throw e -> is_TypeError e.
Proof.
  destruct v; simpl; intros H; inversion H;
    try (apply cannot_read_TypeError; auto);
    apply not_a_function_TypeError.
Qed.

Lemma includes_mobile_Throw (v : value) (e : Error) :
  includes_mobile v = Throw e -> is_TypeError e.
Proof.
  destruct v; simpl; intros H; inversion H;
    try (apply cannot_read_TypeError; auto);
    apply (not_a_function_TypeError "release.version" "includes").
Qed.

Ltac throw_steps :=
  repeat match goal with
         | H : result_bind _ _ = Throw _ |- _ =>
             apply result_bind_Throw in H as [H|(? & ? & H)]
         | H : get _ _ = Throw _ |- _ => apply get_Throw in H
         | H : get0 _ = Throw _ |- _ => apply get0_Throw in H
         | H : as_array _ _ _ = Throw _ |- _ => apply as_array_Throw in H
         | H : includes_mobile _ = Throw _ |- _ => apply includes_mobile_Throw in H
         | H : String_ _ = Throw _ |- _ => apply String_TypeError in H
         | H : Number_ _ = Throw _ |- _ => apply Number_TypeError in H
         | H : string_or _ _ _ = Throw _ |- _ =>
             apply string_or_Throw in H; subst; apply cannot_convert_TypeError
         | H : Return _ = Throw _ |- _ => discriminate H
         end.

Lemma Array_map_Throw (f : value -> result value) (l : list value) (e : Error) :
  (forall x, f x = Throw e -> is_TypeError e) ->
  Array_map f l = Throw e -> is_TypeError e.
Proof.
  intros Hf. induction l as [|x l IH]; simpl; intros H; [discriminate H|].
  apply result_bind_Throw in H as [H|(y & _ & H)]; [apply (Hf x H)|].
  apply result_bind_Throw in H as [H|(ys & _ & H)]; [apply IH, H|discriminate H].
Qed.

Lemma project_release_Throw (x : value) (e : Error) :
  project_release x = Throw e -> is_TypeError e.
Proof. unfold project_release. intros H. throw_steps; assumption. Qed.

Lemma recent_entry_Throw (x : value) (e : Error) :
  recent_entry x = Throw e -> is_TypeError e.
Proof. unfold recent_entry. intros H. throw_steps; assumption. Qed.

Lemma issue_summary_Throw (x : value) (e : Error) :
  issue_summary x = Throw e -> is_TypeError e.
Proof. unfold issue_summary. intros H. throw_steps; assumption. Qed.

Lemma retry_policy_Throw (upstream : Upstream) (budget n : nat) (r : Request)
  (h h' : History) (e : Error) :
  retry_policy upstream budget n r h = (Throw e, h') ->
  exists m h0, e = AxiosError m /\ upstream h0 r = Rejected m.
Proof.
  intros H. destruct (retry_policy_trace upstream budget n r h) as (k & _ & _ & Ho).
  rewrite H in Ho. simpl in Ho. destruct Ho as (_ & m & -> & Hm). eauto.
Qed.

Section ToolErrors.
Context {host : Host}.
Variable upstream : Upstream.

Lemma axios_get_Throw (u : string) (ps : list (string * value))
  (h h' : History) (e : Error) :
  axios_get upstream u ps h = (Throw e, h') -> tool_error upstream e.
Proof.
  rewrite axios_get_retry_policy. intros H.
  apply retry_policy_Throw in H as (m & h0 & -> & Hm). left. eauto.
Qed.

Lemma TypeError_tool_error (e : Error) : is_TypeError e -> tool_error upstream e.
Proof. intros H. right. left. exact H. Qed.

Lemma lift_TypeError {A : Type} (r : result A) (h h' : History) (e : Error) :
  (r = Throw e -> is_TypeError e) ->
  lift r h = (Throw e, h') -> tool_error upstream e.
Proof.
  intros Hr H. apply lift_Throw in H as [H _].
  apply TypeError_tool_error, Hr, H.
Qed.

Lemma getSortedReleases_Throw (orgSlug projectSlug : value) (h h' : History)
  (e : Error) :
  getSortedReleases upstream orgSlug projectSlug h = (Throw e, h') ->
  tool_error upstream e.
Proof.
  unfold getSortedReleases. intros H.
  apply bind_Throw in H as [H|(u & h0 & _ & H)].
  { eapply lift_TypeError; [|exact H]. intros Hr. throw_steps; assumption. }
  apply bind_Throw in H as [H|(resp & h1 & _ & H)];
    [eapply axios_get_Throw; exact H|].
  eapply lift_TypeError; [|exact H]. intros Hr.
  apply result_bind_Throw in Hr as [Hr|(elems & _ & Hr)];
    [eapply as_array_Throw; exact Hr|].
  apply result_bind_Throw in Hr as [Hr|(sorted & _ & Hr)].
  - apply Array_sort_Throw in Hr as (a & b & Hr).
    eapply compare_dateCreated_Throw; exact Hr.
  - eapply Array_map_Throw; [|exact Hr]. intros x. apply project_release_Throw.
Qed.

Lemma getLatestReleaseVersion_Throw (orgSlug projectSlug : value)
  (h h' : History) (e : Error) :
  getLatestReleaseVersion upstream orgSlug projectSlug h = (Throw e, h') ->
  tool_error upstream e.
Proof.
  unfold getLatestReleaseVersion. intros H.
  apply bind_Throw in H as [H|(u & h0 & _ & H)].
  { eapply lift_TypeError; [|exact H]. intros Hr. throw_steps; assumption. }
  apply bind_Throw in H as [H|(resp & h1 & _ & H)];
    [eapply axios_get_Throw; exact H|].
  apply bind_Throw in H as [H|(version & h2 & _ & H)].
  - eapply lift_TypeError; [|exact H]. intros Hr.
    destruct (nullish (data resp)); [discriminate Hr|].
    apply result_bind_Throw in Hr as [Hr|(first & _ & Hr)];
      [eapply get0_Throw; exact Hr|].
    destruct (nullish first); [discriminate Hr|]. eapply get_Throw; exact Hr.
  - destruct (negb (truthy version)).
    + unfold throw in H. inversion H. right. right. right. left. reflexivity.
    + eapply lift_TypeError; [|exact H]. intros Hr. throw_steps; assumption.
Qed.

Lemma list_recent_releases_Throw params h h' e :
  list_recent_releases_exec upstream params h = (Throw e, h') ->
  tool_error upstream e.
Proof.
  unfold list_recent_releases_exec. intros H.
  apply bind_Throw in H as [H|(releases & h1 & _ & H)];
    [eapply getSortedReleases_Throw; exact H|].
  eapply lift_TypeError; [|exact H]. intros Hr.
  apply result_bind_Throw in Hr as [Hr|(n & _ & Hr)];
    [eapply Number_TypeError; exact Hr|].
  apply result_bind_Throw in Hr as [Hr|(entries & _ & Hr)]; [|discriminate Hr].
  eapply Array_map_Throw; [|exact Hr]. intros x. apply recent_entry_Throw.
Qed.

Lemma get_releases_Throw params h h' e :
  get_releases_exec upstream params h = (Throw e, h') -> tool_error upstream e.
Proof.
  unfold get_releases_exec. intros H.
  apply bind_Throw in H as [H|(releases & h1 & _ & H)];
    [eapply getSortedReleases_Throw; exact H|discriminate H].
Qed.

Lemma get_release_health_Throw params h h' e :
  get_release_health_exec upstream params h = (Throw e, h') ->
  tool_error upstream e.
Proof.
  unfold get_release_health_exec. intros H.
  apply bind_Throw in H as [H|(rv & h1 & _ & H)].
  - destruct (truthy (prop params "release_version")); [discriminate H|].
    eapply getLatestReleaseVersion_Throw; exact H.
  - apply bind_Throw in H as [H|(u & h2 & _ & H)].
    + apply lift_Throw in H as [H _].
      apply result_bind_Throw in H as [H|(org & _ & H)];
        [apply TypeError_tool_error; eapply String_TypeError; exact H|].
      apply result_bind_Throw in H as [H|(project & _ & H)];
        [apply TypeError_tool_error; eapply String_TypeError; exact H|].
      apply result_bind_Throw in H as [H|(version & _ & H)];
        [apply TypeError_tool_error; eapply String_TypeError; exact H|].
      apply result_bind_Throw in H as [H|(encoded & _ & H)]; [|discriminate H].
      apply encodeURIComponent_Throw in H. right. right. left. exact H.
    + apply bind_Throw in H as [H|(resp & h3 & _ & H)];
        [eapply axios_get_Throw; exact H|].
      eapply lift_TypeError; [|exact H]. intros Hr. throw_steps; assumption.
Qed.

Lemma get_issue_Throw params h h' e :
  get_issue_exec upstream params h = (Throw e, h') -> tool_error upstream e.
Proof.
  unfold get_issue_exec. intros H.
  apply bind_Throw in H as [H|(u & h0 & _ & H)].
  { eapply lift_TypeError; [|exact H]. intros Hr. throw_steps; assumption. }
  apply bind_Throw in H as [H|(resp & h1 & _ & H)];
    [eapply axios_get_Throw; exact H|].
  eapply lift_TypeError; [|exact H]. apply issue_summary_Throw.
Qed.

Lemma get_release_issues_Throw params h h' e :
  get_release_issues_exec upstream params h = (Throw e, h') ->
  tool_error upstream e.
Proof.
  unfold get_release_issues_exec. intros H.
  apply bind_Throw in H as [H|(rv & h1 & _ & H)].
  - destruct (negb (truthy (prop params "release_version"))).
    + apply bind_Throw in H as [H|(u & h0 & _ & H)].
      { eapply lift_TypeError; [|exact H]. intros Hr. throw_steps; assumption. }
      apply bind_Throw in H as [H|(resp & h1 & _ & H)];
        [eapply axios_get_Throw; exact H|].
      assert (None_found :
                bind (lift (String_ (prop params "project_slug")))
                  (fun project =>
                     @throw value
                       (Error_ ("No releases found for project " ^^ project)))
                  h1 = (Throw e, h') ->
                tool_error upstream e).
      { intros Hn. apply bind_Throw in Hn as [Hn|(project & h2 & _ & Hn)].
        - eapply lift_TypeError; [|exact Hn]. apply String_TypeError.
        - unfold throw in Hn. inversion Hn.
          right. right. right. right. left. eexists. reflexivity. }
      destruct (data resp) as [| | | | |[|first rest]|];
        try (apply None_found; exact H).
      apply bind_Throw in H as [H|(version & h2 & _ & H)].
      { eapply lift_TypeError; [|exact H]. apply get_Throw. }
      apply bind_Throw in H as [H|(u1 & h3 & _ & H)]; [|discriminate H].
      apply logDebug_Throw in H as [H _].
      apply TypeError_tool_error. eapply String_TypeError; exact H.
    + apply bind_Throw in H as [H|(u1 & h3 & _ & H)]; [|discriminate H].
      apply logDebug_Throw in H as [H _].
      apply TypeError_tool_error. eapply String_TypeError; exact H.
  - destruct (negb (truthy rv)).
    + unfold throw in H. inversion H. right. right. right. right. right.
      reflexivity.
    + apply bind_Throw in H as [H|(pu & h2 & _ & H)].
      { eapply lift_TypeError; [|exact H]. intros Hr. throw_steps; assumption. }
      apply bind_Throw in H as [H|(project & h3 & _ & H)];
        [eapply axios_get_Throw; exact H|].
      apply bind_Throw in H as [H|(iu & h4 & _ & H)].
      { eapply lift_TypeError; [|exact H]. intros Hr. throw_steps; assumption. }
      apply bind_Throw in H as [H|(projectId & h5 & _ & H)].
      { eapply lift_TypeError; [|exact H]. apply get_Throw. }
      apply bind_Throw in H as [H|(query & h6 & _ & H)].
      { eapply lift_TypeError; [|exact H]. intros Hr. throw_steps; assumption. }
      apply bind_Throw in H as [H|(issues & h7 & _ & H)];
        [eapply axios_get_Throw; exact H|].
      eapply lift_TypeError; [|exact H]. intros Hr.
      apply result_bind_Throw in Hr as [Hr|(elems & _ & Hr)];
        [eapply as_array_Throw; exact Hr|].
      apply result_bind_Throw in Hr as [Hr|(out & _ & Hr)]; [|discriminate Hr].
      eapply Array_map_Throw; [|exact Hr]. intros x. apply issue_summary_Throw.
Qed.

(** Building the parameters of a tool throws nothing but the conversion
    error, and leaves the history as it is. *)
Lemma params_Throw (r : result (list (string * value))) (exec : Exec)
  (h h' : History) (e : Error) :
  (r = Throw e -> is_TypeError e) ->
  (forall params h0, exec params h0 = (Throw e, h') -> tool_error upstream e) ->
  bind (lift r) exec h = (Throw e, h') ->
  tool_error upstream e.
Proof.
  intros Hr Hexec H. apply bind_Throw in H as [H|(params & h1 & _ & H)].
  - eapply lift_TypeError; [|exact H]. exact Hr.
  - eapply Hexec; exact H.
Qed.

End ToolErrors.

Lemma has_all_None (keys : list string)
  (arguments_ : option (list (string * value))) :
  has_all keys arguments_ = None ->
  keys <> [] ->
  exists k, In k keys /\ supplied k arguments_ = false.
Proof.
  intros H Hne. destruct arguments_ as [args|].
  - simpl in H.
    destruct (forallb (fun k => has_key k args) keys) eqn:E; [discriminate H|].
    assert (X : exists k, In k keys /\ has_key k args = false).
    { clear H Hne. induction keys as [|k keys IH]; simpl in E; [discriminate E|].
      destruct (has_key k args) eqn:Ek.
      - destruct (IH E) as (k' & Hin & Hk'). exists k'. simpl. auto.
      - exists k. simpl. auto. }
    exact X.
  - destruct keys as [|k keys]; [contradiction|]. exists k. simpl. auto.
Qed.

(** ** Arguments the schema does not declare *)

Lemma agree_on_prop (k : string) (args1 args2 : list (string * value)) :
  agree_on k args1 args2 ->
  prop args1 k = prop args2 k /\ has_key k args1 = has_key k args2.
Proof. unfold agree_on, prop, has_key. intros ->. auto. Qed.

(** ** The debug handler *)

(** A variable that is set to a non-empty string. *)
Lemma env_get_truthy (k : string) (env : ProcessEnv) :
  truthy (env_get k env) = true ->
  exists s, env_get k env = JString s /\ s <> "".
Proof.
  induction env as [|[k' s] env' IH]; simpl; [discriminate|].
  destruct (String.eqb k k'); [|exact IH].
  simpl. intros H. exists s. split; [reflexivity|].
  intros ->. discriminate H.
Qed.

Lemma substring_to_end (s : string) : substring 0 (String.length s) s = s.
Proof. induction s as [|c s IH]; simpl; [reflexivity|]. rewrite IH. reflexivity. Qed.

(** Cutting a string at a position within it. *)
Lemma substring_suffix (n : nat) :
  forall s, (n <= String.length s)%nat ->
    exists pre,
      s = pre ^^ substring n (String.length s - n) s
      /\ String.length pre = n.
Proof.
  induction n as [|n IH]; intros s Hn.
  - exists "". rewrite Nat.sub_0_r, substring_to_end. split; reflexivity.
  - destruct s as [|c s]; simpl in Hn; [lia|].
    destruct (IH s ltac:(lia)) as (pre & Hs & Hl).
    exists (String c pre). simpl. rewrite <- Hs, Hl. split; reflexivity.
Qed.

Lemma length_append (a b : string) :
  String.length (a ^^ b) = (String.length a + String.length b)%nat.
Proof. induction a as [|c a IH]; simpl; [reflexivity|]. rewrite IH. reflexivity. Qed.

(** [slice(-4)] is the last four characters, or all of a shorter string. *)
Lemma String_slice_last4 (s : string) :
  exists hidden,
    s = hidden ^^ String_slice (-4) s
    /\ String.length (String_slice (-4) s) = Nat.min 4 (String.length s).
Proof.
  unfold String_slice. cbn [Z.ltb Z.compare].
  set (from := Z.to_nat (Z.max (Z.of_nat (String.length s) + -4) 0)).
  assert (Hf : (from <= String.length s)%nat) by (unfold from; lia).
  destruct (substring_suffix from s Hf) as (pre & Hs & Hl).
  exists pre. split; [exact Hs|].
  apply (f_equal String.length) in Hs. rewrite length_append, Hl in Hs.
  unfold from in *. lia.
Qed.

(** ** Releases created at the same instant *)

Section Stability.
Context {host : Host}.

Lemma insert_by_date_filter (t : Z) (x : value) (l : list value) :
  filter (created_at t) (insert_by_date x l) = filter (created_at t) (x :: l).
Proof.
  induction l as [|y l IH]; [reflexivity|].
  cbn [insert_by_date]. destruct (Z.leb_spec (date_order x y) 0) as [L|L];
    [reflexivity|].
  cbn [filter] in *. rewrite IH.
  unfold date_order in L. unfold created_at.
  destruct (release_time y) as [ty|]; [|lia].
  destruct (release_time x) as [tx|]; [|lia].
  destruct (Z.eqb_spec tx t), (Z.eqb_spec ty t); try reflexivity. lia.
Qed.

Lemma sort_by_date_stable (t : Z) (l : list value) :
  filter (created_at t) (sort_by_date l) = filter (created_at t) l.
Proof.
  induction l as [|x l IH]; [reflexivity|].
  cbn [sort_by_date]. rewrite insert_by_date_filter. cbn [filter].
  rewrite IH. reflexivity.
Qed.

Lemma filter_map_projection (t : Z) (l : list value) :
  filter (created_at t) (map projection l)
  = map projection (filter (created_at t) l).
Proof.
  induction l as [|x l IH]; [reflexivity|].
  cbn [map filter].
  change (created_at t (projection x)) with (created_at t x).
  destruct (created_at t x); cbn [map]; rewrite IH; reflexivity.
Qed.

End Stability.

(* ===================================================================== *)
(** * The claims of the specification *)
(* ===================================================================== *)

(** C1, as the code has it.  The guard on the tool name stands before the
    [try] block.  A name that is neither a key of the registry nor a member
    every object inherits makes the handler throw [Tool not found] past its
    boundary, with nothing sent; an inherited member name such as
    [toString] passes the guard and comes back as an [isError] envelope with
    details [Unknown tool]; and for a registered name the handler never
    throws: it returns an envelope whatever the tool does. *)
Theorem unregistered_name_outcome (host : Host) (upstream : Upstream)
  (request : CallToolRequest) (h : History) :
  if existsb (String.eqb (name request)) (Object_keys (tools upstream)) then
    exists envelope h',
      CallTool_handler upstream request h = (Return envelope, h')
  else if existsb (String.eqb (name request)) Object_prototype_keys then
    CallTool_handler upstream request h
    = (Return (error_envelope (Error_ "Unknown tool")), h)
  else
    CallTool_handler upstream request h = (Throw (Error_ "Tool not found"), h).
Proof.
  destruct (existsb (String.eqb (name request)) (Object_keys (tools upstream)))
    eqn:Hown.
  - rewrite handler_returns_past_guard by (apply registered_passes_guard; exact Hown).
    destruct (run_tool upstream request h) as [[v|e] h']; eauto.
  - destruct (existsb (String.eqb (name request)) Object_prototype_keys) eqn:Hproto.
    + assert (G : tool_not_found upstream request = false).
      { unfold tool_not_found, tools_member. rewrite existsb_app, Hown, Hproto.
        simpl. destruct (name request) as [|c s]; [discriminate Hproto|reflexivity]. }
      rewrite handler_returns_past_guard by exact G.
      rewrite tools_keys in Hown. simpl in Hown.
      repeat (apply orb_false_elim in Hown as [? Hown]).
      unfold run_tool.
      repeat match goal with
             | E : String.eqb (name request) ?s = false |- _ => rewrite E; clear E
             end.
      reflexivity.
    + unfold CallTool_handler, tool_not_found, tools_member.
      rewrite existsb_app, Hown, Hproto, Bool.orb_true_r. reflexivity.
Qed.

(** C1 as stated fails: on a name that is no key of the registry the
    handler throws instead of returning an envelope. *)
Lemma unregistered_name_is_thrown :
  existsb (String.eqb "no_such_tool")
    (Object_keys (tools (host := reference_host) (always (Rejected "down"))))
  = false
  /\ CallTool_handler (host := reference_host) (always (Rejected "down"))
       (mkCall "no_such_tool" (Some [])) []
     = (Throw (Error_ "Tool not found"), [])
  /\ (forall envelope h',
        CallTool_handler (host := reference_host) (always (Rejected "down"))
          (mkCall "no_such_tool" (Some [])) []
        <> (Return envelope, h')).
Proof.
  split; [reflexivity|]. split; [reflexivity|].
  intros envelope h' H. discriminate H.
Qed.

(** C2.  Every outbound request follows the retry policy: a failed attempt
    is retried at most three times (four attempts in all), after waiting
    1000, 2000 and 3000 ms.  A request whose first two attempts fail and
    whose third succeeds resolves with that reply; a request that fails four
    times in a row is given up and its last failure is thrown unchanged.

    At the envelope: [get_issue] on a request that succeeds at the third
    attempt returns the one text block holding the JSON text of the
    issue's [id], [title] and [permalink], without [isError]; on a request
    that fails four times it returns the one text block
    [{"error":"Failed to execute tool","details":"<last failure>"}] with
    [isError] true.  For every tool and every request it makes: when the
    history of a call shows three failed attempts with their waits and the
    fourth attempt fails too, nothing follows that attempt and the envelope
    is that error envelope for the fourth failure.  And failures the client
    recovers from do not show in the envelope of any tool: against two
    upstreams on which every call to the client ends alike, the handler
    returns the same. *)
Theorem retry_then_surface (host : Host) (upstream : Upstream) :
  (forall u ps h,
      axios_get upstream u ps h = retry_policy upstream 3 1 (mkRequest u ps) h)
  /\ (forall u ps h out h',
        axios_get upstream u ps h = (out, h') ->
        (attempts h < attempts h' <= attempts h + 4)%nat)
  /\ (forall u ps h m1 m2 resp,
        let r := mkRequest u ps in
        let h1 := h ++ [EvRequest r; EvDelay 1000] in
        let h2 := h1 ++ [EvRequest r; EvDelay 2000] in
        upstream h r = Rejected m1 ->
        upstream h1 r = Rejected m2 ->
        upstream h2 r = Resolved resp ->
        axios_get upstream u ps h = (Return resp, h2 ++ [EvRequest r]))
  /\ (forall u ps h m1 m2 m3 m4,
        let r := mkRequest u ps in
        let h1 := h ++ [EvRequest r; EvDelay 1000] in
        let h2 := h1 ++ [EvRequest r; EvDelay 2000] in
        let h3 := h2 ++ [EvRequest r; EvDelay 3000] in
        upstream h r = Rejected m1 ->
        upstream h1 r = Rejected m2 ->
        upstream h2 r = Rejected m3 ->
        upstream h3 r = Rejected m4 ->
        axios_get upstream u ps h = (Throw (AxiosError m4), h3 ++ [EvRequest r]))
  /\ (forall args issue_id org project h m1 m2 resp,
        let r := mkRequest ("/issues/" ^^ issue_id ^^ "/") [] in
        let h1 := h ++ [EvRequest r; EvDelay 1000] in
        let h2 := h1 ++ [EvRequest r; EvDelay 2000] in
        forallb (fun k => has_key k args)
          ["issue_id"; "org_slug"; "project_slug"] = true ->
        String_ (prop args "issue_id") = Return issue_id ->
        String_ (prop args "org_slug") = Return org ->
        String_ (prop args "project_slug") = Return project ->
        upstream h r = Rejected m1 ->
        upstream h1 r = Rejected m2 ->
        upstream h2 r = Resolved resp ->
        nullish (data resp) = false ->
        exists t,
          JSON_stringify (issue_view (data resp)) = Some t
          /\ CallTool_handler upstream (mkCall "get_issue" (Some args)) h
             = (Return (mkEnvelope (JObject []) [mkBlock "text" (Some t)] None),
                h2 ++ [EvRequest r]))
  /\ (forall args issue_id org project h m1 m2 m3 m4,
        let r := mkRequest ("/issues/" ^^ issue_id ^^ "/") [] in
        let h1 := h ++ [EvRequest r; EvDelay 1000] in
        let h2 := h1 ++ [EvRequest r; EvDelay 2000] in
        let h3 := h2 ++ [EvRequest r; EvDelay 3000] in
        forallb (fun k => has_key k args)
          ["issue_id"; "org_slug"; "project_slug"] = true ->
        String_ (prop args "issue_id") = Return issue_id ->
        String_ (prop args "org_slug") = Return org ->
        String_ (prop args "project_slug") = Return project ->
        upstream h r = Rejected m1 ->
        upstream h1 r = Rejected m2 ->
        upstream h2 r = Rejected m3 ->
        upstream h3 r = Rejected m4 ->
        CallTool_handler upstream (mkCall "get_issue" (Some args)) h
        = (Return (mkEnvelope (JObject [])
                     [mkBlock "text" (Some (error_text m4))] (Some true)),
           h3 ++ [EvRequest r]))
  /\ (forall request h x r y m,
        snd (CallTool_handler upstream request h)
        = ((h ++ x) ++ three_failures r) ++ EvRequest r :: y ->
        upstream ((h ++ x) ++ three_failures r) r = Rejected m ->
        y = []
        /\ fst (CallTool_handler upstream request h)
           = Return (mkEnvelope (JObject [])
                       [mkBlock "text" (Some (error_text m))] (Some true)))
  /\ (forall (upstream' : Upstream) (R : History -> History -> Prop),
        (forall u ps h h',
            R h h' ->
            fst (axios_get upstream u ps h) = fst (axios_get upstream' u ps h')
            /\ R (snd (axios_get upstream u ps h))
                 (snd (axios_get upstream' u ps h'))) ->
        forall request h h',
          R h h' ->
          fst (CallTool_handler upstream request h)
          = fst (CallTool_handler upstream' request h')).
Proof.
  assert (A : forall u ps h m1 m2 resp,
             upstream h (mkRequest u ps) = Rejected m1 ->
             upstream (h ++ [EvRequest (mkRequest u ps); EvDelay 1000])
               (mkRequest u ps) = Rejected m2 ->
             upstream ((h ++ [EvRequest (mkRequest u ps); EvDelay 1000])
                         ++ [EvRequest (mkRequest u ps); EvDelay 2000])
               (mkRequest u ps) = Resolved resp ->
             axios_get upstream u ps h
             = (Return resp,
                ((h ++ [EvRequest (mkRequest u ps); EvDelay 1000])
                   ++ [EvRequest (mkRequest u ps); EvDelay 2000])
                  ++ [EvRequest (mkRequest u ps)])).
  { intros u ps h m1 m2 resp E1 E2 E3. rewrite axios_get_retry_policy.
    simpl. rewrite E1. simpl in E2. rewrite E2. simpl in E3. rewrite E3.
    reflexivity. }
  assert (B : forall u ps h m1 m2 m3 m4,
             upstream h (mkRequest u ps) = Rejected m1 ->
             upstream (h ++ [EvRequest (mkRequest u ps); EvDelay 1000])
               (mkRequest u ps) = Rejected m2 ->
             upstream ((h ++ [EvRequest (mkRequest u ps); EvDelay 1000])
                         ++ [EvRequest (mkRequest u ps); EvDelay 2000])
               (mkRequest u ps) = Rejected m3 ->
             upstream (((h ++ [EvRequest (mkRequest u ps); EvDelay 1000])
                          ++ [EvRequest (mkRequest u ps); EvDelay 2000])
                         ++ [EvRequest (mkRequest u ps); EvDelay 3000])
               (mkRequest u ps) = Rejected m4 ->
             axios_get upstream u ps h
             = (Throw (AxiosError m4),
                (((h ++ [EvRequest (mkRequest u ps); EvDelay 1000])
                    ++ [EvRequest (mkRequest u ps); EvDelay 2000])
                   ++ [EvRequest (mkRequest u ps); EvDelay 3000])
                  ++ [EvRequest (mkRequest u ps)])).
  { intros u ps h m1 m2 m3 m4 E1 E2 E3 E4. rewrite axios_get_retry_policy.
    simpl. rewrite E1. simpl in E2. rewrite E2. simpl in E3. rewrite E3.
    simpl in E4. rewrite E4. reflexivity. }
  split; [exact (axios_get_retry_policy upstream)|].
  split.
  { intros u ps h out h' H. rewrite axios_get_retry_policy in H.
    exact (retry_policy_attempts upstream 3 _ _ _ _ _ H). }
  split; [intros; eapply A; eassumption|].
  split; [intros; eapply B; eassumption|].
  split; [|split; [|split]].
  - intros args issue_id org project h m1 m2 resp r h1 h2 Ha Hi Ho Hp
           E1 E2 E3 Hdata.
    destruct (issue_view_text (data resp)) as [t Ht].
    exists t. split; [exact Ht|].
    rewrite (handler_get_issue upstream args issue_id org project h Ha Hi Ho Hp).
    rewrite (A _ _ _ _ _ _ E1 E2 E3).
    rewrite (issue_summary_view _ Hdata). unfold success_envelope.
    rewrite Ht. reflexivity.
  - intros args issue_id org project h m1 m2 m3 m4 r h1 h2 h3 Ha Hi Ho Hp
           E1 E2 E3 E4.
    rewrite (handler_get_issue upstream args issue_id org project h Ha Hi Ho Hp).
    rewrite (B _ _ _ _ _ _ _ E1 E2 E3 E4). reflexivity.
  - intros request h x r y m. apply handler_gives_up.
  - intros upstream' R. apply handler_oblivious.
Qed.

(** C2 on the reference host.  An upstream that fails twice and then
    answers gives the success envelope after waits of 1 s and 2 s; one that
    fails four times gives the error envelope after waits of 1 s, 2 s and
    3 s, although a fifth attempt would have been answered, for [get_issue]
    as for [get_releases]; and [get_releases] returns against the upstream
    that fails twice what it returns against the one that never fails. *)
Lemma retry_then_surface_witness :
  (exists t,
     JSON_stringify (JObject [("id", JString "42"); ("title", JUndefined);
                              ("permalink", JUndefined)]) = Some t
     /\ CallTool_handler (host := reference_host)
          (fails_first 2 "Network Error"
             (Resolved (mkResponse 200 (JObject [("id", JString "42")]))))
          (mkCall "get_issue"
             (Some [("issue_id", JString "42"); ("org_slug", JString "acme");
                    ("project_slug", JString "web")])) []
        = (Return (mkEnvelope (JObject []) [mkBlock "text" (Some t)] None),
           [EvRequest (mkRequest "/issues/42/" []); EvDelay 1000;
            EvRequest (mkRequest "/issues/42/" []); EvDelay 2000;
            EvRequest (mkRequest "/issues/42/" [])]))
  /\ CallTool_handler (host := reference_host)
       (fails_first 4 "Request failed with status code 503"
          (Resolved (mkResponse 200 (JObject [("id", JString "42")]))))
       (mkCall "get_issue"
          (Some [("issue_id", JString "42"); ("org_slug", JString "acme");
                 ("project_slug", JString "web")])) []
     = (Return (mkEnvelope (JObject [])
                  [mkBlock "text"
                     (Some (error_text "Request failed with status code 503"))]
                  (Some true)),
        [EvRequest (mkRequest "/issues/42/" []); EvDelay 1000;
         EvRequest (mkRequest "/issues/42/" []); EvDelay 2000;
         EvRequest (mkRequest "/issues/42/" []); EvDelay 3000;
         EvRequest (mkRequest "/issues/42/" [])])
  /\ fst (CallTool_handler (host := reference_host)
            (fails_first 4 "Request failed with status code 503"
               (Resolved (mkResponse 200 (JArray []))))
            (mkCall "get_releases" (Some [("project_slug", JString "web")])) [])
     = Return (mkEnvelope (JObject [])
                 [mkBlock "text"
                    (Some (error_text "Request failed with status code 503"))]
                 (Some true))
  /\ fst (CallTool_handler (host := reference_host)
            (fails_first 2 "Network Error"
               (Resolved (mkResponse 200 (JArray []))))
            (mkCall "get_releases" (Some [("project_slug", JString "web")])) [])
     = fst (CallTool_handler (host := reference_host)
              (always (Resolved (mkResponse 200 (JArray []))))
              (mkCall "get_releases" (Some [("project_slug", JString "web")])) []).
Proof.
  split; [|split; [|split]].
  - destruct (retry_then_surface reference_host
                (fails_first 2 "Network Error"
                   (Resolved (mkResponse 200 (JObject [("id", JString "42")])))))
      as (_ & _ & _ & _ & Hok & _).
    destruct (Hok [("issue_id", JString "42"); ("org_slug", JString "acme");
                   ("project_slug", JString "web")] "42" "acme" "web" []
                "Network Error" "Network Error"
                (mkResponse 200 (JObject [("id", JString "42")]))
                eq_refl eq_refl eq_refl eq_refl eq_refl eq_refl eq_refl eq_refl)
      as (t & Ht & Hcall).
    exists t. split; [exact Ht|exact Hcall].
  - destruct (retry_then_surface reference_host
                (fails_first 4 "Request failed with status code 503"
                   (Resolved (mkResponse 200 (JObject [("id", JString "42")])))))
      as (_ & _ & _ & _ & _ & Hfail & _).
    exact (Hfail [("issue_id", JString "42"); ("org_slug", JString "acme");
                  ("project_slug", JString "web")] "42" "acme" "web" []
             "Request failed with status code 503"
             "Request failed with status code 503"
             "Request failed with status code 503"
             "Request failed with status code 503"
             eq_refl eq_refl eq_refl eq_refl eq_refl eq_refl eq_refl eq_refl).
  - destruct (retry_then_surface reference_host
                (fails_first 4 "Request failed with status code 503"
                   (Resolved (mkResponse 200 (JArray [])))))
      as (_ & _ & _ & _ & _ & _ & Hany & _).
    exact (proj2 (Hany (mkCall "get_releases"
                          (Some [("project_slug", JString "web")]))
                    [] [] (mkRequest "projects/acme/web/releases/" []) []
                    "Request failed with status code 503" eq_refl eq_refl)).
  - destruct (retry_then_surface reference_host
                (fails_first 2 "Network Error"
                   (Resolved (mkResponse 200 (JArray [])))))
      as (_ & _ & _ & _ & _ & _ & _ & Hsame).
    apply (Hsame (always (Resolved (mkResponse 200 (JArray []))))
             (fun h h' => (h = [] /\ h' = []) \/ (2 <= attempts h)%nat));
      [|left; split; reflexivity].
    intros u ps h h' [[-> ->]|Hh].
    + split; [reflexivity|]. right.
      rewrite axios_get_retry_policy. cbn. lia.
    + assert (E : axios_get (fails_first 2 "Network Error"
                               (Resolved (mkResponse 200 (JArray [])))) u ps h
                  = (Return (mkResponse 200 (JArray [])),
                     h ++ [EvRequest (mkRequest u ps)])).
      { rewrite axios_get_retry_policy. unfold fails_first. simpl.
        destruct (Nat.ltb_spec (attempts h) 2) as [L|_]; [lia|reflexivity]. }
      rewrite E. split.
      * rewrite axios_get_retry_policy. reflexivity.
      * right. cbn [snd]. rewrite attempts_app. lia.
Defined.

(** C3, where the code departs from it.  A count of 0 is falsy: the
    dispatcher passes [undefined] instead, and the tool then takes its
    default of 5.  Asked for at most 0 entries of a list of six releases,
    [list_recent_releases] returns five. *)
Theorem count_zero_returns_five :
  exists recent h',
    run_tool (host := reference_host)
      (always (Resolved (mkResponse 200
         (JArray [release "r1" "2023-10-21T00:00:00Z" 0;
                  release "r2" "2023-10-22T00:00:00Z" 0;
                  release "r3" "2023-10-23T00:00:00Z" 0;
                  release "r4" "2023-10-24T00:00:00Z" 0;
                  release "r5" "2023-10-25T00:00:00Z" 0;
                  release "r6" "2023-10-26T00:00:00Z" 0]))))
      (mkCall "list_recent_releases"
         (Some [("project_slug", JString "web"); ("count", JNumber (Num 0))])) []
    = (Return (JArray recent), h')
    /\ List.length recent = 5%nat
    /\ map (fun e => member e "version") recent
       = [JString "r6"; JString "r5"; JString "r4"; JString "r3"; JString "r2"].
Proof.
  do 2 eexists. split; [vm_compute; reflexivity|]. split; reflexivity.
Qed.

(** C4.  On the same upstream reply, [list_recent_releases] called with a
    count that does not bound the list ([Infinity], or a number at least the
    length of the list) returns one entry per entry of [get_releases], in
    the same order and with the same version, date and new-issue count;
    each is the [get_releases] entry under its other property names plus
    the derived [type].  The organization and the project are the strings
    the two slugs convert to. *)
Theorem get_releases_is_unbounded_recent (host : Host) (upstream : Upstream)
  (params : list (string * value)) (count : value) (org project : string)
  (h h' : History) (resp : AxiosResponse) (rels : list value) :
  String_ (org_or_default params) = Return org ->
  String_ (prop params "project_slug") = Return project ->
  axios_get upstream (releases_path org project) [] h = (Return resp, h') ->
  data resp = JArray rels ->
  forallb release_like rels = true ->
  unbounded count (List.length rels) ->
  exists all recent,
    get_releases_exec upstream params h = (Return (JArray all), h')
    /\ list_recent_releases_exec upstream (("count", count) :: params) h
       = (Return (JArray recent), h')
    /\ recent = map recent_view all
    /\ map recent_data recent = map release_data all
    /\ List.length recent = List.length rels.
Proof.
  intros Ho Hp Hget Hdata Hlike Hcount. apply forallb_Forall in Hlike.
  destruct (getSortedReleases_typed upstream _ _ org project h h' resp rels
              Ho Hp Hget Hdata Hlike) as (sorted & Hperm & Hsorted).
  assert (Hlike' : Forall (fun v => release_like v = true) sorted).
  { eapply Permutation_Forall; [exact Hperm|exact Hlike]. }
  exists (map projection sorted), (map recent_view (map projection sorted)).
  split; [unfold get_releases_exec, bind, ret; rewrite Hsorted; reflexivity|].
  split.
  - destruct (Array_slice0_unbounded (map projection sorted) count)
      as (n & Hn & Hslice).
    { rewrite length_map, <- (Permutation_length Hperm). exact Hcount. }
    rewrite (list_recent_releases_on upstream (("count", count) :: params)
               h h' sorted n Hsorted Hlike' Hn).
    rewrite Hslice. reflexivity.
  - split; [reflexivity|]. split.
    + rewrite map_map. apply map_ext. intros e. reflexivity.
    + rewrite !length_map. symmetry. apply Permutation_length, Hperm.
Qed.

(** C4 on the reference host: three releases, count 10. *)
Lemma get_releases_is_unbounded_recent_witness :
  exists all recent,
    get_releases_exec (host := reference_host)
      (always (Resolved (mkResponse 200
         (JArray [release "a" "2023-10-26T15:00:00Z" 0;
                  release "mobile-b" "2023-10-27T10:30:00Z" 2;
                  release "c" "2023-10-25T09:00:00Z" 5]))))
      [("project_slug", JString "web")] []
    = (Return (JArray all), [EvRequest (mkRequest "projects/acme/web/releases/" [])])
    /\ list_recent_releases_exec (host := reference_host)
         (always (Resolved (mkResponse 200
            (JArray [release "a" "2023-10-26T15:00:00Z" 0;
                     release "mobile-b" "2023-10-27T10:30:00Z" 2;
                     release "c" "2023-10-25T09:00:00Z" 5]))))
         [("count", JNumber (Num 10)); ("project_slug", JString "web")] []
       = (Return (JArray recent),
          [EvRequest (mkRequest "projects/acme/web/releases/" [])])
    /\ map recent_data recent = map release_data all
    /\ List.length recent = 3%nat.
Proof.
  destruct (get_releases_is_unbounded_recent reference_host
              (always (Resolved (mkResponse 200
                 (JArray [release "a" "2023-10-26T15:00:00Z" 0;
                          release "mobile-b" "2023-10-27T10:30:00Z" 2;
                          release "c" "2023-10-25T09:00:00Z" 5]))))
              [("project_slug", JString "web")] (JNumber (Num 10))
              "acme" "web" []
              [EvRequest (mkRequest "projects/acme/web/releases/" [])]
              (mkResponse 200
                 (JArray [release "a" "2023-10-26T15:00:00Z" 0;
                          release "mobile-b" "2023-10-27T10:30:00Z" 2;
                          release "c" "2023-10-25T09:00:00Z" 5]))
              [release "a" "2023-10-26T15:00:00Z" 0;
               release "mobile-b" "2023-10-27T10:30:00Z" 2;
               release "c" "2023-10-25T09:00:00Z" 5]
              eq_refl eq_refl eq_refl eq_refl eq_refl ltac:(simpl; lia))
    as (all & recent & Hall & Hrecent & _ & Hdata & Hlen).
  exists all, recent. repeat split; assumption.
Defined.

(** C5.  Whatever order the upstream lists the releases in, [get_releases]
    returns them re-sorted by [dateCreated], newest first, and each entry cut
    down to exactly [version], [dateCreated] and [newGroups]: the result is
    a permutation of the projected upstream entries in which no entry is
    older than a later one.  In particular two releases come back newest
    first, whichever way round the upstream sent them.  The organization
    and the project are the strings the two slugs convert to. *)
Theorem get_releases_sorted_projection (host : Host) (upstream : Upstream)
  (params : list (string * value)) (org project : string) (h h' : History)
  (resp : AxiosResponse) (rels : list value) :
  String_ (org_or_default params) = Return org ->
  String_ (prop params "project_slug") = Return project ->
  axios_get upstream (releases_path org project) [] h = (Return resp, h') ->
  data resp = JArray rels ->
  forallb well_dated rels = true ->
  exists out,
    get_releases_exec upstream params h = (Return (JArray out), h')
    /\ Permutation (map projection rels) out
    /\ StronglySorted not_older out
    /\ Forall three_fields out
    /\ (forall a b ta tb,
          rels = [a; b] \/ rels = [b; a] ->
          release_time a = Some ta -> release_time b = Some tb -> ta < tb ->
          out = [projection b; projection a]).
Proof.
  intros Ho Hp Hget Hdata Hdated. apply forallb_Forall in Hdated.
  exists (map projection (sort_by_date rels)).
  split.
  { unfold get_releases_exec, bind, ret.
    rewrite (getSortedReleases_dated upstream _ _ org project h h' resp rels
               Ho Hp Hget Hdata Hdated).
    reflexivity. }
  split; [apply Permutation_map, sort_by_date_perm|].
  split; [apply StronglySorted_map_projection, sort_by_date_sorted; exact Hdated|].
  split.
  - apply Forall_map, Forall_forall. intros v _. unfold three_fields, projection.
    eauto.
  - intros a b ta tb Hrels Ea Eb Hlt.
    destruct Hrels as [-> | ->]; simpl; unfold date_order; rewrite Ea, Eb.
    + destruct (Z.leb_spec (tb - ta) 0); [lia|reflexivity].
    + destruct (Z.leb_spec (ta - tb) 0); [reflexivity|lia].
Qed.

(** C5 on the reference host: release [a] of 26 October and release [b] of
    27 October, sent oldest first, come back as [b], [a], without the extra
    property the upstream added. *)
Lemma get_releases_sorted_projection_witness :
  get_releases_exec (host := reference_host)
    (always (Resolved (mkResponse 200
       (JArray [release "a" "2023-10-26T15:00:00Z" 0;
                release "b" "2023-10-27T10:30:00Z" 2]))))
    [("project_slug", JString "web")] []
  = (Return (JArray
       [JObject [("version", JString "b");
                 ("dateCreated", JString "2023-10-27T10:30:00Z");
                 ("newGroups", JNumber (Num 2))];
        JObject [("version", JString "a");
                 ("dateCreated", JString "2023-10-26T15:00:00Z");
                 ("newGroups", JNumber (Num 0))]]),
     [EvRequest (mkRequest "projects/acme/web/releases/" [])]).
Proof.
  destruct (get_releases_sorted_projection reference_host
              (always (Resolved (mkResponse 200
                 (JArray [release "a" "2023-10-26T15:00:00Z" 0;
                          release "b" "2023-10-27T10:30:00Z" 2]))))
              [("project_slug", JString "web")] "acme" "web" []
              [EvRequest (mkRequest "projects/acme/web/releases/" [])]
              (mkResponse 200
                 (JArray [release "a" "2023-10-26T15:00:00Z" 0;
                          release "b" "2023-10-27T10:30:00Z" 2]))
              [release "a" "2023-10-26T15:00:00Z" 0;
               release "b" "2023-10-27T10:30:00Z" 2]
              eq_refl eq_refl eq_refl eq_refl eq_refl)
    as (out & Hexec & _ & _ & _ & Horder).
  rewrite Hexec.
  rewrite (Horder (release "a" "2023-10-26T15:00:00Z" 0)
                  (release "b" "2023-10-27T10:30:00Z" 2)
                  1698332400000 1698402600000
                  (or_introl eq_refl) eq_refl eq_refl eq_refl).
  reflexivity.
Defined.

(** C6, as the code has it.  [getLatestReleaseVersion] looks only at the
    first element of the raw release list, whatever the dates of the others:
    it throws [No releases found] when the list is empty or when that
    element has no version or an empty one, and otherwise returns that
    element's version.  [get_release_issues] without a [release_version]
    resolves the release by the same first element (throwing its own
    messages on an empty list or an empty version), asks for the project's
    id, and then searches the organization's issues with the query
    [release:"<version>"] for that exact version.  The organization, the
    project and the version in the URLs and the query are the strings the
    slugs and the version convert to. *)
Theorem latest_release_is_raw_first (host : Host) (upstream : Upstream) :
  (forall orgSlug projectSlug org project h h' resp,
      String_ orgSlug = Return org ->
      String_ projectSlug = Return project ->
      axios_get upstream (releases_url org project) [] h = (Return resp, h') ->
      data resp = JArray [] ->
      getLatestReleaseVersion upstream orgSlug projectSlug h
      = (Throw (Error_ "No releases found"), h'))
  /\ (forall orgSlug projectSlug org project h h' resp first rest,
        String_ orgSlug = Return org ->
        String_ projectSlug = Return project ->
        axios_get upstream (releases_url org project) [] h = (Return resp, h') ->
        data resp = JArray (first :: rest) ->
        getLatestReleaseVersion upstream orgSlug projectSlug h
        = if truthy (member first "version")
          then (Return (member first "version"), h')
          else (Throw (Error_ "No releases found"), h'))
  /\ (forall params org project h h1 resp,
        truthy (prop params "release_version") = false ->
        String_ (org_or_default params) = Return org ->
        String_ (prop params "project_slug") = Return project ->
        axios_get upstream (releases_url org project) [] h = (Return resp, h1) ->
        data resp = JArray [] ->
        get_release_issues_exec upstream params h
        = (Throw (Error_ ("No releases found for project " ^^ project)), h1))
  /\ (forall params org project h h1 resp first rest,
        truthy (prop params "release_version") = false ->
        String_ (org_or_default params) = Return org ->
        String_ (prop params "project_slug") = Return project ->
        axios_get upstream (releases_url org project) [] h = (Return resp, h1) ->
        data resp = JArray (first :: rest) ->
        is_object first = true ->
        truthy (member first "version") = false ->
        get_release_issues_exec upstream params h
        = (Throw (Error_ "Could not determine release version."), h1))
  /\ (forall params org project version h h1 h2 h3 resp first rest
             project_ projectId issues elems out,
        truthy (prop params "release_version") = false ->
        String_ (org_or_default params) = Return org ->
        String_ (prop params "project_slug") = Return project ->
        axios_get upstream (releases_url org project) [] h = (Return resp, h1) ->
        data resp = JArray (first :: rest) ->
        truthy (member first "version") = true ->
        String_ (member first "version") = Return version ->
        axios_get upstream (project_url org project) [] h1
        = (Return project_, h2) ->
        get (data project_) "id" = Return projectId ->
        axios_get upstream
          (SENTRY_BASE_URL ^^ "organizations/" ^^ org ^^ "/issues/")
          [("project", projectId);
           ("query", JString ("release:" ^^ dquote ^^ version ^^ dquote))] h2
        = (Return issues, h3) ->
        data issues = JArray elems ->
        Array_map issue_summary elems = Return out ->
        get_release_issues_exec upstream params h = (Return (JArray out), h3)).
Proof.
  split; [|split; [|split; [|split]]].
  - intros orgSlug projectSlug org project h h' resp Ho Hp Hget Hdata.
    unfold getLatestReleaseVersion, bind, lift. rewrite Ho, Hp.
    cbn [result_bind]. fold (releases_url org project).
    rewrite Hget, Hdata. reflexivity.
  - intros orgSlug projectSlug org project h h' resp first rest Ho Hp Hget Hdata.
    unfold getLatestReleaseVersion, bind, lift. rewrite Ho, Hp.
    cbn [result_bind]. fold (releases_url org project).
    rewrite Hget, Hdata. unfold member. cbn [nullish get0 result_bind].
    destruct first as [| | | | | |ps]; try reflexivity.
    cbn [nullish get]. destruct (truthy _); reflexivity.
  - intros params org project h h1 resp Hrv Ho Hp Hget Hdata.
    unfold get_release_issues_exec, bind, lift. rewrite Hrv. cbn [negb].
    rewrite Ho, Hp. cbn [result_bind]. fold (releases_url org project).
    rewrite Hget, Hdata. reflexivity.
  - intros params org project h h1 resp first rest Hrv Ho Hp Hget Hdata Hobj Hv.
    apply is_object_inv in Hobj as [ps ->].
    destruct (falsy_converts _ Hv) as [s Hs].
    unfold get_release_issues_exec, bind, lift. rewrite Hrv. cbn [negb].
    rewrite Ho, Hp. cbn [result_bind]. fold (releases_url org project).
    rewrite Hget, Hdata. rewrite get_object. unfold logDebug, bind, lift, ret.
    rewrite Hs, Hv. reflexivity.
  - intros params org project version h h1 h2 h3 resp first rest project_
           projectId issues elems out
           Hrv Ho Hp Hget Hdata Hv Hs Hproject Hid Hissues Helems Hout.
    unfold get_release_issues_exec, bind, lift. rewrite Hrv. cbn [negb].
    rewrite Ho, Hp. cbn [result_bind]. fold (releases_url org project).
    rewrite Hget, Hdata. rewrite (truthy_get _ _ Hv).
    unfold logDebug, bind, lift, ret. rewrite Hs, Hv. cbn [negb result_bind].
    fold (project_url org project). rewrite Hproject. cbn [result_bind].
    rewrite Hid. cbn [result_bind]. rewrite Hs. cbn [result_bind].
    rewrite Hissues, Helems.
    cbn [as_array result_bind]. rewrite Hout. reflexivity.
Qed.

(** C6 as stated fails on a non-empty list: a first element whose version
    is the empty string is taken for no release at all. *)
Lemma empty_version_counts_as_no_release :
  getLatestReleaseVersion (host := reference_host)
    (always (Resolved (mkResponse 200
       (JArray [release "" "2023-10-27T10:30:00Z" 1;
                release "web@1.0" "2023-10-26T15:00:00Z" 0]))))
    (JString "acme") (JString "web") []
  = (Throw (Error_ "No releases found"),
     [EvRequest
        (mkRequest "https://sentry.io/api/0/projects/acme/web/releases/" [])]).
Proof. reflexivity. Qed.

(** C6 on the reference host.  The upstream lists the older release first;
    both paths take it, not the newest, and the issue search is filtered by
    its version. *)
Lemma latest_release_is_raw_first_witness :
  getLatestReleaseVersion (host := reference_host)
    (routes [("/releases/",
                JArray [release "web@1.0" "2023-10-26T15:00:00Z" 0;
                        release "web@2.0" "2023-10-27T10:30:00Z" 2]);
             ("/issues/",
                JArray [JObject [("id", JString "7"); ("title", JString "Crash");
                                 ("permalink", JString "https://sentry.io/issues/7/")]]);
             ("projects/acme/web/", JObject [("id", JString "89")])])
    (JString "acme") (JString "web") []
  = (Return (JString "web@1.0"),
     [EvRequest
        (mkRequest "https://sentry.io/api/0/projects/acme/web/releases/" [])])
  /\ get_release_issues_exec (host := reference_host)
       (routes [("/releases/",
                   JArray [release "web@1.0" "2023-10-26T15:00:00Z" 0;
                           release "web@2.0" "2023-10-27T10:30:00Z" 2]);
                ("/issues/",
                   JArray [JObject [("id", JString "7"); ("title", JString "Crash");
                                    ("permalink", JString "https://sentry.io/issues/7/")]]);
                ("projects/acme/web/", JObject [("id", JString "89")])])
       [("project_slug", JString "web")] []
     = (Return (JArray
          [JObject [("id", JString "7"); ("title", JString "Crash");
                    ("permalink", JString "https://sentry.io/issues/7/")]]),
        [EvRequest
           (mkRequest "https://sentry.io/api/0/projects/acme/web/releases/" []);
         EvRequest (mkRequest "https://sentry.io/api/0/projects/acme/web/" []);
         EvRequest
           (mkRequest "https://sentry.io/api/0/organizations/acme/issues/"
              [("project", JString "89");
               ("query", JString ("release:" ^^ dquote ^^ "web@1.0" ^^ dquote))])]).
Proof.
  destruct (latest_release_is_raw_first reference_host
              (routes [("/releases/",
                          JArray [release "web@1.0" "2023-10-26T15:00:00Z" 0;
                                  release "web@2.0" "2023-10-27T10:30:00Z" 2]);
                       ("/issues/",
                          JArray [JObject [("id", JString "7");
                                           ("title", JString "Crash");
                                           ("permalink",
                                            JString "https://sentry.io/issues/7/")]]);
                       ("projects/acme/web/", JObject [("id", JString "89")])]))
    as (_ & Hlatest & _ & _ & Hissues).
  split.
  - rewrite (Hlatest (JString "acme") (JString "web") "acme" "web" []
               [EvRequest
                  (mkRequest "https://sentry.io/api/0/projects/acme/web/releases/" [])]
               (mkResponse 200
                  (JArray [release "web@1.0" "2023-10-26T15:00:00Z" 0;
                           release "web@2.0" "2023-10-27T10:30:00Z" 2]))
               (release "web@1.0" "2023-10-26T15:00:00Z" 0)
               [release "web@2.0" "2023-10-27T10:30:00Z" 2]
               eq_refl eq_refl eq_refl eq_refl).
    reflexivity.
  - apply (Hissues [("project_slug", JString "web")] "acme" "web" "web@1.0" []
             [EvRequest
                (mkRequest "https://sentry.io/api/0/projects/acme/web/releases/" [])]
             [EvRequest
                (mkRequest "https://sentry.io/api/0/projects/acme/web/releases/" []);
              EvRequest (mkRequest "https://sentry.io/api/0/projects/acme/web/" [])]
             _
             (mkResponse 200
                (JArray [release "web@1.0" "2023-10-26T15:00:00Z" 0;
                         release "web@2.0" "2023-10-27T10:30:00Z" 2]))
             (release "web@1.0" "2023-10-26T15:00:00Z" 0)
             [release "web@2.0" "2023-10-27T10:30:00Z" 2]
             (mkResponse 200 (JObject [("id", JString "89")]))
             (JString "89")
             (mkResponse 200
                (JArray [JObject [("id", JString "7"); ("title", JString "Crash");
                                  ("permalink",
                                   JString "https://sentry.io/issues/7/")]]))
             [JObject [("id", JString "7"); ("title", JString "Crash");
                       ("permalink", JString "https://sentry.io/issues/7/")]]
             _);
      reflexivity.
Defined.

(** C7.  For a call that passes the name guard the handler wraps the outcome
    of the tool in one text block.  When the tool returns [v], the envelope
    holds exactly the block whose text is [JSON.stringify(v)] (which exists)
    and carries no [isError] property, which reads as false; when the tool
    throws, the envelope holds exactly one text block, the serialized error
    payload, and [isError] is true.  Every envelope the handler returns has
    exactly one content block, of type [text]. *)
Theorem envelope_wraps_outcome (host : Host) (upstream : Upstream)
  (request : CallToolRequest) (h : History) :
  tool_not_found upstream request = false ->
  (forall v h',
      run_tool upstream request h = (Return v, h') ->
      exists t,
        JSON_stringify v = Some t
        /\ CallTool_handler upstream request h
           = (Return (mkEnvelope (JObject []) [mkBlock "text" (Some t)] None), h')
        /\ is_error (mkEnvelope (JObject []) [mkBlock "text" (Some t)] None) = false)
  /\ (forall e h',
        run_tool upstream request h = (Throw e, h') ->
        CallTool_handler upstream request h
        = (Return (mkEnvelope (JObject [])
                     [mkBlock "text" (JSON_stringify (error_payload e))]
                     (Some true)), h'))
  /\ (forall envelope h',
        CallTool_handler upstream request h = (Return envelope, h') ->
        exists block, content envelope = [block] /\ type_ block = "text").
Proof.
  intros G. rewrite (handler_returns_past_guard upstream request h G).
  split; [|split].
  - intros v h' Hrun.
    destruct (structured_has_text v (run_tool_structured upstream _ _ _ _ Hrun))
      as [t Ht].
    exists t. rewrite Hrun. unfold success_envelope. rewrite Ht. auto.
  - intros e h' Hrun. rewrite Hrun. reflexivity.
  - intros envelope h' H.
    destruct (run_tool upstream request h) as [[v|e] h1];
      inversion H; subst; eexists; split; reflexivity.
Qed.

(** C7 on the reference host: [get_issue] answered by the upstream. *)
Lemma envelope_wraps_outcome_witness :
  exists t,
    CallTool_handler (host := reference_host)
      (always (Resolved (mkResponse 200
         (JObject [("id", JString "42"); ("title", JString "Crash");
                   ("permalink", JString "https://sentry.io/issues/42/");
                   ("culprit", JString "main")]))))
      (mkCall "get_issue"
         (Some [("issue_id", JString "42"); ("org_slug", JString "acme");
                ("project_slug", JString "web")])) []
    = (Return (mkEnvelope (JObject []) [mkBlock "text" (Some t)] None),
       [EvRequest (mkRequest "/issues/42/" [])])
    /\ JSON_stringify
         (JObject [("id", JString "42"); ("title", JString "Crash");
                   ("permalink", JString "https://sentry.io/issues/42/")])
       = Some t.
Proof.
  destruct (envelope_wraps_outcome reference_host
              (always (Resolved (mkResponse 200
                 (JObject [("id", JString "42"); ("title", JString "Crash");
                           ("permalink", JString "https://sentry.io/issues/42/");
                           ("culprit", JString "main")]))))
              (mkCall "get_issue"
                 (Some [("issue_id", JString "42"); ("org_slug", JString "acme");
                        ("project_slug", JString "web")])) []
              eq_refl) as [Hok _].
  destruct (Hok (JObject [("id", JString "42"); ("title", JString "Crash");
                          ("permalink", JString "https://sentry.io/issues/42/")])
              [EvRequest (mkRequest "/issues/42/" [])] eq_refl)
    as (t & Ht & Hcall & _).
  exists t. split; [exact Hcall|exact Ht].
Defined.

(** C8.  Whenever a registered tool is called with an argument record that
    lacks one of the fields its schema requires (or with no record at all),
    the validation throws [Invalid arguments for <tool> - requires
    <requirement>] before the tool's execution function is reached, so
    nothing is sent upstream, and the dispatcher returns the envelope with
    the one text block
    [{"error":"Failed to execute tool","details":"Invalid arguments for
    <tool> - requires <requirement>"}] and [isError] true.  The requirement,
    and with it the details and the text of the block, names the missing
    field. *)
Theorem missing_required_field_rejected (host : Host) (upstream : Upstream)
  (tool field : string) (arguments_ : option (list (string * value)))
  (h : History) :
  In tool (Object_keys (tools upstream)) ->
  In field (required_fields tool) ->
  supplied field arguments_ = false ->
  exists requirement msg,
    msg = "Invalid arguments for " ^^ tool ^^ " - requires " ^^ requirement
    /\ run_tool upstream (mkCall tool arguments_) h = (Throw (Error_ msg), h)
    /\ CallTool_handler upstream (mkCall tool arguments_) h
       = (Return (mkEnvelope (JObject [])
                    [mkBlock "text" (Some (error_text msg))] (Some true)), h)
    /\ member (error_payload (Error_ msg)) "details" = JString msg
    /\ String_includes field requirement = true
    /\ String_includes field msg = true
    /\ String_includes field (error_text msg) = true.
Proof.
  intros Htool Hfield Hmissing.
  exists (if String.eqb tool "get_issue"
          then "issue_id, org_slug and project_slug" else "project_slug").
  eexists. split; [reflexivity|].
  assert (Hcall : forall msg,
             run_tool upstream (mkCall tool arguments_) h = (Throw (Error_ msg), h) ->
             CallTool_handler upstream (mkCall tool arguments_) h
             = (Return (mkEnvelope (JObject [])
                          [mkBlock "text" (Some (error_text msg))] (Some true)),
                h)).
  { intros msg Hrun. rewrite handler_returns_past_guard.
    - rewrite Hrun. reflexivity.
    - apply registered_passes_guard. cbn [name].
      apply existsb_exists. exists tool.
      split; [exact Htool|apply String.eqb_refl]. }
  assert (Hrun : run_tool upstream (mkCall tool arguments_) h
                 = (Throw (Error_ ("Invalid arguments for " ^^ tool
                                     ^^ " - requires "
                                     ^^ (if String.eqb tool "get_issue"
                                         then "issue_id, org_slug and project_slug"
                                         else "project_slug"))), h)
                 /\ String_includes field
                      (if String.eqb tool "get_issue"
                       then "issue_id, org_slug and project_slug"
                       else "project_slug") = true
                 /\ String_includes field
                      ("Invalid arguments for " ^^ tool ^^ " - requires "
                         ^^ (if String.eqb tool "get_issue"
                             then "issue_id, org_slug and project_slug"
                             else "project_slug")) = true
                 /\ String_includes field
                      (error_text
                         ("Invalid arguments for " ^^ tool ^^ " - requires "
                            ^^ (if String.eqb tool "get_issue"
                                then "issue_id, org_slug and project_slug"
                                else "project_slug"))) = true).
  { rewrite tools_keys in Htool. simpl in Htool.
    destruct Htool as [E|[E|[E|[E|[E|[E|[]]]]]]]; subst tool;
      cbn in Hfield;
      repeat (destruct Hfield as [Hfield|Hfield]; [subst field|]);
      try contradiction;
      (split; [|split; [vm_compute; reflexivity
                       |split; vm_compute; reflexivity]]);
      unfold run_tool;
      cbn -[has_all list_recent_releases_exec get_releases_exec get_issue_exec
            get_release_issues_exec get_release_health_exec inspect_sentry_exec
            bind lift];
      match goal with
      | Hm : supplied ?f arguments_ = false
        |- context [has_all ?keys arguments_] =>
          rewrite (has_all_missing keys f arguments_ ltac:(simpl; tauto) Hm)
      end;
      reflexivity. }
  destruct Hrun as (Hrun & Hreq & Hmsg & Htext).
  split; [exact Hrun|]. split; [exact (Hcall _ Hrun)|].
  split; [reflexivity|]. split; [exact Hreq|]. split; [exact Hmsg|exact Htext].
Qed.

(** The example of the specification: [get_issue] without [project_slug]. *)
Lemma missing_required_field_rejected_witness :
  exists requirement,
    String_includes "project_slug" requirement = true
    /\ CallTool_handler (host := reference_host) (always (Rejected "unreachable"))
         (mkCall "get_issue"
            (Some [("issue_id", JString "42"); ("org_slug", JString "acme")])) []
       = (Return (mkEnvelope (JObject [])
                    [mkBlock "text"
                       (Some (error_text
                                ("Invalid arguments for get_issue - requires "
                                   ^^ requirement)))]
                    (Some true)), []).
Proof.
  destruct (missing_required_field_rejected reference_host
              (always (Rejected "unreachable")) "get_issue" "project_slug"
              (Some [("issue_id", JString "42"); ("org_slug", JString "acme")]) [])
    as (requirement & msg & Emsg & _ & Hcall & _ & Hreq & _).
  - simpl. tauto.
  - simpl. tauto.
  - reflexivity.
  - exists requirement. split; [exact Hreq|].
    rewrite Hcall, Emsg. reflexivity.
Defined.

(** C9.  The capability descriptor and the tool registry list the same six
    names, each once, so name-to-name is a bijection between them: every
    described tool has its execution function in the registry and the
    list-tools handler describes every registered tool.  The registry's
    [inspect_sentry] returns as [capabilities] exactly the other five names:
    every registered name except its own. *)
Theorem capabilities_match_registry (host : Host) (upstream : Upstream) :
  Object_keys serverCapabilities_tools = Object_keys (tools upstream)
  /\ map (fun t => fst (fst t)) ListTools_handler = Object_keys (tools upstream)
  /\ Object_keys (tools upstream)
     = ["inspect_sentry"; "list_recent_releases"; "get_releases";
        "get_release_health"; "get_issue"; "get_release_issues"]
  /\ NoDup (Object_keys (tools upstream))
  /\ (forall k, In k (Object_keys serverCapabilities_tools) ->
                exists exec, registry_exec (tools upstream) k = Some exec)
  /\ exists exec capabilities,
       registry_exec (tools upstream) "inspect_sentry" = Some exec
       /\ (forall params h,
             exists v, exec params h = (Return v, h)
                       /\ member v "capabilities" = JArray (map JString capabilities))
       /\ ~ In "inspect_sentry" capabilities
       /\ (forall k, In k (Object_keys (tools upstream)) ->
                     k <> "inspect_sentry" -> In k capabilities)
       /\ (forall k, In k capabilities -> In k (Object_keys (tools upstream))).
Proof.
  split; [reflexivity|]. split; [reflexivity|]. split; [reflexivity|]. split.
  - rewrite tools_keys.
    repeat (constructor; [simpl; intuition discriminate|]). constructor.
  - split.
    + intros k Hk. simpl in Hk.
      repeat (destruct Hk as [<-|Hk]; [eexists; reflexivity|]).
      contradiction.
    + exists (inspect_sentry_exec (Object_keys (tools upstream))),
             (filter_out "inspect_sentry" (Object_keys (tools upstream))).
      split; [reflexivity|]. split.
      * intros params h. eexists. split; reflexivity.
      * rewrite tools_keys. simpl. split; [intuition discriminate|].
        split; intros k Hk; intuition.
Qed.

(** C10, as the code has it.  The dispatcher converts all three arguments
    of [get_issue] to strings before the tool runs.  Two calls whose
    argument records both carry [issue_id], [org_slug] and [project_slug],
    agree on an [issue_id] that converts, and whose slugs convert, do the
    same thing whatever the slugs are: the same request
    [/issues/<issue_id>/] goes out first and the same envelope comes back.
    The execution function itself reads no property but [issue_id].  A
    slug that does not convert (an object with a [toString] property of its
    own) ends the call with the error envelope of the conversion, and
    nothing is sent. *)
Theorem get_issue_ignores_slugs (host : Host) (upstream : Upstream)
  (args1 args2 : list (string * value)) (issue_id : string) (h : History) :
  forallb (fun k => has_key k args1) ["issue_id"; "org_slug"; "project_slug"] = true ->
  forallb (fun k => has_key k args2) ["issue_id"; "org_slug"; "project_slug"] = true ->
  prop args1 "issue_id" = prop args2 "issue_id" ->
  String_ (prop args1 "issue_id") = Return issue_id ->
  ((exists org1 project1 org2 project2,
       String_ (prop args1 "org_slug") = Return org1
       /\ String_ (prop args1 "project_slug") = Return project1
       /\ String_ (prop args2 "org_slug") = Return org2
       /\ String_ (prop args2 "project_slug") = Return project2) ->
   CallTool_handler upstream (mkCall "get_issue" (Some args1)) h
   = CallTool_handler upstream (mkCall "get_issue" (Some args2)) h
   /\ exists out tail,
        CallTool_handler upstream (mkCall "get_issue" (Some args1)) h
        = (Return out,
           h ++ EvRequest (mkRequest ("/issues/" ^^ issue_id ^^ "/") [])
             :: tail))
  /\ (forall params1 params2 : list (string * value),
        prop params1 "issue_id" = prop params2 "issue_id" ->
        get_issue_exec upstream params1 h = get_issue_exec upstream params2 h)
  /\ ((exists e, String_ (prop args1 "org_slug") = Throw e)
      \/ (exists e, String_ (prop args1 "project_slug") = Throw e) ->
      CallTool_handler upstream (mkCall "get_issue" (Some args1)) h
      = (Return (mkEnvelope (JObject [])
                   [mkBlock "text"
                      (Some (error_text
                               "Cannot convert object to primitive value"))]
                   (Some true)), h)).
Proof.
  intros H1 H2 Hid Hi. split; [|split].
  - intros (org1 & project1 & org2 & project2 & Ho1 & Hp1 & Ho2 & Hp2).
    assert (Hi2 : String_ (prop args2 "issue_id") = Return issue_id)
      by (rewrite <- Hid; exact Hi).
    rewrite (handler_get_issue upstream args1 issue_id org1 project1 h
               H1 Hi Ho1 Hp1).
    rewrite (handler_get_issue upstream args2 issue_id org2 project2 h
               H2 Hi2 Ho2 Hp2).
    split; [reflexivity|].
    rewrite axios_get_retry_policy.
    match goal with
    | |- context [retry_policy ?u ?b ?n ?r ?h0] =>
        destruct (retry_policy u b n r h0) as [out h'] eqn:E
    end.
    destruct (retry_policy_extends _ _ _ _ _ _ _ E) as [tail ->].
    destruct out as [resp|e].
    + destruct (issue_summary (data resp)); do 2 eexists; reflexivity.
    + do 2 eexists; reflexivity.
  - intros p1 p2 E. unfold get_issue_exec. rewrite E. reflexivity.
  - intros Hc.
    rewrite (handler_get_issue_unconverted upstream args1 h H1);
      [reflexivity|tauto].
Qed.

(** C10 as stated fails: with the same [issue_id], an [org_slug] that is an
    object with a [toString] property of its own ends the call with an
    error envelope and no request, where the call with a string as
    [org_slug] sends the request and returns the issue. *)
Lemma get_issue_slug_not_convertible :
  CallTool_handler (host := reference_host)
    (always (Resolved (mkResponse 200
       (JObject [("id", JString "42"); ("title", JString "Crash");
                 ("permalink", JString "https://sentry.io/issues/42/")]))))
    (mkCall "get_issue"
       (Some [("issue_id", JString "42");
              ("org_slug", JObject [("toString", JNumber (Num 1))]);
              ("project_slug", JString "web")])) []
  = (Return (mkEnvelope (JObject [])
               [mkBlock "text"
                  (Some (error_text "Cannot convert object to primitive value"))]
               (Some true)), [])
  /\ (exists t,
        CallTool_handler (host := reference_host)
          (always (Resolved (mkResponse 200
             (JObject [("id", JString "42"); ("title", JString "Crash");
                       ("permalink", JString "https://sentry.io/issues/42/")]))))
          (mkCall "get_issue"
             (Some [("issue_id", JString "42"); ("org_slug", JString "acme");
                    ("project_slug", JString "web")])) []
        = (Return (mkEnvelope (JObject []) [mkBlock "text" (Some t)] None),
           [EvRequest (mkRequest "/issues/42/" [])]))
  /\ CallTool_handler (host := reference_host)
       (always (Resolved (mkResponse 200
          (JObject [("id", JString "42"); ("title", JString "Crash");
                    ("permalink", JString "https://sentry.io/issues/42/")]))))
       (mkCall "get_issue"
          (Some [("issue_id", JString "42");
                 ("org_slug", JObject [("toString", JNumber (Num 1))]);
                 ("project_slug", JString "web")])) []
     <> CallTool_handler (host := reference_host)
          (always (Resolved (mkResponse 200
             (JObject [("id", JString "42"); ("title", JString "Crash");
                       ("permalink", JString "https://sentry.io/issues/42/")]))))
          (mkCall "get_issue"
             (Some [("issue_id", JString "42"); ("org_slug", JString "acme");
                    ("project_slug", JString "web")])) [].
Proof.
  split; [reflexivity|]. split; [eexists; reflexivity|].
  intros H. apply (f_equal snd) in H. discriminate H.
Qed.

(** The two calls of C10 on the reference host: same issue, other slugs. *)
Lemma get_issue_ignores_slugs_witness :
  CallTool_handler (host := reference_host)
    (always (Resolved (mkResponse 200
       (JObject [("id", JString "42"); ("title", JString "Crash");
                 ("permalink", JString "https://sentry.io/issues/42/")]))))
    (mkCall "get_issue"
       (Some [("issue_id", JString "42"); ("org_slug", JString "acme");
              ("project_slug", JString "web")])) []
  = CallTool_handler (host := reference_host)
    (always (Resolved (mkResponse 200
       (JObject [("id", JString "42"); ("title", JString "Crash");
                 ("permalink", JString "https://sentry.io/issues/42/")]))))
    (mkCall "get_issue"
       (Some [("issue_id", JString "42"); ("org_slug", JNumber (Num 7));
              ("project_slug", JString "mobile")])) [].
Proof.
  destruct (get_issue_ignores_slugs reference_host
              (always (Resolved (mkResponse 200
                 (JObject [("id", JString "42"); ("title", JString "Crash");
                           ("permalink", JString "https://sentry.io/issues/42/")]))))
              [("issue_id", JString "42"); ("org_slug", JString "acme");
               ("project_slug", JString "web")]
              [("issue_id", JString "42"); ("org_slug", JNumber (Num 7));
               ("project_slug", JString "mobile")] "42" []
              eq_refl eq_refl eq_refl eq_refl) as [Hsame _].
  destruct Hsame as [Hsame _]; [|exact Hsame].
  exists "acme", "web", "7", "mobile". repeat split.
Defined.

(* ===================================================================== *)
(** * Further properties of the tools *)
(* ===================================================================== *)

(** X1.  Called through the dispatcher with a positive number [n] as
    [count], [list_recent_releases] returns at most [n] entries, newest
    first; called without [count] it returns at most 5.  The organization
    is the one the call is made for, the project the string its slug
    converts to. *)
Theorem positive_count_bounds_recent_releases (host : Host) (upstream : Upstream)
  (args : list (string * value)) (org project : string) (h h' : History)
  (resp : AxiosResponse) (rels : list value) (n : Z) :
  has_key "project_slug" args = true ->
  effective_org args = Return org ->
  String_ (prop args "project_slug") = Return project ->
  axios_get upstream (releases_path org project) [] h = (Return resp, h') ->
  data resp = JArray rels ->
  forallb release_like rels = true ->
  forallb well_dated rels = true ->
  prop args "count" = JNumber (Num n) /\ 0 < n
  \/ prop args "count" = JUndefined /\ n = 5 ->
  exists recent,
    run_tool upstream (mkCall "list_recent_releases" (Some args)) h
    = (Return (JArray recent), h')
    /\ Z.of_nat (List.length recent) <= n
    /\ StronglySorted recent_not_older recent.
Proof.
  intros Hk Ho Hp Hget Hdata Hlike Hdated Hcount.
  rewrite (run_list_recent_releases upstream args h Hk).
  destruct (org_or_default_effective args
              [("count", if truthy (prop args "count")
                         then prop args "count" else JUndefined)]
              (JString project) JUndefined org
              (or_introl eq_refl) Ho) as (org_slug & Hs & Hd).
  assert (Hc : (if truthy (prop args "count")
                then let+ c := Number_ (prop args "count") in Return (JNumber c)
                else Return JUndefined)
               = Return (if truthy (prop args "count")
                         then prop args "count" else JUndefined)).
  { destruct Hcount as [[-> Hn]|[-> _]]; [|reflexivity].
    destruct (truthy (JNumber (Num n))); reflexivity. }
  unfold bind at 1. unfold lift at 1. rewrite Hp, Hs, Hc. cbn [result_bind].
  apply (list_recent_releases_at_most upstream _ org project h h' resp rels n);
    try assumption.
  - rewrite Hd. reflexivity.
  - reflexivity.
  - match goal with
    | |- context [prop [?a; ?b; ("count", ?c)] "count"] =>
        change (prop [a; b; ("count", c)] "count") with c
    end.
    destruct Hcount as [[E Hn]|[E ->]]; rewrite E; [left|right]; split; auto.
    cbn. destruct (Z.eqb_spec n 0); [lia|reflexivity].
Qed.

(** X1 on the reference host: three releases, count 2. *)
Lemma positive_count_bounds_recent_releases_witness :
  exists recent,
    run_tool (host := reference_host)
      (always (Resolved (mkResponse 200
         (JArray [release "a" "2023-10-26T15:00:00Z" 0;
                  release "mobile-b" "2023-10-27T10:30:00Z" 2;
                  release "c" "2023-10-25T09:00:00Z" 5]))))
      (mkCall "list_recent_releases"
         (Some [("project_slug", JString "web"); ("count", JNumber (Num 2))])) []
    = (Return (JArray recent),
       [EvRequest (mkRequest "projects/acme/web/releases/" [])])
    /\ Z.of_nat (List.length recent) <= 2.
Proof.
  destruct (positive_count_bounds_recent_releases reference_host
              (always (Resolved (mkResponse 200
                 (JArray [release "a" "2023-10-26T15:00:00Z" 0;
                          release "mobile-b" "2023-10-27T10:30:00Z" 2;
                          release "c" "2023-10-25T09:00:00Z" 5]))))
              [("project_slug", JString "web"); ("count", JNumber (Num 2))]
              "acme" "web" []
              [EvRequest (mkRequest "projects/acme/web/releases/" [])]
              (mkResponse 200
                 (JArray [release "a" "2023-10-26T15:00:00Z" 0;
                          release "mobile-b" "2023-10-27T10:30:00Z" 2;
                          release "c" "2023-10-25T09:00:00Z" 5]))
              [release "a" "2023-10-26T15:00:00Z" 0;
               release "mobile-b" "2023-10-27T10:30:00Z" 2;
               release "c" "2023-10-25T09:00:00Z" 5]
              2 eq_refl eq_refl eq_refl eq_refl eq_refl eq_refl eq_refl
              (or_introl (conj eq_refl eq_refl)))
    as (recent & Hrun & Hlen & _).
  exists recent. split; assumption.
Defined.

(** X2.  The [get_release_issues] branch of the dispatcher builds the
    tool's parameters from [project_slug] and [org_slug] only: a
    [release_version] argument never reaches the tool, so a call with one
    behaves as the call without it and resolves the latest release. *)
Theorem release_issues_ignores_release_version (host : Host)
  (upstream : Upstream) (args : list (string * value)) (v : value)
  (h : History) :
  CallTool_handler upstream
    (mkCall "get_release_issues" (Some (("release_version", v) :: args))) h
  = CallTool_handler upstream (mkCall "get_release_issues" (Some args)) h.
Proof.
  rewrite !handler_returns_past_guard by reflexivity.
  assert (E : run_tool upstream
                (mkCall "get_release_issues" (Some (("release_version", v) :: args))) h
              = run_tool upstream (mkCall "get_release_issues" (Some args)) h).
  { unfold run_tool. cbn [name arguments]. unfold has_all.
    cbn -[get_release_issues_exec String_ truthy has_key bind lift string_or].
    change (has_key "project_slug" (("release_version", v) :: args))
      with (has_key "project_slug" args).
    destruct (has_key "project_slug" args); reflexivity. }
  rewrite E. reflexivity.
Qed.

(** X3.  [list_recent_releases] marks an entry [mobile] exactly when the
    version string of the release contains [mobile] somewhere, and
    [desktop] otherwise. *)
Theorem mobile_classification (ps : list (string * value))
  (version : string) :
  lookup "version" ps = Some (JString version) ->
  exists entry,
    recent_entry (projection (JObject ps)) = Return entry
    /\ member entry "version" = JString version
    /\ (member entry "type" = JString "mobile"
        \/ member entry "type" = JString "desktop")
    /\ (member entry "type" = JString "mobile"
        <-> exists pre post, version = pre ^^ "mobile" ^^ post).
Proof.
  intros Hv. exists (recent_view (projection (JObject ps))).
  assert (Hm : member (JObject ps) "version" = JString version).
  { unfold member. simpl. rewrite Hv. reflexivity. }
  split.
  - unfold recent_entry, recent_view, projection. rewrite !get_object.
    cbn [result_bind].
    change (member (JObject [("version", member (JObject ps) "version");
                             ("dateCreated", member (JObject ps) "dateCreated");
                             ("newGroups", member (JObject ps) "newGroups")])
              "version") with (member (JObject ps) "version").
    rewrite Hm. reflexivity.
  - unfold recent_view.
    change (member (projection (JObject ps)) "version")
      with (member (JObject ps) "version").
    rewrite Hm. rewrite <- String_includes_spec.
    unfold member. cbn [get lookup String.eqb Ascii.eqb Bool.eqb].
    split; [reflexivity|].
    destruct (String_includes "mobile" version); split; auto;
      split; intros H; try reflexivity; discriminate H.
Qed.

(** X3 on the example of the specification. *)
Lemma mobile_classification_witness :
  exists entry,
    recent_entry
      (projection (release "mobile-app@1.0" "2023-10-25T09:00:00Z" 5))
    = Return entry
    /\ member entry "type" = JString "mobile".
Proof.
  destruct (mobile_classification
              [("version", JString "mobile-app@1.0");
               ("dateCreated", JString "2023-10-25T09:00:00Z");
               ("newGroups", JNumber (Num 5));
               ("shortVersion", JString "mobile-app@1.0")]
              "mobile-app@1.0" eq_refl)
    as (entry & Hentry & _ & _ & Hmobile).
  exists entry. split; [exact Hentry|].
  apply Hmobile. exists "", "-app@1.0". reflexivity.
Defined.

(** X4.  Every call to the HTTP client leaves one of four traces: the
    request once, or followed by one, two or three retries with waits of
    1000, 2000 and 3000 ms before them (500 k (k+1) ms in all for k
    retries).  A reply handed to the caller is the reply the upstream gave
    to the last attempt; an error is thrown only after the third retry, and
    it is the failure of that last attempt. *)
Theorem client_call_trace (upstream : Upstream) (u : string)
  (ps : list (string * value)) (h : History) :
  exists k,
    (k <= 3)%nat
    /\ snd (axios_get upstream u ps h) = h ++ retry_trace (mkRequest u ps) 1 k
    /\ waited (retry_trace (mkRequest u ps) 1 k)
       = 500 * Z.of_nat k * (Z.of_nat k + 1)
    /\ match fst (axios_get upstream u ps h) with
       | Return resp =>
           upstream (removelast (snd (axios_get upstream u ps h)))
             (mkRequest u ps) = Resolved resp
       | Throw e =>
           k = 3%nat
           /\ exists m,
                e = AxiosError m
                /\ upstream (removelast (snd (axios_get upstream u ps h)))
                     (mkRequest u ps) = Rejected m
       end.
Proof. exact (axios_get_trace upstream u ps h). Qed.

(** X5.  One tool call never makes more calls to the client than its tool
    needs: none for [inspect_sentry], three for [get_release_issues], two
    for [get_release_health], one for the others.  Each call to the client
    has its own retry budget, so a tool call sends at most four attempts and
    waits at most six seconds per call to the client (twelve attempts and 18
    seconds at most), and it only ever appends to the history. *)
Theorem tool_call_budget (host : Host) (upstream : Upstream)
  (request : CallToolRequest) (h : History) :
  exists tail,
    snd (CallTool_handler upstream request h) = h ++ tail
    /\ (attempts tail <= 4 * client_calls (name request))%nat
    /\ 0 <= waited tail <= 6000 * Z.of_nat (client_calls (name request))
    /\ (client_calls (name request) <= 3)%nat.
Proof.
  assert (B : bounded (client_calls (name request))
                (CallTool_handler upstream request)).
  { unfold CallTool_handler.
    destruct (tool_not_found upstream request).
    - apply (bounded_weaken 0); [lia|apply bounded_throw].
    - apply bounded_try_catch; [|intros; apply bounded_ret].
      replace (client_calls (name request))
        with (client_calls (name request) + 0)%nat by lia.
      apply bounded_bind; [|intros; apply bounded_ret].
      apply (program_bounded _ _ _ (run_tool_program request)). }
  destruct (B h) as (tail & Hh & Ha & Hw).
  exists tail. repeat split; try assumption; try lia.
  unfold client_calls.
  repeat match goal with |- context [if ?b then _ else _] => destruct b end; lia.
Qed.

(** X6.  Whenever [get_releases] returns, the two slugs converted to
    strings, the upstream answered the release list request with an array,
    and the result is that array reordered and cut down: one entry per
    upstream element, each with exactly the properties [version],
    [dateCreated] and [newGroups] of its element.  It never returns a
    success on a payload that is not an array, and it never adds or drops a
    release. *)
Theorem get_releases_keeps_every_release (host : Host) (upstream : Upstream)
  (params : list (string * value)) (h h' : History) (v : value) :
  get_releases_exec upstream params h = (Return v, h') ->
  exists org project resp rels sorted,
    String_ (org_or_default params) = Return org
    /\ String_ (prop params "project_slug") = Return project
    /\ axios_get upstream (releases_path org project) [] h = (Return resp, h')
    /\ data resp = JArray rels
    /\ Permutation rels sorted
    /\ v = JArray (map projection sorted)
    /\ Forall three_fields (map projection sorted)
    /\ List.length (map projection sorted) = List.length rels.
Proof.
  unfold get_releases_exec. intros H.
  apply bind_Return in H as (out & h1 & Hs & H).
  unfold ret in H. inversion H; subst.
  destruct (getSortedReleases_Return upstream _ _ _ _ _ Hs)
    as (org & project & resp & rels & sorted & Ho & Hp & Hget & Hdata & Hperm & ->).
  exists org, project, resp, rels, sorted. repeat split; try assumption.
  - apply Forall_map, Forall_forall. intros x _.
    unfold three_fields, projection. eauto.
  - rewrite length_map. symmetry. apply Permutation_length. exact Hperm.
Qed.

(** X6 on the reference host: three releases come back as three entries. *)
Lemma get_releases_keeps_every_release_witness :
  exists sorted,
    get_releases_exec (host := reference_host)
      (always (Resolved (mkResponse 200
         (JArray [release "a" "2023-10-26T15:00:00Z" 0;
                  release "b" "2023-10-25T09:00:00Z" 2;
                  release "c" "2023-10-27T10:30:00Z" 5]))))
      [("project_slug", JString "web")] []
    = (Return (JArray (map projection sorted)),
       [EvRequest (mkRequest "projects/acme/web/releases/" [])])
    /\ List.length (map projection sorted) = 3%nat.
Proof.
  destruct (get_releases_keeps_every_release reference_host
              (always (Resolved (mkResponse 200
                 (JArray [release "a" "2023-10-26T15:00:00Z" 0;
                          release "b" "2023-10-25T09:00:00Z" 2;
                          release "c" "2023-10-27T10:30:00Z" 5]))))
              [("project_slug", JString "web")] []
              [EvRequest (mkRequest "projects/acme/web/releases/" [])]
              (JArray (map projection
                 [release "c" "2023-10-27T10:30:00Z" 5;
                  release "a" "2023-10-26T15:00:00Z" 0;
                  release "b" "2023-10-25T09:00:00Z" 2]))
              eq_refl)
    as (org & project & resp & rels & sorted & _ & _ & Hget & Hdata & _ & Hv
        & _ & Hlen).
  exists sorted. split.
  - rewrite <- Hv. reflexivity.
  - rewrite Hlen. inversion Hget; subst resp. simpl in Hdata.
    inversion Hdata. reflexivity.
Defined.

(** X7.  Whenever [list_recent_releases] returns, its entries are the first
    entries of what [get_releases] returns on the same reply, one for one
    with the same version, date and new-issue count and a type that is
    [mobile] or [desktop].  Their number is fixed by the number [count]
    converts to (5 when it is absent or 0): a count of at least 0 keeps at
    most that many, a negative count [-k] drops the [k] oldest releases
    instead, and [Infinity] keeps all. *)
Theorem recent_releases_are_a_prefix (host : Host) (upstream : Upstream)
  (params : list (string * value)) (h h' : History) (v : value) :
  list_recent_releases_exec upstream params h = (Return v, h') ->
  exists all entries n,
    get_releases_exec upstream params h = (Return (JArray all), h')
    /\ v = JArray entries
    /\ Number_ (js_or (prop params "count") (JNumber (Num 5))) = Return n
    /\ List.length entries = kept n (List.length all)
    /\ Forall2 (fun r e => recent_data r = release_data e
                           /\ (member r "type" = JString "mobile"
                               \/ member r "type" = JString "desktop"))
         entries (firstn (List.length entries) all).
Proof.
  unfold list_recent_releases_exec, get_releases_exec. intros H.
  apply bind_Return in H as (releases & h1 & Hs & H).
  apply lift_Return in H as [H ->].
  apply result_bind_Return in H as (n & Hn & H).
  apply result_bind_Return in H as (entries & He & H). inversion H; subst v.
  exists releases, entries, n. unfold bind. rewrite Hs.
  split; [reflexivity|]. split; [reflexivity|]. split; [exact Hn|].
  rewrite Array_slice0_kept in He. apply Array_map_recent_Return in He.
  assert (L : List.length entries = kept n (List.length releases)).
  { rewrite (Forall2_length He), length_firstn. apply Nat.min_l, kept_le. }
  split; [exact L|]. rewrite L. exact He.
Qed.

(** X7 on the reference host: a count of -1 drops the oldest of three. *)
Lemma recent_releases_are_a_prefix_witness :
  exists all entries,
    get_releases_exec (host := reference_host)
      (always (Resolved (mkResponse 200
         (JArray [release "a" "2023-10-26T15:00:00Z" 0;
                  release "mobile-b" "2023-10-27T10:30:00Z" 2;
                  release "c" "2023-10-25T09:00:00Z" 5]))))
      [("project_slug", JString "web"); ("count", JNumber (Num (-1)))] []
    = (Return (JArray all), [EvRequest (mkRequest "projects/acme/web/releases/" [])])
    /\ map (fun r => member r "version") entries
       = [JString "mobile-b"; JString "a"]
    /\ List.length entries = kept (Num (-1)) (List.length all).
Proof.
  destruct (recent_releases_are_a_prefix reference_host
              (always (Resolved (mkResponse 200
                 (JArray [release "a" "2023-10-26T15:00:00Z" 0;
                          release "mobile-b" "2023-10-27T10:30:00Z" 2;
                          release "c" "2023-10-25T09:00:00Z" 5]))))
              [("project_slug", JString "web"); ("count", JNumber (Num (-1)))] []
              [EvRequest (mkRequest "projects/acme/web/releases/" [])]
              (JArray (map recent_view (map projection
                 [release "mobile-b" "2023-10-27T10:30:00Z" 2;
                  release "a" "2023-10-26T15:00:00Z" 0])))
              eq_refl)
    as (all & entries & n & Hall & Hv & Hn & Hlen & _).
  exists all, entries. split; [exact Hall|].
  inversion Hv; subst entries. inversion Hn; subst n.
  split; [reflexivity|exact Hlen].
Defined.



(** X9.  [get_release_health] puts the release version into the URL it
    requests percent-encoded, as [encodeURIComponent] writes it.  A
    version that cannot be encoded (one with a lone surrogate) ends the
    call with [URIError: URI malformed] and nothing is sent.  Otherwise the
    first request goes to the release URL with the encoded version, which
    holds only unreserved characters and [%] (so no [/], [?], [#] or
    space), can be read back to the version, and is the encoding of no
    other text: two versions reach the same URL only when they are the
    same. *)
Theorem release_version_is_percent_encoded (host : Host) (upstream : Upstream)
  (params : list (string * value)) (org project version : string)
  (h : History) :
  String_ (org_or_default params) = Return org ->
  String_ (prop params "project_slug") = Return project ->
  truthy (prop params "release_version") = true ->
  String_ (prop params "release_version") = Return version ->
  (well_formed version = false ->
   encodeURIComponent version = Throw (URIError "URI malformed")
   /\ get_release_health_exec upstream params h
      = (Throw (URIError "URI malformed"), h))
  /\ (well_formed version = true ->
      exists encoded tail,
        encodeURIComponent version = Return encoded
        /\ snd (get_release_health_exec upstream params h)
           = h ++ EvRequest
                    (mkRequest
                       (SENTRY_BASE_URL ^^ "projects/" ^^ org ^^ "/" ^^ project
                          ^^ "/releases/" ^^ encoded ^^ "/") []) :: tail
        /\ uri_safe encoded = true
        /\ (forall c, In c (list_ascii_of_string encoded) ->
                      c <> "/"%char /\ c <> "?"%char /\ c <> "#"%char
                      /\ c <> " "%char)
        /\ percent_decode encoded = version
        /\ (forall other,
              encodeURIComponent other = Return encoded -> other = version)
        /\ (forall other,
              health_url org project other = health_url org project version ->
              other = version)).
Proof.
  intros Ho Hp Ht Hv.
  pose proof (get_release_health_from_version upstream params org project h
                Ho Hp) as E.
  rewrite Ht in E. unfold ret in E. rewrite Hv in E.
  split.
  - intros Hw. rewrite Hw in E. unfold encodeURIComponent. rewrite Hw.
    split; [reflexivity|exact E].
  - intros Hw. rewrite Hw in E.
    exists (percent_encode version).
    destruct (starts_with_axios_get upstream (health_url org project version)
                [] h) as [tail Htail].
    exists tail. split; [unfold encodeURIComponent; rewrite Hw; reflexivity|].
    split.
    { rewrite E.
      destruct (axios_get upstream (health_url org project version) [] h)
        as [[resp|e] h1]; exact Htail. }
    split; [apply percent_encode_safe|].
    split; [intros c; apply uri_safe_characters, percent_encode_safe|].
    split; [apply percent_decode_encode|].
    split.
    + intros other Hother. unfold encodeURIComponent in Hother.
      destruct (well_formed other); [|discriminate Hother].
      inversion Hother as [Hx]. apply percent_encode_inj. exact Hx.
    + intros other. apply health_url_inj.
Qed.

(** X9 on the reference host: the version [web@1.0/beta] goes out with its
    [@] and [/] encoded. *)
Lemma release_version_is_percent_encoded_witness :
  exists tail,
    snd (get_release_health_exec (host := reference_host)
           (always (Rejected "down"))
           [("project_slug", JString "web");
            ("release_version", JString "web@1.0/beta")] [])
    = [] ++ EvRequest
              (mkRequest
                 "https://sentry.io/api/0/projects/acme/web/releases/web%401.0%2Fbeta/"
                 []) :: tail.
Proof.
  destruct (release_version_is_percent_encoded reference_host
              (always (Rejected "down"))
              [("project_slug", JString "web");
               ("release_version", JString "web@1.0/beta")]
              "acme" "web" "web@1.0/beta" []
              eq_refl eq_refl eq_refl eq_refl) as [_ Hok].
  destruct (Hok eq_refl) as (encoded & tail & Henc & Hsnd & _).
  exists tail. rewrite Hsnd. inversion Henc. reflexivity.
Defined.

(** X10.  The release tools ask for the organization the call names and
    fall back to the configured one: an [org_slug] that is absent or falsy
    (empty, [null], [false], 0) or converts to the empty string gives
    [SENTRY_ORG_SLUG], any other is used as converted by [String].  When
    the slugs convert, the first request of [get_releases] and of
    [list_recent_releases] (given a [count] that converts) is the release
    list of that organization and project under the relative path, that of
    [get_release_issues] the same list under the absolute URL.  A slug
    that does not convert ends the call with the error envelope of the
    conversion, and nothing is sent. *)
Theorem org_slug_falls_back (host : Host) (upstream : Upstream)
  (args : list (string * value)) (h : History) :
  has_key "project_slug" args = true ->
  (forall org project,
      effective_org args = Return org ->
      String_ (prop args "project_slug") = Return project ->
      (exists tail,
          snd (CallTool_handler upstream (mkCall "get_releases" (Some args)) h)
          = h ++ EvRequest (mkRequest (releases_path org project) []) :: tail)
      /\ (forall n,
            Number_ (prop args "count") = Return n ->
            exists tail,
              snd (CallTool_handler upstream
                     (mkCall "list_recent_releases" (Some args)) h)
              = h ++ EvRequest (mkRequest (releases_path org project) []) :: tail)
      /\ (exists tail,
            snd (CallTool_handler upstream
                   (mkCall "get_release_issues" (Some args)) h)
            = h ++ EvRequest (mkRequest (releases_url org project) []) :: tail))
  /\ ((exists e, effective_org args = Throw e)
      \/ (exists e, String_ (prop args "project_slug") = Throw e) ->
      forall tool,
        In tool ["get_releases"; "list_recent_releases"; "get_release_issues";
                 "get_release_health"] ->
        CallTool_handler upstream (mkCall tool (Some args)) h
        = (Return (mkEnvelope (JObject [])
                     [mkBlock "text"
                        (Some (error_text
                                 "Cannot convert object to primitive value"))]
                     (Some true)), h))
  /\ (truthy (prop args "org_slug") = false ->
      effective_org args = Return SENTRY_ORG_SLUG)
  /\ (forall s, prop args "org_slug" = JString s -> s <> "" ->
                effective_org args = Return s).
Proof.
  intros Hk. split; [|split; [|split]].
  - intros org project Ho Hp. split; [|split].
    + rewrite handler_history by reflexivity.
      rewrite (run_get_releases upstream args h Hk).
      destruct (org_or_default_effective args [] (JString project) JUndefined
                  org (or_introl eq_refl) Ho) as (org_slug & Hs & Hd).
      unfold bind at 1. unfold lift at 1. rewrite Hp, Hs. cbn [result_bind].
      apply (starts_get_releases upstream _ org project);
        [rewrite Hd; reflexivity|reflexivity].
    + intros n Hn. rewrite handler_history by reflexivity.
      rewrite (run_list_recent_releases upstream args h Hk).
      assert (Hc : exists c,
                 (if truthy (prop args "count")
                  then let+ c := Number_ (prop args "count") in
                       Return (JNumber c)
                  else Return JUndefined) = Return c).
      { rewrite Hn. destruct (truthy (prop args "count")); eexists; reflexivity. }
      destruct Hc as [c Hc].
      destruct (org_or_default_effective args [("count", c)] (JString project)
                  JUndefined org (or_introl eq_refl) Ho) as (org_slug & Hs & Hd).
      unfold bind at 1. unfold lift at 1. rewrite Hp, Hs, Hc. cbn [result_bind].
      apply (starts_list_recent_releases upstream _ org project);
        [rewrite Hd; reflexivity|reflexivity].
    + rewrite handler_history by reflexivity.
      rewrite (run_get_release_issues upstream args h Hk).
      destruct (org_or_default_effective args [] (JString project)
                  (JString SENTRY_ORG_SLUG) org (or_intror eq_refl) Ho)
        as (org_slug & Hs & Hd).
      unfold bind at 1. unfold lift at 1. rewrite Hp, Hs. cbn [result_bind].
      apply (starts_get_release_issues upstream _ org project);
        [rewrite Hd; reflexivity|reflexivity|reflexivity].
  - intros Hc tool Htool.
    assert (G : tool_not_found upstream (mkCall tool (Some args)) = false).
    { simpl in Htool. destruct Htool as [<-|[<-|[<-|[<-|[]]]]]; reflexivity. }
    rewrite (handler_returns_past_guard upstream _ h G).
    rewrite (run_release_tool_unconverted upstream tool args h Htool Hk Hc).
    reflexivity.
  - intros Hf. unfold effective_org. rewrite Hf. reflexivity.
  - intros s Hs Hne. unfold effective_org. rewrite Hs. cbn [truthy String_].
    apply String.eqb_neq in Hne. rewrite Hne. cbn [negb result_bind].
    rewrite Hne. reflexivity.
Qed.

(** X10 on the reference host: an empty [org_slug] goes to the configured
    organization [acme], a given one is used, and one that does not convert
    ends the call. *)
Lemma org_slug_falls_back_witness :
  (exists tail,
     snd (CallTool_handler (host := reference_host) (always (Rejected "down"))
            (mkCall "get_releases"
               (Some [("project_slug", JString "web"); ("org_slug", JString "")]))
            [])
     = [] ++ EvRequest (mkRequest "projects/acme/web/releases/" []) :: tail)
  /\ (exists tail,
        snd (CallTool_handler (host := reference_host) (always (Rejected "down"))
               (mkCall "get_releases"
                  (Some [("project_slug", JString "web");
                         ("org_slug", JString "other")])) [])
        = [] ++ EvRequest (mkRequest "projects/other/web/releases/" []) :: tail)
  /\ CallTool_handler (host := reference_host) (always (Rejected "down"))
       (mkCall "get_releases"
          (Some [("project_slug", JString "web");
                 ("org_slug", JObject [("toString", JNull)])])) []
     = (Return (mkEnvelope (JObject [])
                  [mkBlock "text"
                     (Some (error_text
                              "Cannot convert object to primitive value"))]
                  (Some true)), []).
Proof.
  split; [|split].
  - destruct (org_slug_falls_back reference_host (always (Rejected "down"))
                [("project_slug", JString "web"); ("org_slug", JString "")] []
                eq_refl) as (H & _).
    destruct (H "acme" "web" eq_refl eq_refl) as (H1 & _). exact H1.
  - destruct (org_slug_falls_back reference_host (always (Rejected "down"))
                [("project_slug", JString "web"); ("org_slug", JString "other")] []
                eq_refl) as (H & _).
    destruct (H "other" "web" eq_refl eq_refl) as (H1 & _). exact H1.
  - destruct (org_slug_falls_back reference_host (always (Rejected "down"))
                [("project_slug", JString "web");
                 ("org_slug", JObject [("toString", JNull)])] []
                eq_refl) as (_ & H & _).
    apply H; [left; eexists; reflexivity|simpl; tauto].
Defined.



(** X12.  [get_issue] is decided by its [issue_id] and the reply to its one
    request.  An [issue_id] that does not convert to a string ends the call
    before anything is sent; otherwise [/issues/<issue_id>/] is requested.
    An upstream failure is passed on as it is; a reply whose body is
    [null] or missing fails with the engine's [TypeError] for reading
    [id]; any other body gives the object of its [id], [title] and
    [permalink], so a body that is no object (a string, a number, an
    array) gives an object without properties, serialized as [{}]. *)
Theorem get_issue_outcome (host : Host) (upstream : Upstream)
  (params : list (string * value)) (h : History) :
  get_issue_exec upstream params h
  = match String_ (prop params "issue_id") with
    | Throw e => (Throw e, h)
    | Return issue_id =>
        match axios_get upstream ("/issues/" ^^ issue_id ^^ "/") [] h with
        | (Return resp, h') =>
            match data resp with
            | JUndefined =>
                (Throw (TypeError
                          "Cannot read properties of undefined (reading 'id')"),
                 h')
            | JNull =>
                (Throw (TypeError
                          "Cannot read properties of null (reading 'id')"), h')
            | _ => (Return (issue_view (data resp)), h')
            end
        | (Throw e, h') => (Throw e, h')
        end
    end
  /\ (forall payload,
        nullish payload = false -> is_object payload = false ->
        JSON_stringify (issue_view payload) = Some "{}").
Proof.
  split.
  - unfold get_issue_exec, bind, lift.
    destruct (String_ (prop params "issue_id")) as [issue_id|e];
      cbn [result_bind]; [|reflexivity].
    destruct (axios_get upstream _ [] h) as [[resp|e] h']; [|reflexivity].
    destruct (data resp); reflexivity.
  - intros payload Hn Ho. destruct payload; try discriminate; reflexivity.
Qed.

(** X13.  An envelope with [isError] true is the one text block
    [{"error":"Failed to execute tool","details":"<message>"}] for the
    message of one of three kinds of error, and no other: the validation
    error of the named tool, raised with nothing sent when a required field
    is missing; [Unknown tool], for a name that is not registered; or an
    error met while the parameters are converted or the tool runs, which is
    an upstream failure that outlasted the retries (with the message the
    upstream gave), a [TypeError] of the engine (an argument or a value of
    a payload that cannot be converted to a string or number, a property
    read of [null] or [undefined], a method the payload does not have), the
    [URIError] for a release version that cannot be encoded, or one of the
    messages [No releases found], [No releases found for project ...] and
    [Could not determine release version.]. *)
Theorem error_envelope_origins (host : Host) (upstream : Upstream)
  (request : CallToolRequest) (h h' : History) (envelope : CallToolResult) :
  CallTool_handler upstream request h = (Return envelope, h') ->
  isError envelope = Some true ->
  exists e,
    envelope = mkEnvelope (JObject [])
                 [mkBlock "text" (Some (error_text (message e)))] (Some true)
    /\ run_tool upstream request h = (Throw e, h')
    /\ ((exists requirement field,
           e = invalid_arguments (name request) requirement
           /\ h' = h
           /\ In field (required_fields (name request))
           /\ supplied field (arguments request) = false)
        \/ (e = Error_ "Unknown tool" /\ h' = h
            /\ ~ In (name request) (Object_keys (tools upstream)))
        \/ tool_error upstream e).
Proof.
  intros Hcall Herr.
  assert (G : tool_not_found upstream request = false).
  { unfold CallTool_handler in Hcall.
    destruct (tool_not_found upstream request); [discriminate Hcall|reflexivity]. }
  rewrite (handler_returns_past_guard upstream request h G) in Hcall.
  destruct (run_tool upstream request h) as [[v|e] h1] eqn:Hrun;
    inversion Hcall; subst; [discriminate Herr|].
  exists e. split; [apply error_envelope_text|]. split; [reflexivity|].
  revert Hrun. unfold run_tool.
  destruct (String.eqb_spec (name request) "list_recent_releases") as [E|N1].
  { rewrite E. destruct (has_all _ _) eqn:Ha; intros H.
    - right. right. eapply params_Throw; [| |exact H].
      + intros Hr. throw_steps; try assumption.
        destruct (truthy (prop l "count")); throw_steps; assumption.
      + intros params h0. apply list_recent_releases_Throw.
    - left. inversion H; subst.
      destruct (has_all_None _ _ Ha ltac:(discriminate)) as (k & Hin & Hk).
      exists "project_slug", k. auto. }
  destruct (String.eqb_spec (name request) "get_releases") as [E|N2].
  { rewrite E. destruct (has_all _ _) eqn:Ha; intros H.
    - right. right. eapply params_Throw; [| |exact H].
      + intros Hr. throw_steps; assumption.
      + intros params h0. apply get_releases_Throw.
    - left. inversion H; subst.
      destruct (has_all_None _ _ Ha ltac:(discriminate)) as (k & Hin & Hk).
      exists "project_slug", k. auto. }
  destruct (String.eqb_spec (name request) "get_issue") as [E|N3].
  { rewrite E. destruct (has_all _ _) eqn:Ha; intros H.
    - right. right. eapply params_Throw; [| |exact H].
      + intros Hr. throw_steps; assumption.
      + intros params h0. apply get_issue_Throw.
    - left. inversion H; subst.
      destruct (has_all_None _ _ Ha ltac:(discriminate)) as (k & Hin & Hk).
      exists "issue_id, org_slug and project_slug", k. auto. }
  destruct (String.eqb_spec (name request) "get_release_issues") as [E|N4].
  { rewrite E. destruct (has_all _ _) eqn:Ha; intros H.
    - right. right. eapply params_Throw; [| |exact H].
      + intros Hr. throw_steps; assumption.
      + intros params h0. apply get_release_issues_Throw.
    - left. inversion H; subst.
      destruct (has_all_None _ _ Ha ltac:(discriminate)) as (k & Hin & Hk).
      exists "project_slug", k. auto. }
  destruct (String.eqb_spec (name request) "inspect_sentry") as [E|N5].
  { intros H. discriminate H. }
  destruct (String.eqb_spec (name request) "get_release_health") as [E|N6].
  { rewrite E. destruct (has_all _ _) eqn:Ha; intros H.
    - right. right. eapply params_Throw; [| |exact H].
      + intros Hr. throw_steps; assumption.
      + intros params h0. apply get_release_health_Throw.
    - left. inversion H; subst.
      destruct (has_all_None _ _ Ha ltac:(discriminate)) as (k & Hin & Hk).
      exists "project_slug", k. auto. }
  intros H. inversion H; subst. right. left.
  split; [reflexivity|]. split; [reflexivity|].
  rewrite tools_keys. simpl. intuition congruence.
Qed.

(** X13 on the reference host: an upstream that keeps failing. *)
Lemma error_envelope_origins_witness :
  exists e,
    CallTool_handler (host := reference_host)
      (always (Rejected "Request failed with status code 500"))
      (mkCall "get_issue"
         (Some [("issue_id", JString "42"); ("org_slug", JString "acme");
                ("project_slug", JString "web")])) []
    = (Return (mkEnvelope (JObject [])
                 [mkBlock "text" (Some (error_text (message e)))] (Some true)),
       [EvRequest (mkRequest "/issues/42/" []); EvDelay 1000;
        EvRequest (mkRequest "/issues/42/" []); EvDelay 2000;
        EvRequest (mkRequest "/issues/42/" []); EvDelay 3000;
        EvRequest (mkRequest "/issues/42/" [])])
    /\ tool_error (always (Rejected "Request failed with status code 500")) e.
Proof.
  destruct (error_envelope_origins reference_host
              (always (Rejected "Request failed with status code 500"))
              (mkCall "get_issue"
                 (Some [("issue_id", JString "42"); ("org_slug", JString "acme");
                        ("project_slug", JString "web")])) []
              [EvRequest (mkRequest "/issues/42/" []); EvDelay 1000;
               EvRequest (mkRequest "/issues/42/" []); EvDelay 2000;
               EvRequest (mkRequest "/issues/42/" []); EvDelay 3000;
               EvRequest (mkRequest "/issues/42/" [])]
              (error_envelope (AxiosError "Request failed with status code 500"))
              eq_refl eq_refl)
    as (e & He & Hrun & Horigin).
  exists e. split.
  - rewrite <- He. reflexivity.
  - inversion Hrun; subst e. left.
    exists "Request failed with status code 500", [], (mkRequest "/issues/42/" []).
    split; reflexivity.
Defined.

(** X14.  A tool call depends on its argument record only through the
    properties the tool's input schema declares: two records that agree on
    every declared property give the same requests and the same envelope,
    whatever else they hold.  Arguments outside the schema are ignored, not
    rejected. *)
Theorem undeclared_arguments_are_ignored (host : Host) (upstream : Upstream)
  (tool : string) (args1 args2 : list (string * value)) (h : History) :
  In tool (Object_keys (tools upstream)) ->
  (forall k, In k (declared_properties tool) -> agree_on k args1 args2) ->
  CallTool_handler upstream (mkCall tool (Some args1)) h
  = CallTool_handler upstream (mkCall tool (Some args2)) h.
Proof.
  intros Htool Hagree.
  assert (G : forall args, tool_not_found upstream (mkCall tool (Some args)) = false).
  { intros args. apply registered_passes_guard. cbn [name].
    apply existsb_exists. exists tool. split; [exact Htool|apply String.eqb_refl]. }
  rewrite !handler_returns_past_guard by apply G.
  assert (E : run_tool upstream (mkCall tool (Some args1)) h
              = run_tool upstream (mkCall tool (Some args2)) h);
    [|rewrite E; reflexivity].
  rewrite tools_keys in Htool. simpl in Htool.
  destruct Htool as [T|[T|[T|[T|[T|[T|[]]]]]]]; subst tool;
    cbn in Hagree;
    repeat match goal with
           | H : forall k, _ -> agree_on k args1 args2 |- _ =>
               first
                 [ pose proof (agree_on_prop _ _ _ (H "project_slug" ltac:(tauto)))
                     as [? ?]
                 | idtac ];
               first
                 [ pose proof (agree_on_prop _ _ _ (H "org_slug" ltac:(tauto)))
                     as [? ?]
                 | idtac ];
               first
                 [ pose proof (agree_on_prop _ _ _ (H "count" ltac:(tauto)))
                     as [? ?]
                 | idtac ];
               first
                 [ pose proof (agree_on_prop _ _ _ (H "issue_id" ltac:(tauto)))
                     as [? ?]
                 | idtac ];
               first
                 [ pose proof (agree_on_prop _ _ _ (H "release_version" ltac:(tauto)))
                     as [? ?]
                 | idtac ];
               clear H
           end;
    unfold run_tool, has_all, string_or;
    cbn [name arguments forallb String.eqb Ascii.eqb Bool.eqb];
    repeat match goal with
           | H : has_key _ args1 = has_key _ args2 |- _ =>
               try rewrite H; clear H
           end;
    repeat match goal with
           | |- context [if ?b then Some args1 else None] => destruct b
           end;
    cbn beta iota;
    repeat match goal with
           | H : prop args1 _ = prop args2 _ |- _ => try rewrite H; clear H
           end;
    reflexivity.
Qed.

(** X14 on the reference host: a stray [limit] argument changes nothing. *)
Lemma undeclared_arguments_are_ignored_witness :
  CallTool_handler (host := reference_host)
    (always (Resolved (mkResponse 200
       (JArray [release "a" "2023-10-26T15:00:00Z" 0]))))
    (mkCall "get_releases"
       (Some [("project_slug", JString "web"); ("limit", JNumber (Num 1))])) []
  = CallTool_handler (host := reference_host)
      (always (Resolved (mkResponse 200
         (JArray [release "a" "2023-10-26T15:00:00Z" 0]))))
      (mkCall "get_releases" (Some [("project_slug", JString "web")])) [].
Proof.
  apply (undeclared_arguments_are_ignored reference_host _ "get_releases").
  - simpl. tauto.
  - intros k Hk. simpl in Hk.
    destruct Hk as [<-|[<-|[]]]; reflexivity.
Defined.

(** X15.  The module starts to serve exactly when [SENTRY_AUTH_TOKEN],
    [SENTRY_BASE_URL] and [SENTRY_ORG_SLUG] are all set to non-empty
    strings, and then binds those strings.  Otherwise the process exits
    with code 1 after one line on the diagnostic stream, naming the first of
    the three (in that order) that is unset or empty.  On a host configured
    by a start that succeeded, [inspect_sentry] therefore always reports
    [authTokenConfigured] as true. *)
Theorem startup_requires_configuration (upstream : Upstream) (env : ProcessEnv) :
  match startup env with
  | Started authToken baseUrl orgSlug =>
      exists t b o,
        authToken = JString t /\ baseUrl = JString b /\ orgSlug = JString o
        /\ t <> "" /\ b <> "" /\ o <> ""
        /\ env_get "SENTRY_AUTH_TOKEN" env = JString t
        /\ env_get "SENTRY_BASE_URL" env = JString b
        /\ env_get "SENTRY_ORG_SLUG" env = JString o
        /\ forall (host : Host) params h,
             SENTRY_AUTH_TOKEN = t ->
             exists v,
               inspect_sentry_exec (Object_keys (tools upstream)) params h
               = (Return v, h)
               /\ member (member v "configuration") "authTokenConfigured"
                  = JBool true
  | Exited code stderr =>
      code = 1
      /\ exists missing earlier later,
           ["SENTRY_AUTH_TOKEN"; "SENTRY_BASE_URL"; "SENTRY_ORG_SLUG"]
           = earlier ++ missing :: later
           /\ stderr = [required_message missing]
           /\ truthy (env_get missing env) = false
           /\ Forall (fun k => truthy (env_get k env) = true) earlier
  end.
Proof.
  pose proof (fun k => env_get_truthy k env) as S.
  unfold startup.
  destruct (truthy (env_get "SENTRY_AUTH_TOKEN" env)) eqn:Et; cbn [negb].
  - destruct (truthy (env_get "SENTRY_BASE_URL" env)) eqn:Eb; cbn [negb].
    + destruct (truthy (env_get "SENTRY_ORG_SLUG" env)) eqn:Eo; cbn [negb].
      * destruct (S _ Et) as (t & Ht & Nt). destruct (S _ Eb) as (b & Hb & Nb).
        destruct (S _ Eo) as (o & Ho & No).
        exists t, b, o. repeat (split; [assumption|]).
        intros host params h Htoken. eexists. split; [reflexivity|].
        unfold member. simpl. rewrite Htoken.
        apply String.eqb_neq in Nt. rewrite Nt. reflexivity.
      * split; [reflexivity|].
        exists "SENTRY_ORG_SLUG", ["SENTRY_AUTH_TOKEN"; "SENTRY_BASE_URL"], [].
        repeat split; auto.
    + split; [reflexivity|].
      exists "SENTRY_BASE_URL", ["SENTRY_AUTH_TOKEN"], ["SENTRY_ORG_SLUG"].
      repeat split; auto.
  - split; [reflexivity|].
    exists "SENTRY_AUTH_TOKEN", [], ["SENTRY_BASE_URL"; "SENTRY_ORG_SLUG"].
    repeat split; auto.
Qed.

(** X16.  The debug handler returns one text block, the indented JSON of
    its payload, and no [isError].  In the [environment] part of the
    payload the token appears as [***] followed by its last four characters
    only: the rest of a longer token is never part of it, a token of four
    characters or fewer is shown whole, and an unset or empty token shows as
    [***missing].  The client defaults and the versions are passed on into
    the payload as they are, unmasked. *)
Theorem debug_masks_token (env : ProcessEnv) (axios_defaults versions : value) :
  (exists t,
      Debug_handler env axios_defaults versions
      = mkEnvelope (JObject []) [mkBlock "text" (Some t)] None
      /\ JSON_stringify_pretty "  " "" (debug_payload env axios_defaults versions)
         = Some t)
  /\ (exists shown,
        member (member (debug_payload env axios_defaults versions) "environment")
          "SENTRY_AUTH_TOKEN"
        = JString ("***" ^^ shown)
        /\ (String.length shown <= 7)%nat
        /\ (truthy (env_get "SENTRY_AUTH_TOKEN" env) = false -> shown = "missing")
        /\ forall token,
             env_get "SENTRY_AUTH_TOKEN" env = JString token -> token <> "" ->
             exists hidden,
               token = hidden ^^ shown
               /\ String.length shown = Nat.min 4 (String.length token))
  /\ member (debug_payload env axios_defaults versions) "axiosConfig"
     = axios_defaults
  /\ member (debug_payload env axios_defaults versions) "versions" = versions.
Proof.
  split; [|split; [|split; reflexivity]].
  - eexists. split; reflexivity.
  - unfold debug_payload.
    change (member (member ?p "environment") "SENTRY_AUTH_TOKEN")
      with (JString (masked_token (env_get "SENTRY_AUTH_TOKEN" env))).
    unfold masked_token.
    destruct (truthy (env_get "SENTRY_AUTH_TOKEN" env)) eqn:T.
    + destruct (env_get_truthy _ _ T) as (token & Et & _). rewrite Et.
      destruct (String_slice_last4 token) as (hidden & Hs & Hl).
      eexists. split; [reflexivity|]. split; [lia|]. split; [discriminate|].
      intros token' Ht _. inversion Ht; subst token'. eauto.
    + eexists. split; [reflexivity|]. split; [simpl; lia|].
      split; [reflexivity|].
      intros token Ht Hne. rewrite Ht in T. simpl in T.
      apply String.eqb_neq in Hne. rewrite Hne in T. discriminate T.
Qed.

(** X17.  The text of an error envelope is one fixed frame around the
    escaped message of the error:
    [{"error":"Failed to execute tool","details":"<message>"}].  Whatever
    the message holds, its escaped form has no control character and no
    double quote that is not behind a backslash, so it cannot end the
    string early, and reading the escapes back gives the message
    unchanged. *)
Theorem error_text_frames_message (e : Error) :
  content (error_envelope e)
  = [mkBlock "text"
       (Some ("{" ^^ json_quote "error" ^^ ":"
                ^^ json_quote "Failed to execute tool" ^^ ","
                ^^ json_quote "details" ^^ ":"
                ^^ dquote ^^ json_escape (message e) ^^ dquote ^^ "}"))]
  /\ quoted_safely false (json_escape (message e)) = true
  /\ json_unescape (json_escape (message e)) = message e.
Proof.
  split; [|apply json_escape_sound].
  rewrite error_envelope_text. cbn [content]. unfold error_text.
  do 3 f_equal. generalize (json_escape (message e)). intros escaped.
  rewrite !append_assoc. vm_compute. reflexivity.
Qed.

(** X18.  The re-sort is stable: among the releases that [get_releases]
    returns, those created at one and the same instant stand in the order
    in which the upstream listed them, when every release has a
    [dateCreated] that is a date.  The organization and the project are the
    strings the two slugs convert to. *)
Theorem same_instant_keeps_upstream_order (host : Host) (upstream : Upstream)
  (params : list (string * value)) (org project : string) (h h' : History)
  (resp : AxiosResponse) (rels : list value) :
  String_ (org_or_default params) = Return org ->
  String_ (prop params "project_slug") = Return project ->
  axios_get upstream (releases_path org project) [] h = (Return resp, h') ->
  data resp = JArray rels ->
  forallb well_dated rels = true ->
  exists out,
    get_releases_exec upstream params h = (Return (JArray out), h')
    /\ forall t,
         filter (created_at t) out
         = map projection (filter (created_at t) rels).
Proof.
  intros Ho Hp Hget Hdata Hdated. apply forallb_Forall in Hdated.
  exists (map projection (sort_by_date rels)). split.
  - unfold get_releases_exec, bind, ret.
    rewrite (getSortedReleases_dated upstream _ _ org project h h' resp rels
               Ho Hp Hget Hdata Hdated).
    reflexivity.
  - intros t. rewrite filter_map_projection, sort_by_date_stable. reflexivity.
Qed.

(** X18 on the reference host: [x] and [y] of the same second stay in that
    order behind the newer [z]. *)
Lemma same_instant_keeps_upstream_order_witness :
  exists out,
    get_releases_exec (host := reference_host)
      (always (Resolved (mkResponse 200
         (JArray [release "x" "2023-10-26T15:00:00Z" 0;
                  release "y" "2023-10-26T15:00:00Z" 1;
                  release "z" "2023-10-27T10:30:00Z" 2]))))
      [("project_slug", JString "web")] []
    = (Return (JArray out), [EvRequest (mkRequest "projects/acme/web/releases/" [])])
    /\ map (fun e => member e "version")
         (filter (created_at (host := reference_host) 1698332400000) out)
       = [JString "x"; JString "y"].
Proof.
  destruct (same_instant_keeps_upstream_order reference_host
              (always (Resolved (mkResponse 200
                 (JArray [release "x" "2023-10-26T15:00:00Z" 0;
                          release "y" "2023-10-26T15:00:00Z" 1;
                          release "z" "2023-10-27T10:30:00Z" 2]))))
              [("project_slug", JString "web")] "acme" "web" []
              [EvRequest (mkRequest "projects/acme/web/releases/" [])]
              (mkResponse 200
                 (JArray [release "x" "2023-10-26T15:00:00Z" 0;
                          release "y" "2023-10-26T15:00:00Z" 1;
                          release "z" "2023-10-27T10:30:00Z" 2]))
              [release "x" "2023-10-26T15:00:00Z" 0;
               release "y" "2023-10-26T15:00:00Z" 1;
               release "z" "2023-10-27T10:30:00Z" 2]
              eq_refl eq_refl eq_refl eq_refl eq_refl)
    as (out & Hout & Hties).
  exists out. split; [exact Hout|]. rewrite Hties. reflexivity.
Defined.
